(** * FASTA preparation scripts: a shallow embedding and its properties

    The scripts of the repository ([replace_w_cd.py], [AF_batch_gen.py],
    [separate_complex.py], [FASTA Mod/make_fasta.py]) are small text
    transformers.  Python [str] values are embedded as lists of characters,
    an [OrderedDict] as an association list that keeps insertion order, and
    the [print]/[open(..., 'w')] effects as a trace of events carried by a
    small writer-and-exception monad. *)

From Stdlib Require Import Ascii String List Arith Bool Lia.
From Stdlib Require DecimalString.
Import ListNotations.

(** ** Python strings *)

(** A Python [str] restricted to code points below 256. *)
Definition str := list ascii.

(** String literals of the scripts. *)
Definition lit (s : string) : str := list_ascii_of_string s.

Module Py.

Definition LF : ascii := ascii_of_nat 10.
Definition CR : ascii := ascii_of_nat 13.
Definition GT : ascii := ascii_of_nat 62.
Definition COLON : ascii := ascii_of_nat 58.

(** [str.isspace] on one character: TAB..CR, FS..US, space, NEL, NBSP. *)
Definition isspace (c : ascii) : bool :=
  let n := nat_of_ascii c in
  ((9 <=? n) && (n <=? 13)) || ((28 <=? n) && (n <=? 32))
  || (n =? 133) || (n =? 160).

Fixpoint dropwhile (p : ascii -> bool) (s : str) : str :=
  match s with
  | [] => []
  | c :: s' => if p c then dropwhile p s' else s
  end.

(** [s.lstrip()], [s.rstrip()], [s.strip()] *)
Definition lstrip (s : str) : str := dropwhile isspace s.
Definition rstrip (s : str) : str := rev (dropwhile isspace (rev s)).
Definition strip (s : str) : str := rstrip (lstrip s).

(** [s.lstrip('>')]: every leading occurrence of the character goes. *)
Definition lstrip_chars (c : ascii) (s : str) : str :=
  dropwhile (Ascii.eqb c) s.

(** [s.startswith(p)] *)
Fixpoint startswith (p s : str) : bool :=
  match p, s with
  | [], _ => true
  | _ :: _, [] => false
  | a :: p', b :: s' => Ascii.eqb a b && startswith p' s'
  end.

(** [sep.join(parts)] *)
Fixpoint join (sep : str) (parts : list str) : str :=
  match parts with
  | [] => []
  | [p] => p
  | p :: ps => p ++ sep ++ join sep ps
  end.

(** [s.split(sep)] for a one-character separator: never an empty list. *)
Fixpoint split (sep : ascii) (s : str) : list str :=
  match s with
  | [] => [[]]
  | c :: s' =>
      if Ascii.eqb c sep then [] :: split sep s'
      else match split sep s' with
           | [] => [[c]]
           | p :: ps => (c :: p) :: ps
           end
  end.

(** [s.split(sep, 1)]: at most one cut, at the first separator. *)
Fixpoint split1 (sep : ascii) (s : str) : list str :=
  match s with
  | [] => [[]]
  | c :: s' =>
      if Ascii.eqb c sep then [[]; s']
      else match split1 sep s' with
           | p :: ps => (c :: p) :: ps
           | [] => [[c]]
           end
  end.

(** [s[:n]], [s[n:]] and [s[i:j]] for non-negative bounds: Python clamps
    a bound past the end, as [firstn] and [skipn] do. *)
Definition slice_to (n : nat) (s : str) : str := firstn n s.
Definition slice_from (n : nat) (s : str) : str := skipn n s.
Definition slice (i j : nat) (s : str) : str := firstn (j - i) (skipn i s).

(** [range(0, n, step)] for [step > 0]. *)
Definition range_step (n step : nat) : list nat :=
  map (fun k => k * step) (seq 0 ((n + step - 1) / step)).

(** Text-mode reading with universal newlines: CR LF and a lone CR both
    arrive as LF. *)
Fixpoint translate_newlines (t : str) : str :=
  match t with
  | [] => []
  | c :: t' =>
      if Ascii.eqb c CR then
        LF :: match t' with
              | d :: t'' => if Ascii.eqb d LF then translate_newlines t''
                            else translate_newlines t'
              | [] => []
              end
      else c :: translate_newlines t'
  end.

(** Lines of a translated text, each with its terminating LF; a last
    line without LF is kept when it is not empty. *)
Fixpoint lines_from (cur : str) (t : str) : list str :=
  match t with
  | [] => match cur with [] => [] | _ => [cur] end
  | c :: t' =>
      if Ascii.eqb c LF then (cur ++ [LF]) :: lines_from [] t'
      else lines_from (cur ++ [c]) t'
  end.

(** [f.readlines()] / [for line in f] on a file opened with mode ['r']. *)
Definition readlines (t : str) : list str :=
  lines_from [] (translate_newlines t).

(** Truth value of a [str] and of an optional [str] ([None] is false). *)
Definition truthy (s : str) : bool :=
  match s with [] => false | _ => true end.
Definition truthy_opt (o : option str) : bool :=
  match o with Some s => truthy s | None => false end.

Definition str_eqb (a b : str) : bool :=
  if list_eq_dec ascii_dec a b then true else false.

End Py.

(** ** OrderedDict *)

Module OrderedDict.

Definition t := list (str * str).

(** [d[k] = v]: a present key keeps its place, a new key goes last. *)
Fixpoint set (k v : str) (d : t) : t :=
  match d with
  | [] => [(k, v)]
  | (k', v') :: d' =>
      if Py.str_eqb k' k then (k', v) :: d' else (k', v') :: set k v d'
  end.

Definition keys (d : t) : list str := map fst d.

End OrderedDict.

(** ** Effects: printed lines, written files, exceptions *)

Inductive exn : Type :=
| OSError (msg : str)
| ValueError (msg : str)
| IndexError (msg : str).

(** [str(e)] *)
Definition exn_str (e : exn) : str :=
  match e with OSError m | ValueError m | IndexError m => m end.

Definition is_ValueError (e : exn) : bool :=
  match e with ValueError _ => true | _ => false end.

Inductive event : Type :=
| Print (line : str)
| MakeDir (path : str)
| WriteFile (path : str) (content : str).

(** A computation leaves a trace and either raises or returns. *)
Definition M (A : Type) : Type := (list event * (exn + A))%type.

Definition ret {A} (a : A) : M A := ([], inr a).
Definition raise {A} (e : exn) : M A := ([], inl e).
Definition emit (ev : event) : M unit := ([ev], inr tt).
Definition print (line : str) : M unit := emit (Print line).

Definition bind {A B} (m : M A) (k : A -> M B) : M B :=
  match m with
  | (tr, inl e) => (tr, inl e)
  | (tr, inr a) => let (tr', r) := k a in (tr ++ tr', r)
  end.

(** [try: m except Exception as e: ...]: the handler sees what [m] raised. *)
Definition try_except {A} (m : M A) : M (exn + A) :=
  match m with (tr, r) => (tr, inr r) end.

(** [try: m except ValueError: ...]: anything else keeps propagating. *)
Definition try_ValueError {A} (m : M A) : M (option A) :=
  match m with
  | (tr, inr a) => (tr, inr (Some a))
  | (tr, inl e) => if is_ValueError e then (tr, inr None) else (tr, inl e)
  end.

Declare Scope py_scope.
Delimit Scope py_scope with py.
Notation "x <- m ;; k" := (bind m (fun x => k))
  (at level 61, m at next level, right associativity) : py_scope.
Notation "m ;; k" := (bind m (fun _ => k))
  (at level 61, right associativity) : py_scope.
Open Scope py_scope.

(** [for x in xs: body(x)] *)
Fixpoint for_each {A} (xs : list A) (body : A -> M unit) : M unit :=
  match xs with
  | [] => ret tt
  | x :: xs' => body x ;; for_each xs' body
  end.

(** [xs[i]] *)
Definition index (xs : list str) (i : nat) : M str :=
  match nth_error xs i with
  | Some x => ret x
  | None => raise (IndexError (lit "list index out of range"))
  end.

(** [a, b = parts] *)
Definition unpack2 (parts : list str) : M (str * str) :=
  match parts with
  | [a; b] => ret (a, b)
  | _ => raise (ValueError (lit "not enough values to unpack (expected 2, got 1)"))
  end.

Definition trace {A} (m : M A) : list event := fst m.

(** The files a trace wrote, and the lines it printed. *)
Definition written (tr : list event) : list (str * str) :=
  flat_map (fun ev => match ev with
                      | WriteFile p c => [(p, c)]
                      | _ => []
                      end) tr.
Definition printed (tr : list event) : list str :=
  flat_map (fun ev => match ev with Print l => [l] | _ => [] end) tr.

Definition result {A} (m : M A) : exn + A := snd m.

(** A file as the scripts meet it: its path, and what opening and reading
    it gives (the decoded text, or the exception raised). *)
Definition file : Type := (str * (exn + str))%type.

(** [Path(p).name] / [os.path.basename] for a path without trailing slash. *)
Definition basename (p : str) : str :=
  last (Py.split (ascii_of_nat 47) p) [].

Definition SLASH : ascii := ascii_of_nat 47.

(** [a.endswith('/')] *)
Definition endswith_slash (a : str) : bool :=
  match rev a with
  | c :: _ => Ascii.eqb c SLASH
  | [] => false
  end.

(** [os.path.join(dir, name)] on a POSIX system: an absolute [name]
    replaces [dir]; no separator is added after an empty [dir] or after
    one that ends with a separator. *)
Definition path_join (dir name : str) : str :=
  if Py.startswith [SLASH] name then name
  else if negb (Py.truthy dir) || endswith_slash dir then dir ++ name
  else dir ++ [SLASH] ++ name.

(** [posixpath.splitroot]: the root of a path (one separator, or two when
    the path starts with exactly two) and what follows it. *)
Definition splitroot (p : str) : str * str :=
  match p with
  | c1 :: r1 =>
      if Ascii.eqb c1 SLASH then
        match r1 with
        | c2 :: r2 =>
            if Ascii.eqb c2 SLASH then
              match r2 with
              | c3 :: _ =>
                  if Ascii.eqb c3 SLASH then ([SLASH], r1)
                  else ([SLASH; SLASH], r2)
              | [] => ([SLASH; SLASH], r2)
              end
            else ([SLASH], r1)
        | [] => ([SLASH], r1)
        end
      else ([], p)
  | [] => ([], p)
  end.

(** [str(Path(p))]: the root, then the components that are neither empty
    nor a single dot, joined by one separator; a lone dot when nothing is
    left. *)
Definition Path_str (p : str) : str :=
  let (root, rel) := splitroot p in
  let tail :=
    filter (fun x => Py.truthy x && negb (Py.str_eqb x (lit ".")))
      (Py.split SLASH rel) in
  if Py.truthy root then root ++ Py.join [SLASH] tail
  else match tail with
       | [] => lit "."
       | _ => Py.join [SLASH] tail
       end.

(** [str(Path(dir) / name)] *)
Definition path_div (dir name : str) : str := Path_str (path_join dir name).

(** ** replace_w_cd.py *)

Module ReplaceWCd.

Definition INPUT_DIR : str := lit "MMP2".
Definition OUTPUT_DIR : str := lit "output_fastas".
Definition REPLACEMENT_SEQUENCE : str :=
  lit "YNFFPRKPKWDKNQITYRIIGYTPDLDPETVDDAFARAFQVWSDVTPLRFSRIHDGEADIMINFGRWEHGDGYPFDGKDGLLAHAFAPGTGVGGDSHFDDDELWTLGEGQVGYSLFLVAAHEFGHAMGLEHSQDPGALMAPIYTYTKNFRLSQDDIKGIQELYGASPDGSDYKDDDDK".

(** The three locals of [parse_fasta]. *)
Record pstate : Type := mk_pstate {
  sequences : OrderedDict.t;
  current_header : option str;
  current_sequence_lines : list str
}.

Definition init : pstate := mk_pstate [] None [].

(** [if current_header: sequences[current_header] = "".join(lines)] *)
Definition flush (st : pstate) : OrderedDict.t :=
  match current_header st with
  | Some h =>
      if Py.truthy h
      then OrderedDict.set h (Py.join [] (current_sequence_lines st))
             (sequences st)
      else sequences st
  | None => sequences st
  end.

(** One turn of the loop [for line in f]. *)
Definition step (st : pstate) (raw : str) : pstate :=
  let line := Py.strip raw in
  if negb (Py.truthy line) then st
  else if Py.startswith [Py.GT] line
  then mk_pstate (flush st) (Some line) []
  else mk_pstate (sequences st) (current_header st)
         (current_sequence_lines st ++ [line]).

(** The parser on the line stream of an opened file. *)
Definition parse_lines (lines : list str) : OrderedDict.t :=
  flush (fold_left step lines init).

Definition parse_fasta (f : file) : M OrderedDict.t :=
  match snd f with
  | inl e => raise e
  | inr text => ret (parse_lines (Py.readlines text))
  end.

(** The text one record contributes, sequence wrapped at [width]. *)
Definition record_text (width : nat) (rec : str * str) : str :=
  let (header, seq) := rec in
  header ++ [Py.LF]
  ++ concat (map (fun i => Py.slice i (i + width) seq ++ [Py.LF])
               (Py.range_step (length seq) width)).

(** What [write_fasta] puts in the file, for a wrap width. *)
Definition fasta_text (width : nat) (d : OrderedDict.t) : str :=
  concat (map (record_text width) d).

(** [write_fasta].  [open_w] is what the file system answers when a path
    is opened for writing: nothing, or the exception that [open] raises. *)
Definition write_fasta (open_w : str -> option exn) (file_path : str)
    (d : OrderedDict.t) : M unit :=
  match open_w file_path with
  | Some e => raise e
  | None => emit (WriteFile file_path (fasta_text 60 d))
  end.

(** Step 3 of [process_fasta_file]: the filename rule. *)
Definition substitute (filename second_header replacement_seq : str)
    (d : OrderedDict.t) : M OrderedDict.t :=
  if Py.startswith (lit "complex_") filename then
    let description := Py.slice_from 1 second_header in
    parts <- try_ValueError (unpack2 (Py.split1 Py.COLON description)) ;;
    match parts with
    | None =>
        print (lit "  Warning: 'complex_' file " ++ filename
               ++ lit " does not have a ':' in the second header. Replacing the whole second sequence.") ;;
        ret (OrderedDict.set second_header replacement_seq d)
    | Some (protein_id, rest_of_header) =>
        let new_header := [Py.GT] ++ protein_id ++ [Py.COLON] ++ replacement_seq in
        let d' := OrderedDict.set second_header replacement_seq d in
        print (lit "  Result: Replaced second sequence with predefined sequence. Header remains: "
               ++ second_header) ;;
        ret d'
    end
  else
    let d' := OrderedDict.set second_header replacement_seq d in
    print (lit "  Result: Replaced second sequence with predefined sequence. Header remains: "
           ++ second_header) ;;
    ret d'.

Definition process_fasta_file (open_w : str -> option exn) (f : file)
    (output_dir replacement_seq : str) : M unit :=
  let filename := basename (fst f) in
  print (lit "Processing: " ++ filename) ;;
  parsed <- try_except (parse_fasta f) ;;
  match parsed with
  | inl e =>
      print (lit "Error parsing " ++ filename ++ lit ": " ++ exn_str e)
  | inr sequences =>
      let headers := OrderedDict.keys sequences in
      if length headers <? 2 then
        print (lit "  Skipping: " ++ filename
               ++ lit " has less than two sequences.")
      else
        second_header <- index headers 1 ;;
        sequences' <- substitute filename second_header replacement_seq
                        sequences ;;
        let output_file_path := path_div output_dir filename in
        write_fasta open_w output_file_path sequences' ;;
        print (lit "  Wrote modified file to: " ++ output_file_path)
  end.

(** [Path(p).mkdir(exist_ok=True)], given the exception it raises, if
    any. *)
Definition mkdir (mkdir_error : option exn) (p : str) : M unit :=
  match mkdir_error with
  | Some e => raise e
  | None => emit (MakeDir p)
  end.

(** [main], given what the two globs over [INPUT_DIR] return and what the
    file system answers. *)
Definition main (open_w : str -> option exn) (mkdir_error : option exn)
    (fasta_files : list file) : M unit :=
  print (lit "--- Starting FASTA Processor ---") ;;
  mkdir mkdir_error OUTPUT_DIR ;;
  match fasta_files with
  | [] =>
      print (lit "No FASTA files found in " ++ INPUT_DIR
             ++ lit ". Please check the path and file extensions.")
  | _ =>
      for_each fasta_files
        (fun file_path =>
           process_fasta_file open_w file_path OUTPUT_DIR
             REPLACEMENT_SEQUENCE) ;;
      print (lit "--- Processing Complete ---")
  end.

End ReplaceWCd.

(** ** AF_batch_gen.py *)

Module AFBatchGen.

(** The locals of [parse_fasta]: the list built so far, the open header,
    the lines collected for it. *)
Record pstate : Type := mk_pstate {
  sequences : list (str * str);
  header : option str;
  seq_lines : list str
}.

Definition init : pstate := mk_pstate [] None [].

(** [if header: sequences.append((header, ''.join(seq_lines)))] *)
Definition flush (st : pstate) : list (str * str) :=
  if Py.truthy_opt (header st)
  then match header st with
       | Some h => sequences st ++ [(h, Py.join [] (seq_lines st))]
       | None => sequences st
       end
  else sequences st.

Definition step (st : pstate) (raw : str) : pstate :=
  let line := Py.strip raw in
  if negb (Py.truthy line) then st
  else if Py.startswith [Py.GT] line
  then mk_pstate (flush st) (Some (Py.strip (Py.slice_from 1 line))) []
  else mk_pstate (sequences st) (header st) (seq_lines st ++ [line]).

Definition parse_lines (lines : list str) : list (str * str) :=
  flush (fold_left step lines init).

Definition parse_fasta (f : file) : M (list (str * str)) :=
  match snd f with
  | inl e => raise e
  | inr text => ret (parse_lines (Py.readlines text))
  end.

End AFBatchGen.

(** ** FASTA Mod/make_fasta.py *)

Module MakeFasta.

Definition REPLACEMENT_START_INDEX : nat := 62.
Definition REPLACEMENT_LENGTH : nat := 6.

(** [t[:start] + r + t[start + len:]] *)
Definition splice (start len : nat) (t r : str) : str :=
  Py.slice_to start t ++ r ++ Py.slice_from (start + len) t.

(** [TIMP3_VARIANT_SEQ] of [generate_fasta_files]. *)
Definition TIMP3_VARIANT_SEQ (TIMP3_MATURE_WT variant_sequence : str) : str :=
  splice REPLACEMENT_START_INDEX REPLACEMENT_LENGTH
    TIMP3_MATURE_WT variant_sequence.

End MakeFasta.

(** ** separate_complex.py *)

Module SeparateComplex.

Definition DOT : ascii := ascii_of_nat 46.

(** Position of the last dot of a name, if it has one. *)
Fixpoint rfind_dot (i : nat) (s : str) : option nat :=
  match s with
  | [] => None
  | c :: s' =>
      match rfind_dot (S i) s' with
      | Some j => Some j
      | None => if Ascii.eqb c DOT then Some i else None
      end
  end.

(** [os.path.splitext(name)[0]] for a name without directory part: dots
    that begin the name belong to the root. *)
Definition splitext_root (name : str) : str :=
  match rfind_dot 0 name with
  | Some i =>
      if existsb (fun c => negb (Ascii.eqb c DOT)) (firstn i name)
      then firstn i name else name
  | None => name
  end.

(** [open(path).readlines()] *)
Definition read_lines (f : file) : M (list str) :=
  match snd f with
  | inl e => raise e
  | inr text => ret (Py.readlines text)
  end.

(** The statements under [try:] that follow the read. *)
Definition split_lines (filename : str) (lines : list str)
    (output_folder : str) : M unit :=
  if match lines with
     | [] => true
     | l0 :: _ => negb (Py.startswith [Py.GT] l0)
     end
  then print (lit "Warning: Skipping '" ++ filename
              ++ lit "' as it doesn't appear to be a FASTA file.")
  else
    l0 <- index lines 0 ;;
    let header := Py.lstrip_chars Py.GT (Py.strip l0) in
    l1 <- index lines 1 ;;
    let combined_sequence := Py.strip l1 in
    let sequences := Py.split Py.COLON combined_sequence in
    if negb (length sequences =? 2) then
      print (lit "Warning: Could not find two colon-separated sequences in '"
             ++ filename ++ lit "'. Skipping.")
    else
      seq1 <- index sequences 0 ;;
      seq2 <- index sequences 1 ;;
      let output_filename := splitext_root filename ++ lit "_separated.fasta" in
      let output_file_path := path_join output_folder output_filename in
      emit (WriteFile output_file_path
              ([Py.GT] ++ header ++ lit "_seq1" ++ [Py.LF]
               ++ seq1 ++ [Py.LF]
               ++ [Py.GT] ++ header ++ lit "_seq2" ++ [Py.LF]
               ++ seq2 ++ [Py.LF])) ;;
      print (lit "Successfully processed '" ++ filename ++ lit "' -> '"
             ++ output_filename ++ lit "'").

(** The statements under [try:] for one regular file. *)
Definition split_file (filename : str) (f : file) (output_folder : str)
    : M unit :=
  lines <- read_lines f ;;
  split_lines filename lines output_folder.

(** The loop body: [try: ... except Exception as e: print(...)]. *)
Definition process_entry (filename : str) (f : file) (output_folder : str)
    : M unit :=
  r <- try_except (split_file filename f output_folder) ;;
  match r with
  | inr _ => ret tt
  | inl e => print (lit "Error processing file " ++ filename ++ lit ": "
                    ++ exn_str e)
  end.

(** A directory entry: a name, and for a regular file what reading it
    gives ([None] for a subdirectory). *)
Definition dirent : Type := (str * option (exn + str))%type.

Definition process_fasta_files (output_exists : bool)
    (listing : list dirent) (input_folder output_folder : str) : M unit :=
  (if negb output_exists then
     emit (MakeDir output_folder) ;;
     print (lit "Created output directory: " ++ output_folder)
   else ret tt) ;;
  for_each listing
    (fun ent =>
       let filename := fst ent in
       let input_file_path := path_join input_folder filename in
       match snd ent with
       | Some content =>
           process_entry filename (input_file_path, content) output_folder
       | None => ret tt
       end).

End SeparateComplex.

(** ** Specification vocabulary *)

(** The header lines of a line stream, as the parsers see them: the
    stripped lines that begin with the marker. *)
Definition header_lines (lines : list str) : list str :=
  filter (Py.startswith [Py.GT]) (map Py.strip lines).

(** A header line's text: what follows the marker, stripped. *)
Definition header_text (line : str) : str := Py.strip (Py.slice_from 1 line).

(** The distinct elements of a list in order of first occurrence. *)
Definition add_key (acc : list str) (h : str) : list str :=
  if existsb (Py.str_eqb h) acc then acc else acc ++ [h].
Definition first_occurrences (hs : list str) : list str :=
  fold_left add_key hs [].

(** The lines [write_fasta] cuts a sequence into, and the lines of a whole
    dictionary, each taken without its line end. *)
Definition chunks (width : nat) (seq : str) : list str :=
  map (fun i => Py.slice i (i + width) seq)
    (Py.range_step (length seq) width).
Definition fasta_lines (width : nat) (d : OrderedDict.t) : list str :=
  flat_map (fun rec => fst rec :: chunks width (snd rec)) d.
Definition with_newline (l : str) : str := l ++ [Py.LF].

(** A character that can sit anywhere in a wrapped sequence line. *)
Definition residue (c : ascii) : bool :=
  negb (Py.isspace c) && negb (Ascii.eqb c Py.GT).

(** A header as [replace_w_cd.parse_fasta] stores it: it keeps the marker,
    is stripped, and lies on one line. *)
Definition stored_header (h : str) : Prop :=
  Py.startswith [Py.GT] h = true /\ Py.strip h = h
  /\ ~ In Py.LF h /\ ~ In Py.CR h.

Definition well_formed (d : OrderedDict.t) : Prop :=
  NoDup (OrderedDict.keys d)
  /\ Forall (fun rec => stored_header (fst rec)
                        /\ forallb residue (snd rec) = true) d.

(** ** FASTA Mod/make_fasta.py: fetching and writing *)

Module MakeFastaFiles.

Definition USCORE : ascii := ascii_of_nat 95.

Definition VARIANT_SEQUENCES : list str :=
  map lit
    ["AGESNA"; "AGESNC"; "AGESTA"; "AGESTC"; "ASESNA";
     "ASESNC"; "ASESTA"; "ASESTC"; "YSEDIC"; "YSEDID";
     "YSEDMC"; "YSEDMD"; "YSEDPC"; "YSEDPD"; "YKEDIC";
     "YKEDID"; "YKEDMC"; "YKEDMD"; "YKEDPC"; "YKEDPD";
     "ASESLC"]%string.

(** What the script sends out: an event on standard output or on the file
    system, or a line on standard error. *)
Inductive out : Type :=
| Std (ev : event)
| Stderr (line : str).

(** [fetch_sequence], given what the request gives: the message of the
    [RequestException] raised by [requests.get] or [raise_for_status], or
    the response text.  It returns the lines sent to standard error and
    the sequence. *)
Definition fetch_sequence (uniprot_id : str) (response : str + str)
    : list str * str :=
  match response with
  | inl e =>
      ([lit "Error fetching sequence for " ++ uniprot_id
        ++ lit " from UniProt: " ++ e], [])
  | inr text =>
      let fasta_content := Py.split Py.LF text in
      let sequence :=
        Py.join []
          (map Py.strip
             (filter (fun line => negb (Py.startswith [Py.GT] line))
                fasta_content)) in
      if negb (Py.truthy sequence) then
        ([lit "Error processing FASTA content for " ++ uniprot_id ++ lit ": "
          ++ (lit "No sequence found for UniProt ID " ++ uniprot_id
              ++ lit ".")], [])
      else ([], sequence)
  end.

(** The text of the two files of [write_fasta_file]. *)
Definition plain_text (sequences : OrderedDict.t) : str :=
  concat (map (fun rec => [Py.GT] ++ fst rec ++ [Py.LF]
                          ++ snd rec ++ [Py.LF]) sequences).

Definition complex_text (sequences : OrderedDict.t) : str :=
  [Py.GT] ++ Py.join (lit "+") (OrderedDict.keys sequences) ++ [Py.LF]
  ++ Py.join [Py.COLON] (map snd sequences) ++ [Py.LF].

(** [write_fasta_file].  [io_error] tells which of the three file system
    steps under [try:] (make the directory, write the plain file, write the
    complex file) raises [IOError], if any, and with what message. *)
Definition write_fasta_file (filename : str) (sequences : OrderedDict.t)
    (io_error : option (nat * str)) : list out * (exn + unit) :=
  match nth_error (OrderedDict.keys sequences) 1 with
  | None => ([], inl (IndexError (lit "list index out of range")))
  | Some second =>
      let dir := hd [] (Py.split USCORE second) in
      let steps :=
        [Std (MakeDir dir);
         Std (WriteFile (dir ++ lit "/" ++ filename) (plain_text sequences));
         Std (WriteFile (dir ++ lit "/" ++ (lit "complex_" ++ filename))
                (complex_text sequences))] in
      let done :=
        steps ++ [Std (Print (lit "Successfully created file: " ++ filename))] in
      match io_error with
      | Some (n, msg) =>
          if n <? 3 then
            (firstn n steps
             ++ [Stderr (lit "Error writing file " ++ filename ++ lit ": "
                         ++ msg)],
             inr tt)
          else (done, inr tt)
      | None => (done, inr tt)
      end
  end.

(** The files a run wrote. *)
Definition files_written (tr : list out) : list (str * str) :=
  flat_map (fun o => match o with
                     | Std (WriteFile p c) => [(p, c)]
                     | _ => []
                     end) tr.

End MakeFastaFiles.

(** ** FASTA Mod/make_fasta.py: the run *)

Module MakeFastaRun.

Import MakeFastaFiles.

Definition UNIPROT_IDS : list (str * str) :=
  [(lit "TIMP3", lit "P35625");
   (lit "MMP9", lit "P14780");
   (lit "MMP2", lit "P08253");
   (lit "MMP10", lit "P09238");
   (lit "ADAM10", lit "O14672");
   (lit "ADAM17", lit "P78536")].

(** [str(n)] *)
Definition str_of_nat (n : nat) : str :=
  lit (DecimalString.NilEmpty.string_of_uint (Nat.to_uint n)).

(** What can leave [generate_fasta_files] unhandled. *)
Inductive raised : Type :=
| Exn (e : exn)
| KeyError (key : str).

(** [d[k]] *)
Fixpoint get (k : str) (d : OrderedDict.t) : option str :=
  match d with
  | [] => None
  | (k', v) :: d' => if Py.str_eqb k' k then Some v else get k d'
  end.

(** The first loop: fetch every sequence, stop at the first failure.
    [responses] gives, for a UniProt identifier, what the request gives. *)
Fixpoint fetch_all (responses : str -> str + str) (ids : list (str * str))
    (full_sequences : OrderedDict.t) : list out * option OrderedDict.t :=
  match ids with
  | [] => ([], Some full_sequences)
  | (name, uid) :: ids' =>
      let (errs, seq) := fetch_sequence uid (responses uid) in
      let full_sequences' := OrderedDict.set name seq full_sequences in
      if negb (Py.truthy seq) then
        (map Stderr errs
         ++ [Stderr (lit "Aborting file generation due to sequence fetch failure.")],
         None)
      else
        let (tr, r) := fetch_all responses ids' full_sequences' in
        (map Stderr errs ++ tr, r)
  end.

(** The inner loop over the targets.  [variant_sequence] is the loop
    variable of the outer loop, which the body reassigns; [io] gives the
    file system error met when writing a file name, if any. *)
Fixpoint write_targets (io : str -> option (nat * str))
    (full_sequences : OrderedDict.t)
    (timp3_variant_header TIMP3_VARIANT_SEQ : str)
    (targets : list (str * str)) (variant_sequence : str)
    : list out * (raised + str) :=
  match targets with
  | [] => ([], inr variant_sequence)
  | (name, uid) :: targets' =>
      if Py.str_eqb name (lit "TIMP3") then
        write_targets io full_sequences timp3_variant_header TIMP3_VARIANT_SEQ
          targets' variant_sequence
      else
        let target_header := name ++ lit "_HUMAN|" ++ uid in
        match get name full_sequences with
        | None => ([], inl (KeyError name))
        | Some seq =>
            let fasta_target :=
              OrderedDict.set target_header seq
                (OrderedDict.set timp3_variant_header TIMP3_VARIANT_SEQ []) in
            let variant_sequence' :=
              if Py.str_eqb variant_sequence (lit "ASESLC") then lit "WT"
              else variant_sequence in
            let filename :=
              lit "TIMP3_v_" ++ name ++ lit "_C_" ++ variant_sequence'
              ++ lit ".fasta" in
            match write_fasta_file filename fasta_target (io filename) with
            | (tr, inl e) => (tr, inl (Exn e))
            | (tr, inr _) =>
                let (tr', r) :=
                  write_targets io full_sequences timp3_variant_header
                    TIMP3_VARIANT_SEQ targets' variant_sequence' in
                (tr ++ tr', r)
            end
        end
  end.

(** The outer loop, [i] counting the variants already done. *)
Fixpoint write_variants (io : str -> option (nat * str))
    (full_sequences : OrderedDict.t) (TIMP3_MATURE_WT : str)
    (i : nat) (variants : list str) : list out * (raised + unit) :=
  match variants with
  | [] => ([], inr tt)
  | variant_sequence :: rest =>
      let announce :=
        Std (Print (lit "--- Processing Variant " ++ str_of_nat (i + 1)
                    ++ lit "/" ++ str_of_nat (length VARIANT_SEQUENCES)
                    ++ lit ": " ++ variant_sequence ++ lit " ---")) in
      let TIMP3_VARIANT_SEQ :=
        MakeFasta.TIMP3_VARIANT_SEQ TIMP3_MATURE_WT variant_sequence in
      let timp3_variant_header :=
        if Py.str_eqb variant_sequence (lit "ASESLC")
        then lit "TIMP3_VARIANT_WT_HUMAN|P35625"
        else lit "TIMP3_VARIANT_" ++ variant_sequence ++ lit "_HUMAN|P35625" in
      match write_targets io full_sequences timp3_variant_header
              TIMP3_VARIANT_SEQ UNIPROT_IDS variant_sequence with
      | (tr, inl e) => (announce :: tr, inl e)
      | (tr, inr _) =>
          let (tr', r) :=
            write_variants io full_sequences TIMP3_MATURE_WT (S i) rest in
          (announce :: tr ++ tr', r)
      end
  end.

(** What follows the first loop. *)
Definition generate_variants (io : str -> option (nat * str))
    (full_sequences : OrderedDict.t) : list out * (raised + unit) :=
  match get (lit "TIMP3") full_sequences with
  | None => ([], inl (KeyError (lit "TIMP3")))
  | Some timp3_full_seq =>
      let warning :=
        if negb (length timp3_full_seq =? 211) then
          [Std (Print (lit "Warning: TIMP3 sequence length is "
                       ++ str_of_nat (length timp3_full_seq)
                       ++ lit ", expected 211. Proceeding anyway."))]
        else [] in
      let TIMP3_MATURE_WT := Py.slice_from 23 timp3_full_seq in
      let segment_to_replace :=
        Py.slice MakeFasta.REPLACEMENT_START_INDEX
          (MakeFasta.REPLACEMENT_START_INDEX + MakeFasta.REPLACEMENT_LENGTH)
          TIMP3_MATURE_WT in
      let intro :=
        [Std (Print (lit "Wild-type 6-residue segment being replaced: "
                     ++ segment_to_replace));
         Std (Print (lit "Total number of variant sequences to process: "
                     ++ str_of_nat (length VARIANT_SEQUENCES) ++ [Py.LF]));
         Std (Print (lit "Generating FASTA files for AlphaFold-Multimer:"))] in
      match write_variants io full_sequences TIMP3_MATURE_WT 0
              VARIANT_SEQUENCES with
      | (tr, inl e) => (warning ++ intro ++ tr, inl e)
      | (tr, inr _) =>
          (warning ++ intro ++ tr
           ++ [Std (Print
                      ([Py.LF] ++ lit "Batch generation complete. "
                       ++ str_of_nat (length VARIANT_SEQUENCES
                                      * (length UNIPROT_IDS - 1))
                       ++ lit " FASTA files           ("
                       ++ str_of_nat (length VARIANT_SEQUENCES)
                       ++ lit " variants * "
                       ++ str_of_nat (length UNIPROT_IDS - 1)
                       ++ lit " targets) are ready for AlphaFold-Multimer."))],
           inr tt)
      end
  end.

Definition generate_fasta_files (responses : str -> str + str)
    (io : str -> option (nat * str)) : list out * (raised + unit) :=
  let start := Std (Print (lit "Fetching protein sequences from UniProt...")) in
  match fetch_all responses UNIPROT_IDS [] with
  | (tr, None) => (start :: tr, inr tt)
  | (tr, Some full_sequences) =>
      let (tr', r) := generate_variants io full_sequences in
      (start :: tr ++ tr', r)
  end.

(** The name a variant goes by in headers and file names. *)
Definition variant_label (variant_sequence : str) : str :=
  if Py.str_eqb variant_sequence (lit "ASESLC") then lit "WT"
  else variant_sequence.

(** The two files of one variant and one target, given the sequences. *)
Definition pair_of_files (timp3_full_seq variant_sequence : str)
    (target : str * str) (target_seq : str) : list (str * str) :=
  let (name, uid) := target in
  let sequences :=
    [(lit "TIMP3_VARIANT_" ++ variant_label variant_sequence
      ++ lit "_HUMAN|P35625",
      MakeFasta.splice 62 6 (Py.slice_from 23 timp3_full_seq) variant_sequence);
     (name ++ lit "_HUMAN|" ++ uid, target_seq)] in
  let filename :=
    lit "TIMP3_v_" ++ name ++ lit "_C_" ++ variant_label variant_sequence
    ++ lit ".fasta" in
  [(name ++ lit "/" ++ filename, plain_text sequences);
   (name ++ lit "/" ++ (lit "complex_" ++ filename), complex_text sequences)].

End MakeFastaRun.

(** ** AF_batch_gen.py: jobs *)

Module AFJobs.

(** [{"proteinChain": {"sequence": seq, "count": 1}}] *)
Record proteinChain : Type := mk_chain {
  sequence : str;
  count : nat
}.

(** [{"name": ..., "sequences": chains, "modelSeeds": []}] *)
Record job : Type := mk_job {
  name : str;
  sequences : list proteinChain;
  modelSeeds : list nat
}.

(** [Path(p).stem]: the name up to its last dot, when that dot is neither
    the first nor the last character of the name. *)
Definition stem (p : str) : str :=
  let name := basename p in
  match SeparateComplex.rfind_dot 0 name with
  | Some i =>
      if (0 <? i) && (i <? length name - 1) then firstn i name else name
  | None => name
  end.

Definition fasta_to_job (f : file) : M job :=
  sequences <- AFBatchGen.parse_fasta f ;;
  let chains := map (fun rec => mk_chain (snd rec) 1) sequences in
  ret (mk_job (stem (fst f)) chains []).

End AFJobs.

(** ** More specification vocabulary *)

(** A line the parsers skip. *)
Definition blank (raw : str) : bool := negb (Py.truthy (Py.strip raw)).

Definition line_break (c : ascii) : bool :=
  Ascii.eqb c Py.LF || Ascii.eqb c Py.CR.

(** What [process_fasta_file] is to write for a file, if anything. *)
Definition expected_outputs (output_dir replacement_seq : str) (f : file)
    : list (str * str) :=
  match snd f with
  | inl _ => []
  | inr text =>
      match ReplaceWCd.parse_lines (Py.readlines text) with
      | r1 :: (h2, _) :: rest =>
          [(path_div output_dir (basename (fst f)),
            ReplaceWCd.fasta_text 60 (r1 :: (h2, replacement_seq) :: rest))]
      | _ => []
      end
  end.

(** The files whose output can be opened for writing. *)
Definition writable (open_w : str -> option exn) (output_dir : str)
    (fasta_files : list file) : Prop :=
  forall f, In f fasta_files ->
    open_w (path_div output_dir (basename (fst f))) = None.

(** A file that [process_fasta_file] gives up on before the filename
    rule: one that cannot be read, or one with fewer than two records. *)
Definition unreadable_or_short (f : file) : Prop :=
  match snd f with
  | inl _ => True
  | inr text => length (ReplaceWCd.parse_lines (Py.readlines text)) < 2
  end.

Definition is_regular (ent : SeparateComplex.dirent) : bool :=
  match snd ent with Some _ => true | None => false end.

(** ** Strings: basic facts *)

(** Closes [~ In c l] on a closed character and a closed string. *)
Ltac absent :=
  let H := fresh in
  vm_compute; intros H;
  repeat (destruct H as [H|H]; [discriminate H |]); exact H.

Lemma str_eqb_eq (a b : str) : Py.str_eqb a b = true <-> a = b.
Proof.
  unfold Py.str_eqb. destruct (list_eq_dec ascii_dec a b); split; congruence.
Qed.

Lemma str_eqb_neq (a b : str) : Py.str_eqb a b = false <-> a <> b.
Proof.
  unfold Py.str_eqb. destruct (list_eq_dec ascii_dec a b); split; congruence.
Qed.

Lemma str_eqb_refl (a : str) : Py.str_eqb a a = true.
Proof. now apply str_eqb_eq. Qed.

Lemma existsb_str_eqb (h : str) (l : list str) :
  existsb (Py.str_eqb h) l = true <-> In h l.
Proof.
  rewrite existsb_exists. split.
  - intros (x & Hx & E). apply str_eqb_eq in E. now subst.
  - intros H. exists h. split; [assumption | apply str_eqb_refl].
Qed.

Lemma dropwhile_head (p : ascii -> bool) (c : ascii) (s : str) :
  p c = false -> Py.dropwhile p (c :: s) = c :: s.
Proof. intros H. simpl. now rewrite H. Qed.

Lemma rstrip_snoc_space (s : str) (c : ascii) :
  Py.isspace c = true -> Py.rstrip (s ++ [c]) = Py.rstrip s.
Proof.
  intros H. unfold Py.rstrip. rewrite rev_app_distr. simpl. now rewrite H.
Qed.

Lemma rstrip_last_nonspace (s : str) (c : ascii) :
  Py.isspace c = false -> Py.rstrip (s ++ [c]) = s ++ [c].
Proof.
  intros H. unfold Py.rstrip. rewrite rev_app_distr. simpl. rewrite H.
  simpl. now rewrite rev_involutive.
Qed.

Lemma dropwhile_shape (p : ascii -> bool) (s : str) :
  Py.dropwhile p s = []
  \/ exists c t, Py.dropwhile p s = c :: t /\ p c = false.
Proof.
  induction s as [|c s IH]; cbn [Py.dropwhile]; [now left |].
  destruct (p c) eqn:E; [exact IH |]. right. now exists c, s.
Qed.

Lemma dropwhile_idem (p : ascii -> bool) (s : str) :
  Py.dropwhile p (Py.dropwhile p s) = Py.dropwhile p s.
Proof.
  destruct (dropwhile_shape p s) as [->|(c & t & -> & Hc)]; [reflexivity |].
  now apply dropwhile_head.
Qed.

Lemma dropwhile_app_all (p : ascii -> bool) (a b : str) :
  Py.dropwhile p a = [] -> Py.dropwhile p (a ++ b) = Py.dropwhile p b.
Proof.
  induction a as [|c a IH]; cbn [Py.dropwhile app]; [easy |].
  destruct (p c); [exact IH | discriminate].
Qed.

Lemma dropwhile_app_some (p : ascii -> bool) (a b : str) :
  Py.dropwhile p a <> [] ->
  Py.dropwhile p (a ++ b) = Py.dropwhile p a ++ b.
Proof.
  induction a as [|c a IH]; cbn [Py.dropwhile app]; [congruence |].
  destruct (p c); [exact IH | reflexivity].
Qed.

Lemma rstrip_cons_nonspace (c : ascii) (s : str) :
  Py.isspace c = false -> Py.rstrip (c :: s) = c :: Py.rstrip s.
Proof.
  intros Hc. unfold Py.rstrip. cbn [rev].
  destruct (dropwhile_shape Py.isspace (rev s)) as [E|(d & t & E & Hd)].
  - rewrite dropwhile_app_all by exact E. rewrite E.
    cbn [Py.dropwhile]. now rewrite Hc.
  - rewrite dropwhile_app_some by (rewrite E; discriminate).
    rewrite rev_app_distr. reflexivity.
Qed.

Lemma startswith_marker (s : str) :
  Py.startswith [Py.GT] s = true <-> exists s', s = Py.GT :: s'.
Proof.
  destruct s as [|c s]; cbn [Py.startswith].
  - split; [discriminate | intros (s' & E); discriminate].
  - rewrite andb_true_r. split.
    + intros H. apply Ascii.eqb_eq in H. subst. now exists s.
    + intros (s' & E). injection E as -> _. apply Ascii.eqb_refl.
Qed.

(** A line read from a file is its content, stripped, when the content is
    a stored header. *)
Lemma strip_header_line (h : str) :
  Py.startswith [Py.GT] h = true -> Py.strip h = h ->
  Py.strip (h ++ [Py.LF]) = h.
Proof.
  intros Hgt Hs. apply startswith_marker in Hgt as (h' & ->).
  unfold Py.strip, Py.lstrip in *.
  change ((Py.GT :: h') ++ [Py.LF]) with (Py.GT :: (h' ++ [Py.LF])).
  rewrite dropwhile_head in * by reflexivity.
  change (Py.GT :: (h' ++ [Py.LF])) with ((Py.GT :: h') ++ [Py.LF]).
  rewrite rstrip_snoc_space by reflexivity. exact Hs.
Qed.

(** ** Positional splice ([make_fasta.py]) *)

Lemma firstn_app_exact {A} (n : nat) (l1 l2 : list A) :
  length l1 = n -> firstn n (l1 ++ l2) = l1.
Proof. intros <-. induction l1; simpl; congruence. Qed.

Lemma skipn_app_exact {A} (n : nat) (l1 l2 : list A) :
  length l1 = n -> skipn n (l1 ++ l2) = l2.
Proof. intros <-. induction l1; simpl; congruence. Qed.

Lemma splice_length (start len : nat) (t r : str) :
  start + len <= length t ->
  length (MakeFasta.splice start len t r) = length t - len + length r.
Proof.
  intros Hb. unfold MakeFasta.splice, Py.slice_to, Py.slice_from.
  rewrite !length_app, length_firstn, length_skipn. lia.
Qed.

(** C5.  Replacing the [len] characters at offset [start] of a template by
    [r] gives a sequence of length [length t - len + length r]; it agrees
    with the template before [start], holds [r] from [start] on, and after
    [r] continues with what followed position [start + len] in the
    template.  The offsets lie inside the template. *)
Theorem splice_length_and_frame (start len : nat) (t r : str) :
  start + len <= length t ->
  let v := MakeFasta.splice start len t r in
  length v = length t - len + length r
  /\ Py.slice_to start v = Py.slice_to start t
  /\ Py.slice start (start + length r) v = r
  /\ Py.slice_from (start + length r) v = Py.slice_from (start + len) t.
Proof.
  intros Hb v. subst v.
  split; [now apply splice_length |].
  unfold MakeFasta.splice, Py.slice_to, Py.slice_from, Py.slice.
  assert (Hl : length (firstn start t) = start)
    by (rewrite length_firstn; lia).
  repeat split.
  - now apply firstn_app_exact.
  - rewrite skipn_app_exact by exact Hl.
    apply firstn_app_exact. lia.
  - rewrite app_assoc. apply skipn_app_exact.
    rewrite length_app. lia.
Qed.

Lemma splice_length_and_frame_witness :
  let t := lit "MKTAYIAKQR" in
  let v := MakeFasta.splice 2 3 t (lit "WW") in
  2 + 3 <= length t
  /\ length v = length t - 3 + 2
  /\ Py.slice_to 2 v = Py.slice_to 2 t
  /\ Py.slice 2 (2 + 2) v = lit "WW"
  /\ Py.slice_from (2 + 2) v = Py.slice_from (2 + 3) t.
Proof.
  split; [vm_compute; lia |].
  apply (splice_length_and_frame 2 3 (lit "MKTAYIAKQR") (lit "WW")).
  vm_compute; lia.
Defined.

(** The script's own constants: a six-residue window at offset 62. *)
Lemma variant_length (wt variant : str) :
  68 <= length wt -> length variant = 6 ->
  length (MakeFasta.TIMP3_VARIANT_SEQ wt variant) = length wt.
Proof.
  intros Hb Hv. unfold MakeFasta.TIMP3_VARIANT_SEQ.
  unfold MakeFasta.REPLACEMENT_START_INDEX, MakeFasta.REPLACEMENT_LENGTH.
  rewrite splice_length, Hv by exact Hb. lia.
Qed.

(** ** Splitting on a separator *)

Lemma split_nonempty (sep : ascii) (s : str) : Py.split sep s <> [].
Proof.
  destruct s as [|c s]; cbn [Py.split]; [discriminate |].
  destruct (Ascii.eqb c sep); [discriminate |].
  destruct (Py.split sep s); discriminate.
Qed.

Lemma split_without_sep (sep : ascii) (s : str) :
  ~ In sep s -> Py.split sep s = [s].
Proof.
  induction s as [|c s IH]; intros Hn; cbn [Py.split]; [reflexivity |].
  destruct (Ascii.eqb_spec c sep) as [->|Hc].
  - exfalso. apply Hn. now left.
  - rewrite IH; [reflexivity |]. intros Hin. apply Hn. now right.
Qed.

Lemma split_at_first_sep (sep : ascii) (a b : str) :
  ~ In sep a -> Py.split sep (a ++ sep :: b) = a :: Py.split sep b.
Proof.
  induction a as [|c a IH]; intros Hn; cbn [Py.split app].
  - now rewrite Ascii.eqb_refl.
  - destruct (Ascii.eqb_spec c sep) as [->|Hc].
    + exfalso. apply Hn. now left.
    + rewrite IH; [reflexivity |]. intros Hin. apply Hn. now right.
Qed.

Lemma split_colon_join (a b : str) :
  ~ In Py.COLON a -> ~ In Py.COLON b ->
  Py.split Py.COLON (a ++ [Py.COLON] ++ b) = [a; b].
Proof.
  intros Ha Hb. cbn [app].
  rewrite split_at_first_sep by exact Ha.
  now rewrite split_without_sep by exact Hb.
Qed.

Lemma length_split (sep : ascii) (s : str) :
  length (Py.split sep s) = S (count_occ ascii_dec s sep).
Proof.
  induction s as [|c s IH]; cbn [Py.split count_occ]; [reflexivity |].
  destruct (Ascii.eqb_spec c sep) as [->|Hc].
  - destruct (ascii_dec sep sep); [| congruence]. cbn [length]. now rewrite IH.
  - destruct (ascii_dec c sep); [congruence |].
    destruct (Py.split sep s) as [|p ps] eqn:E; [now apply split_nonempty in E |].
    cbn [length] in *. exact IH.
Qed.

Lemma join_split (sep : ascii) (s : str) :
  Py.join [sep] (Py.split sep s) = s.
Proof.
  induction s as [|c s IH]; cbn [Py.split Py.join]; [reflexivity |].
  destruct (Ascii.eqb_spec c sep) as [->|Hc].
  - destruct (Py.split sep s) as [|p ps] eqn:E; [now apply split_nonempty in E |].
    cbn [Py.join app] in *. now rewrite IH.
  - destruct (Py.split sep s) as [|p ps] eqn:E; [now apply split_nonempty in E |].
    destruct ps; cbn [Py.join app] in *; now rewrite <- IH.
Qed.

Lemma split_two_parts (sep : ascii) (s a b : str) :
  Py.split sep s = [a; b] -> s = a ++ [sep] ++ b.
Proof.
  intros H. rewrite <- (join_split sep s), H. reflexivity.
Qed.

(** ** The complex splitter ([separate_complex.py]) *)

Section Splitter.

Variables (filename output_folder : str).

Let output_filename : str :=
  SeparateComplex.splitext_root filename ++ lit "_separated.fasta".

Lemma split_lines_accepts (l0 l1 : str) (rest : list str) (a b : str) :
  Py.startswith [Py.GT] l0 = true ->
  Py.split Py.COLON (Py.strip l1) = [a; b] ->
  SeparateComplex.split_lines filename (l0 :: l1 :: rest) output_folder
  = ([WriteFile (path_join output_folder output_filename)
        ([Py.GT] ++ Py.lstrip_chars Py.GT (Py.strip l0) ++ lit "_seq1"
         ++ [Py.LF] ++ a ++ [Py.LF]
         ++ [Py.GT] ++ Py.lstrip_chars Py.GT (Py.strip l0) ++ lit "_seq2"
         ++ [Py.LF] ++ b ++ [Py.LF]);
      Print (lit "Successfully processed '" ++ filename ++ lit "' -> '"
             ++ output_filename ++ lit "'")],
     inr tt).
Proof.
  intros H0 H1. unfold SeparateComplex.split_lines.
  rewrite H0. cbn [negb index nth_error bind ret app].
  rewrite H1. reflexivity.
Qed.

Lemma split_lines_rejects (l0 l1 : str) (rest : list str) :
  Py.startswith [Py.GT] l0 = true ->
  length (Py.split Py.COLON (Py.strip l1)) <> 2 ->
  SeparateComplex.split_lines filename (l0 :: l1 :: rest) output_folder
  = ([Print (lit "Warning: Could not find two colon-separated sequences in '"
             ++ filename ++ lit "'. Skipping.")],
     inr tt).
Proof.
  intros H0 H1. unfold SeparateComplex.split_lines.
  rewrite H0. apply Nat.eqb_neq in H1.
  cbn [negb index nth_error bind ret app].
  now rewrite H1.
Qed.

Lemma split_lines_not_fasta (lines : list str) :
  match lines with
  | [] => True
  | l0 :: _ => Py.startswith [Py.GT] l0 = false
  end ->
  SeparateComplex.split_lines filename lines output_folder
  = ([Print (lit "Warning: Skipping '" ++ filename
             ++ lit "' as it doesn't appear to be a FASTA file.")],
     inr tt).
Proof.
  intros H. unfold SeparateComplex.split_lines.
  destruct lines as [|l0 rest]; [reflexivity |]. now rewrite H.
Qed.

Lemma split_lines_prefix (lines : list str) :
  SeparateComplex.split_lines filename lines output_folder
  = SeparateComplex.split_lines filename (firstn 2 lines) output_folder.
Proof.
  destruct lines as [|l0 [|l1 rest]]; reflexivity.
Qed.

End Splitter.

Lemma split_parts_without_sep (sep : ascii) (s p : str) :
  In p (Py.split sep s) -> ~ In sep p.
Proof.
  revert p. induction s as [|c s IH]; intros p; cbn [Py.split].
  - intros [<-|[]] [].
  - destruct (Ascii.eqb_spec c sep) as [->|Hc].
    + intros [<-|Hin]; [intros [] | now apply IH].
    + destruct (Py.split sep s) as [|q qs] eqn:E; [now apply split_nonempty in E |].
      intros [<-|Hin].
      * intros [E'|Hin']; [congruence |]. revert Hin'. apply IH. now left.
      * apply IH. now right.
Qed.

Lemma process_entry_unfold (filename path text output_folder : str) :
  SeparateComplex.process_entry filename (path, inr text) output_folder
  = match SeparateComplex.split_lines filename (Py.readlines text)
            output_folder with
    | (tr, inr _) => (tr, inr tt)
    | (tr, inl e) =>
        (tr ++ [Print (lit "Error processing file " ++ filename ++ lit ": "
                       ++ exn_str e)], inr tt)
    end.
Proof.
  unfold SeparateComplex.process_entry, SeparateComplex.split_file,
    SeparateComplex.read_lines.
  cbn [snd bind ret].
  destruct (SeparateComplex.split_lines filename (Py.readlines text)
              output_folder) as [tr [e|u]]; cbn.
  - reflexivity.
  - now rewrite app_nil_r.
Qed.

Lemma written_content_by_lines (fn fn' out out' : str) (lines : list str) :
  map snd (written (trace (SeparateComplex.split_lines fn lines out)))
  = map snd (written (trace (SeparateComplex.split_lines fn' lines out'))).
Proof.
  unfold SeparateComplex.split_lines.
  destruct lines as [|l0 [|l1 rest]]; [reflexivity | |].
  - destruct (Py.startswith [Py.GT] l0); reflexivity.
  - destruct (Py.startswith [Py.GT] l0); [| reflexivity].
    cbn [negb index nth_error bind ret app].
    destruct (Py.split Py.COLON (Py.strip l1)) as [|a [|b [|c r]]];
      reflexivity.
Qed.

Lemma written_process_entry (fn path text out : str) :
  written (trace (SeparateComplex.process_entry fn (path, inr text) out))
  = written (trace (SeparateComplex.split_lines fn (Py.readlines text) out)).
Proof.
  rewrite process_entry_unfold.
  destruct (SeparateComplex.split_lines fn (Py.readlines text) out)
    as [tr [e|u]]; cbn [trace fst]; [| reflexivity].
  unfold written. rewrite flat_map_app. cbn. now rewrite app_nil_r.
Qed.

(** [lstrip('>')] takes every leading marker away, not only the first. *)
Lemma lstrip_chars_shape (c : ascii) (s : str) :
  exists n h,
    s = repeat c n ++ h
    /\ Py.lstrip_chars c s = h
    /\ Py.startswith [c] h = false.
Proof.
  unfold Py.lstrip_chars.
  induction s as [|x s (n & h & Hs & Hl & Hh)].
  - now exists 0, [].
  - cbn [Py.dropwhile]. destruct (Ascii.eqb_spec c x) as [<-|Hne].
    + exists (S n), h. cbn [repeat app]. now rewrite <- Hs.
    + exists 0, (x :: s). repeat split. cbn [Py.startswith].
      now destruct (Ascii.eqb_spec c x).
Qed.

Lemma strip_keeps_marker (l : str) :
  Py.startswith [Py.GT] l = true -> Py.startswith [Py.GT] (Py.strip l) = true.
Proof.
  intros H. apply startswith_marker in H as [t ->].
  unfold Py.strip, Py.lstrip.
  rewrite dropwhile_head by reflexivity.
  rewrite rstrip_cons_nonspace by reflexivity.
  apply startswith_marker. now eexists.
Qed.

(** The base name of an accepted file: its first line, stripped, is one
    marker or more followed by the name, which starts with none. *)
Lemma header_of_accepted (l0 : str) :
  Py.startswith [Py.GT] l0 = true ->
  exists n header,
    Py.strip l0 = repeat Py.GT (S n) ++ header
    /\ Py.startswith [Py.GT] header = false
    /\ Py.lstrip_chars Py.GT (Py.strip l0) = header.
Proof.
  intros H0. apply strip_keeps_marker in H0.
  destruct (lstrip_chars_shape Py.GT (Py.strip l0)) as (n & h & Hs & Hl & Hh).
  destruct n as [|n].
  - cbn [repeat app] in Hs. rewrite Hs in H0. congruence.
  - now exists n, h.
Qed.

(** C6, with every leading marker removed.  A file of at least two lines
    that begins with the marker and whose second line, stripped, holds
    exactly one colon is written out as the two records [header_seq1] and
    [header_seq2], where [header] is what follows the leading markers of
    the stripped first line (all of them, so that [header] starts with
    none), and the sequences are the two colon-free parts around the
    colon.  When the colon count of the combined sequence is not 1, the
    run prints one diagnostic line and writes nothing. *)
Theorem splitter_two_records_or_skip
    (filename path text output_folder l0 l1 : str) (rest : list str) :
  Py.readlines text = l0 :: l1 :: rest ->
  let combined_sequence := Py.strip l1 in
  let output_filename :=
    SeparateComplex.splitext_root filename ++ lit "_separated.fasta" in
  let run := SeparateComplex.process_entry filename (path, inr text)
               output_folder in
  (Py.startswith [Py.GT] l0 = true ->
   count_occ ascii_dec combined_sequence Py.COLON = 1 ->
   exists n header seq1 seq2,
     Py.strip l0 = repeat Py.GT (S n) ++ header
     /\ Py.startswith [Py.GT] header = false
     /\ combined_sequence = seq1 ++ [Py.COLON] ++ seq2
     /\ ~ In Py.COLON seq1 /\ ~ In Py.COLON seq2
     /\ run =
        ([WriteFile (path_join output_folder output_filename)
            ([Py.GT] ++ header ++ lit "_seq1" ++ [Py.LF]
             ++ seq1 ++ [Py.LF]
             ++ [Py.GT] ++ header ++ lit "_seq2" ++ [Py.LF]
             ++ seq2 ++ [Py.LF]);
          Print (lit "Successfully processed '" ++ filename ++ lit "' -> '"
                 ++ output_filename ++ lit "'")],
         inr tt))
  /\ (count_occ ascii_dec combined_sequence Py.COLON <> 1 ->
      run =
      ([Print (if Py.startswith [Py.GT] l0
               then lit "Warning: Could not find two colon-separated sequences in '"
                    ++ filename ++ lit "'. Skipping."
               else lit "Warning: Skipping '" ++ filename
                    ++ lit "' as it doesn't appear to be a FASTA file.")],
       inr tt)).
Proof.
  intros Hlines combined_sequence output_filename run. subst run.
  rewrite process_entry_unfold, Hlines. split.
  - intros H0 Hc.
    pose proof (length_split Py.COLON combined_sequence) as Hlen.
    rewrite Hc in Hlen.
    destruct (Py.split Py.COLON combined_sequence) as [|a [|b [|c r]]] eqn:E;
      try discriminate Hlen.
    destruct (header_of_accepted l0 H0) as (n & header & Hs & Hh & Hl).
    exists n, header, a, b.
    split; [exact Hs |]. split; [exact Hh |].
    split; [now apply split_two_parts |].
    split; [apply (split_parts_without_sep Py.COLON combined_sequence);
            rewrite E; now left |].
    split; [apply (split_parts_without_sep Py.COLON combined_sequence);
            rewrite E; right; now left |].
    rewrite (split_lines_accepts filename output_folder l0 l1 rest a b H0 E).
    now rewrite Hl.
  - intros Hc.
    destruct (Py.startswith [Py.GT] l0) eqn:H0.
    + rewrite split_lines_rejects; [reflexivity | exact H0 |].
      rewrite length_split. fold combined_sequence. lia.
    + rewrite split_lines_not_fasta; [reflexivity | exact H0].
Qed.

Lemma splitter_two_records_or_skip_witness :
  let text := lit ">>cplx 1 " ++ [Py.LF] ++ lit "MKV:QRS" ++ [Py.LF] in
  let l0 := lit ">>cplx 1 " ++ [Py.LF] in
  let l1 := lit "MKV:QRS" ++ [Py.LF] in
  Py.readlines text = [l0; l1]
  /\ Py.startswith [Py.GT] l0 = true
  /\ count_occ ascii_dec (Py.strip l1) Py.COLON = 1
  /\ exists n header seq1 seq2,
       lit ">>cplx 1" = repeat Py.GT (S n) ++ header
       /\ Py.startswith [Py.GT] header = false
       /\ lit "MKV:QRS" = seq1 ++ [Py.COLON] ++ seq2
       /\ ~ In Py.COLON seq1 /\ ~ In Py.COLON seq2
       /\ SeparateComplex.process_entry (lit "c.fasta")
            (lit "in/c.fasta", inr text) (lit "out")
          = ([WriteFile (lit "out/c_separated.fasta")
                ([Py.GT] ++ header ++ lit "_seq1" ++ [Py.LF]
                 ++ seq1 ++ [Py.LF]
                 ++ [Py.GT] ++ header ++ lit "_seq2" ++ [Py.LF]
                 ++ seq2 ++ [Py.LF]);
              Print (lit "Successfully processed 'c.fasta' -> 'c_separated.fasta'")],
             inr tt).
Proof.
  intros text l0 l1.
  split; [reflexivity |]. split; [reflexivity |]. split; [reflexivity |].
  exact (proj1 (splitter_two_records_or_skip (lit "c.fasta")
                  (lit "in/c.fasta") text (lit "out") l0 l1 [] eq_refl)
           eq_refl eq_refl).
Defined.

(** C6 does not hold with only the first marker removed: on a first line
    [>>cplx] the records are named [cplx_seq1] and [cplx_seq2], while the
    header without its leading marker is [>cplx]. *)
Lemma leading_markers_counterexample :
  let text := lit ">>cplx" ++ [Py.LF] ++ lit "MKV:QRS" ++ [Py.LF] in
  let records := fun header : str =>
    [Py.GT] ++ header ++ lit "_seq1" ++ [Py.LF] ++ lit "MKV" ++ [Py.LF]
    ++ [Py.GT] ++ header ++ lit "_seq2" ++ [Py.LF] ++ lit "QRS" ++ [Py.LF] in
  Py.readlines text = [lit ">>cplx" ++ [Py.LF]; lit "MKV:QRS" ++ [Py.LF]]
  /\ Py.slice_from 1 (Py.strip (lit ">>cplx" ++ [Py.LF])) = lit ">cplx"
  /\ written (trace (SeparateComplex.process_entry (lit "c.fasta")
                       (lit "in/c.fasta", inr text) (lit "out")))
     = [(lit "out/c_separated.fasta", records (lit "cplx"))]
  /\ records (lit "cplx") <> records (lit ">cplx").
Proof.
  vm_compute. repeat split. discriminate.
Qed.

(** C4, for sequences without a colon.  When the combined sequence (the stripped second
    line) is [A:B] for two sequences without a colon of their own, the one
    file written holds the records [header_seq1] with sequence [A] and
    [header_seq2] with sequence [B], in that order. *)
Theorem splitter_inverts_colon_join
    (filename path text output_folder l0 l1 : str) (rest : list str)
    (A B : str) :
  Py.readlines text = l0 :: l1 :: rest ->
  Py.startswith [Py.GT] l0 = true ->
  Py.strip l1 = A ++ [Py.COLON] ++ B ->
  ~ In Py.COLON A -> ~ In Py.COLON B ->
  let header := Py.lstrip_chars Py.GT (Py.strip l0) in
  written (trace (SeparateComplex.process_entry filename (path, inr text)
                    output_folder))
  = [(path_join output_folder
        (SeparateComplex.splitext_root filename ++ lit "_separated.fasta"),
      [Py.GT] ++ header ++ lit "_seq1" ++ [Py.LF] ++ A ++ [Py.LF]
      ++ [Py.GT] ++ header ++ lit "_seq2" ++ [Py.LF] ++ B ++ [Py.LF])].
Proof.
  intros Hlines H0 H1 HA HB header.
  rewrite written_process_entry, Hlines.
  rewrite (split_lines_accepts filename output_folder l0 l1 rest A B).
  - reflexivity.
  - exact H0.
  - rewrite H1. now apply split_colon_join.
Qed.

Lemma splitter_inverts_colon_join_witness :
  let A := lit "MKV" in
  let B := lit "QRS" in
  let l0 := lit ">cplx" ++ [Py.LF] in
  let l1 := A ++ [Py.COLON] ++ B ++ [Py.LF] in
  let text := l0 ++ l1 in
  written (trace (SeparateComplex.process_entry (lit "c.fasta")
                    (lit "in/c.fasta", inr text) (lit "out")))
  = [(lit "out/c_separated.fasta",
      lit ">cplx_seq1" ++ [Py.LF] ++ A ++ [Py.LF]
      ++ lit ">cplx_seq2" ++ [Py.LF] ++ B ++ [Py.LF])].
Proof.
  intros A B l0 l1 text.
  refine (splitter_inverts_colon_join (lit "c.fasta") (lit "in/c.fasta") text
            (lit "out") l0 l1 [] A B eq_refl eq_refl eq_refl _ _).
  - absent.
  - absent.
Defined.

(** C4 does not hold for arbitrary [A] and [B]: for [A = M:K] and [B = Q]
    the combined sequence [A:B] has three colon-separated parts, and the
    file is skipped with a warning instead of yielding records for [A] and
    [B]. *)
Lemma splitter_colon_join_counterexample :
  let A := lit "M:K" in
  let B := lit "Q" in
  let l0 := lit ">cplx" ++ [Py.LF] in
  let l1 := A ++ [Py.COLON] ++ B ++ [Py.LF] in
  Py.readlines (l0 ++ l1) = [l0; l1]
  /\ Py.startswith [Py.GT] l0 = true
  /\ Py.strip l1 = A ++ [Py.COLON] ++ B
  /\ SeparateComplex.process_entry (lit "c.fasta")
       (lit "in/c.fasta", inr (l0 ++ l1)) (lit "out")
     = ([Print (lit "Warning: Could not find two colon-separated sequences in 'c.fasta'. Skipping.")],
        inr tt).
Proof. vm_compute. repeat split. Qed.

(** C10.  The splitter looks at the first two lines only: two files that
    agree on them give the same run under one file name, and under any two
    names and folders the same written content. *)
Theorem splitter_reads_two_lines
    (filename filename' path path' text text' out out' : str) :
  firstn 2 (Py.readlines text) = firstn 2 (Py.readlines text') ->
  SeparateComplex.process_entry filename (path, inr text) out
  = SeparateComplex.process_entry filename (path', inr text') out
  /\ map snd (written (trace (SeparateComplex.process_entry filename
                                (path, inr text) out)))
     = map snd (written (trace (SeparateComplex.process_entry filename'
                                  (path', inr text') out'))).
Proof.
  intros H. split.
  - rewrite !process_entry_unfold.
    rewrite (split_lines_prefix filename out (Py.readlines text)).
    rewrite (split_lines_prefix filename out (Py.readlines text')).
    now rewrite H.
  - rewrite !written_process_entry.
    rewrite (split_lines_prefix filename out (Py.readlines text)).
    rewrite (split_lines_prefix filename' out' (Py.readlines text')).
    rewrite H. apply written_content_by_lines.
Qed.

Lemma splitter_reads_two_lines_witness :
  let text := lit ">cplx" ++ [Py.LF] ++ lit "MKV:QRS" ++ [Py.LF] in
  let text' := text ++ lit "AAAA:CCCC:DDDD" ++ [Py.LF] ++ lit ">other"
               ++ [Py.LF] ++ lit "GGGG" ++ [Py.LF] in
  firstn 2 (Py.readlines text) = firstn 2 (Py.readlines text')
  /\ SeparateComplex.process_entry (lit "c.fasta") (lit "in/c.fasta", inr text)
       (lit "out")
     = SeparateComplex.process_entry (lit "c.fasta")
         (lit "in2/c.fasta", inr text') (lit "out")
  /\ map snd (written (trace (SeparateComplex.process_entry (lit "c.fasta")
                                (lit "in/c.fasta", inr text) (lit "out"))))
     = map snd (written (trace (SeparateComplex.process_entry (lit "d.fa")
                                  (lit "in2/c.fasta", inr text') (lit "o2")))).
Proof.
  intros text text'. split; [reflexivity |].
  exact (splitter_reads_two_lines (lit "c.fasta") (lit "d.fa")
           (lit "in/c.fasta") (lit "in2/c.fasta") text text'
           (lit "out") (lit "o2") eq_refl).
Defined.

(** ** OrderedDict: keys under assignment *)

Lemma keys_set (k v : str) (d : OrderedDict.t) :
  OrderedDict.keys (OrderedDict.set k v d) = add_key (OrderedDict.keys d) k.
Proof.
  unfold add_key, OrderedDict.keys.
  induction d as [|[k' v'] d IH]; cbn [OrderedDict.set map fst existsb app].
  - reflexivity.
  - destruct (Py.str_eqb k' k) eqn:E.
    + apply str_eqb_eq in E. subst k'. now rewrite str_eqb_refl.
    + assert (E' : Py.str_eqb k k' = false).
      { apply str_eqb_neq. apply str_eqb_neq in E. congruence. }
      rewrite E'. cbn [orb map fst]. rewrite IH.
      now destruct (existsb (Py.str_eqb k) (map fst d)).
Qed.

Lemma set_fresh (k v : str) (d : OrderedDict.t) :
  ~ In k (OrderedDict.keys d) -> OrderedDict.set k v d = d ++ [(k, v)].
Proof.
  unfold OrderedDict.keys.
  induction d as [|[k' v'] d IH]; intros Hn; cbn [OrderedDict.set app].
  - reflexivity.
  - destruct (Py.str_eqb k' k) eqn:E.
    + apply str_eqb_eq in E. subst. exfalso. apply Hn. now left.
    + rewrite IH; [reflexivity |]. intros Hin. apply Hn. now right.
Qed.

Lemma set_second (h1 s1 h2 s2 v : str) (rest : OrderedDict.t) :
  h1 <> h2 ->
  OrderedDict.set h2 v ((h1, s1) :: (h2, s2) :: rest)
  = (h1, s1) :: (h2, v) :: rest.
Proof.
  intros Hne. cbn [OrderedDict.set].
  apply str_eqb_neq in Hne. rewrite Hne. now rewrite str_eqb_refl.
Qed.

Lemma NoDup_snoc {A} (l : list A) (x : A) :
  NoDup l -> ~ In x l -> NoDup (l ++ [x]).
Proof.
  intros Hl Hx. induction Hl as [|y l Hy Hl IH]; cbn [app].
  - constructor; [intros [] | constructor].
  - constructor.
    + rewrite in_app_iff. intros [Hin|[->|[]]]; [now apply Hy |].
      apply Hx. now left.
    + apply IH. intros Hin. apply Hx. now right.
Qed.

Lemma NoDup_add_key (acc : list str) (h : str) :
  NoDup acc -> NoDup (add_key acc h).
Proof.
  intros Hn. unfold add_key.
  destruct (existsb (Py.str_eqb h) acc) eqn:E; [assumption |].
  apply NoDup_snoc; [assumption |].
  intros Hin. apply existsb_str_eqb in Hin. congruence.
Qed.

Lemma NoDup_fold_add_key (hs acc : list str) :
  NoDup acc -> NoDup (fold_left add_key hs acc).
Proof.
  revert acc. induction hs as [|h hs IH]; intros acc Hn; cbn [fold_left].
  - assumption.
  - apply IH. now apply NoDup_add_key.
Qed.

Lemma add_key_fresh (acc : list str) (h : str) :
  ~ In h acc -> add_key acc h = acc ++ [h].
Proof.
  intros Hn. unfold add_key.
  destruct (existsb (Py.str_eqb h) acc) eqn:E; [| reflexivity].
  apply existsb_str_eqb in E. contradiction.
Qed.

Lemma fold_add_key_NoDup (hs acc : list str) :
  NoDup (acc ++ hs) -> fold_left add_key hs acc = acc ++ hs.
Proof.
  revert acc. induction hs as [|h hs IH]; intros acc Hn; cbn [fold_left].
  - now rewrite app_nil_r.
  - assert (Hh : ~ In h acc).
    { apply NoDup_remove_2 in Hn. intros Hin. apply Hn.
      apply in_or_app. now left. }
    rewrite add_key_fresh by exact Hh.
    rewrite IH; rewrite <- app_assoc; [reflexivity | exact Hn].
Qed.

(** ** The dictionary parser ([replace_w_cd.parse_fasta]) *)

Lemma header_lines_cons (raw : str) (lines : list str) :
  header_lines (raw :: lines)
  = if Py.startswith [Py.GT] (Py.strip raw)
    then Py.strip raw :: header_lines lines
    else header_lines lines.
Proof. reflexivity. Qed.

Lemma startswith_truthy (line : str) :
  Py.startswith [Py.GT] line = true -> Py.truthy line = true.
Proof. destruct line; [discriminate | reflexivity]. Qed.

(** What one loop turn does, by the kind of line. *)
Lemma step_header (st : ReplaceWCd.pstate) (raw : str) :
  Py.startswith [Py.GT] (Py.strip raw) = true ->
  ReplaceWCd.step st raw
  = ReplaceWCd.mk_pstate (ReplaceWCd.flush st) (Some (Py.strip raw)) [].
Proof.
  intros H. unfold ReplaceWCd.step.
  now rewrite (startswith_truthy _ H), H.
Qed.

Lemma step_sequence (st : ReplaceWCd.pstate) (raw : str) :
  Py.startswith [Py.GT] (Py.strip raw) = false ->
  Py.truthy (Py.strip raw) = true ->
  ReplaceWCd.step st raw
  = ReplaceWCd.mk_pstate (ReplaceWCd.sequences st)
      (ReplaceWCd.current_header st)
      (ReplaceWCd.current_sequence_lines st ++ [Py.strip raw]).
Proof.
  intros H Ht. unfold ReplaceWCd.step. now rewrite Ht, H.
Qed.

Lemma step_blank (st : ReplaceWCd.pstate) (raw : str) :
  Py.truthy (Py.strip raw) = false -> ReplaceWCd.step st raw = st.
Proof. intros Ht. unfold ReplaceWCd.step. now rewrite Ht. Qed.

Lemma keys_flush (st : ReplaceWCd.pstate) :
  OrderedDict.keys (ReplaceWCd.flush st)
  = match ReplaceWCd.current_header st with
    | Some h => if Py.truthy h
                then add_key (OrderedDict.keys (ReplaceWCd.sequences st)) h
                else OrderedDict.keys (ReplaceWCd.sequences st)
    | None => OrderedDict.keys (ReplaceWCd.sequences st)
    end.
Proof.
  unfold ReplaceWCd.flush.
  destruct (ReplaceWCd.current_header st) as [h|]; [| reflexivity].
  destruct (Py.truthy h); [apply keys_set | reflexivity].
Qed.

Lemma keys_flush_step (st : ReplaceWCd.pstate) (raw : str) :
  OrderedDict.keys (ReplaceWCd.flush (ReplaceWCd.step st raw))
  = if Py.startswith [Py.GT] (Py.strip raw)
    then add_key (OrderedDict.keys (ReplaceWCd.flush st)) (Py.strip raw)
    else OrderedDict.keys (ReplaceWCd.flush st).
Proof.
  destruct (Py.startswith [Py.GT] (Py.strip raw)) eqn:H.
  - rewrite step_header by exact H. rewrite keys_flush.
    cbn [ReplaceWCd.current_header ReplaceWCd.sequences].
    now rewrite (startswith_truthy _ H).
  - destruct (Py.truthy (Py.strip raw)) eqn:Ht.
    + rewrite step_sequence by assumption. now rewrite !keys_flush.
    + now rewrite step_blank.
Qed.

Lemma keys_parse_from (lines : list str) (st : ReplaceWCd.pstate) :
  OrderedDict.keys (ReplaceWCd.flush (fold_left ReplaceWCd.step lines st))
  = fold_left add_key (header_lines lines)
      (OrderedDict.keys (ReplaceWCd.flush st)).
Proof.
  revert st. induction lines as [|raw lines IH]; intros st.
  - reflexivity.
  - cbn [fold_left]. rewrite IH, keys_flush_step, header_lines_cons.
    now destruct (Py.startswith [Py.GT] (Py.strip raw)).
Qed.

Lemma keys_parse_lines (lines : list str) :
  OrderedDict.keys (ReplaceWCd.parse_lines lines)
  = first_occurrences (header_lines lines).
Proof. unfold ReplaceWCd.parse_lines. now rewrite keys_parse_from. Qed.

Lemma NoDup_keys_parse_lines (lines : list str) :
  NoDup (OrderedDict.keys (ReplaceWCd.parse_lines lines)).
Proof.
  rewrite keys_parse_lines. apply NoDup_fold_add_key. constructor.
Qed.

(** ** The list parser ([AF_batch_gen.parse_fasta]) *)

Lemma af_headers_flush (st : AFBatchGen.pstate) :
  map fst (AFBatchGen.flush st)
  = match AFBatchGen.header st with
    | Some h => if Py.truthy h
                then map fst (AFBatchGen.sequences st) ++ [h]
                else map fst (AFBatchGen.sequences st)
    | None => map fst (AFBatchGen.sequences st)
    end.
Proof.
  unfold AFBatchGen.flush.
  destruct (AFBatchGen.header st) as [h|]; cbn [Py.truthy_opt]; [| reflexivity].
  destruct (Py.truthy h); [| reflexivity].
  now rewrite map_app.
Qed.

Lemma af_headers_flush_step (st : AFBatchGen.pstate) (raw : str) :
  map fst (AFBatchGen.flush (AFBatchGen.step st raw))
  = if Py.startswith [Py.GT] (Py.strip raw)
    then if Py.truthy (header_text (Py.strip raw))
         then map fst (AFBatchGen.flush st) ++ [header_text (Py.strip raw)]
         else map fst (AFBatchGen.flush st)
    else map fst (AFBatchGen.flush st).
Proof.
  unfold AFBatchGen.step.
  destruct (Py.truthy (Py.strip raw)) eqn:Ht; cbn [negb].
  - destruct (Py.startswith [Py.GT] (Py.strip raw)) eqn:H.
    + rewrite af_headers_flush.
      cbn [AFBatchGen.header AFBatchGen.sequences]. reflexivity.
    + now rewrite !af_headers_flush.
  - destruct (Py.startswith [Py.GT] (Py.strip raw)) eqn:H; [| reflexivity].
    apply startswith_truthy in H. congruence.
Qed.

Lemma af_headers_parse_from (lines : list str) (st : AFBatchGen.pstate) :
  Forall (fun l => header_text l <> []) (header_lines lines) ->
  map fst (AFBatchGen.flush (fold_left AFBatchGen.step lines st))
  = map fst (AFBatchGen.flush st) ++ map header_text (header_lines lines).
Proof.
  revert st. induction lines as [|raw lines IH]; intros st Hall.
  - cbn. now rewrite app_nil_r.
  - cbn [fold_left]. rewrite header_lines_cons in *.
    destruct (Py.startswith [Py.GT] (Py.strip raw)) eqn:H.
    + inversion Hall as [|l ls Hl Hls]; subst.
      rewrite IH by assumption. rewrite af_headers_flush_step, H.
      cbn [map].
      destruct (header_text (Py.strip raw)) as [|c t] eqn:E;
        [exfalso; now apply Hl |].
      cbn [Py.truthy]. now rewrite <- app_assoc.
    + rewrite IH by assumption. now rewrite af_headers_flush_step, H.
Qed.

(** C3, parser by parser.  The dictionary parser of [replace_w_cd.py]
    yields one record per distinct header line, in order of first
    occurrence (an assignment to a header already stored keeps its place);
    with pairwise distinct header lines this is one record per header line,
    in input order.  The list parser of [AF_batch_gen.py] yields one record
    per header line, in input order and repeated headers included, as soon
    as every header line carries some text after the marker. *)
Theorem parsers_records_per_header_line (lines : list str) :
  OrderedDict.keys (ReplaceWCd.parse_lines lines)
  = first_occurrences (header_lines lines)
  /\ (NoDup (header_lines lines) ->
      OrderedDict.keys (ReplaceWCd.parse_lines lines) = header_lines lines
      /\ length (ReplaceWCd.parse_lines lines) = length (header_lines lines))
  /\ (Forall (fun l => header_text l <> []) (header_lines lines) ->
      map fst (AFBatchGen.parse_lines lines)
      = map header_text (header_lines lines)
      /\ length (AFBatchGen.parse_lines lines) = length (header_lines lines)).
Proof.
  split; [apply keys_parse_lines |]. split.
  - intros Hn.
    assert (E : OrderedDict.keys (ReplaceWCd.parse_lines lines)
                = header_lines lines).
    { rewrite keys_parse_lines. unfold first_occurrences.
      now rewrite fold_add_key_NoDup. }
    split; [exact E |].
    rewrite <- E. unfold OrderedDict.keys. now rewrite length_map.
  - intros Hall.
    assert (E : map fst (AFBatchGen.parse_lines lines)
                = map header_text (header_lines lines)).
    { unfold AFBatchGen.parse_lines. now rewrite af_headers_parse_from. }
    split; [exact E |].
    rewrite <- (length_map fst), E. now rewrite length_map.
Qed.

Lemma parsers_records_per_header_line_witness :
  let lines := [lit ">a" ++ [Py.LF]; lit "XX" ++ [Py.LF];
                lit ">b" ++ [Py.LF]; lit "YY" ++ [Py.LF]] in
  (OrderedDict.keys (ReplaceWCd.parse_lines lines) = header_lines lines
   /\ length (ReplaceWCd.parse_lines lines) = length (header_lines lines))
  /\ (map fst (AFBatchGen.parse_lines lines)
      = map header_text (header_lines lines)
      /\ length (AFBatchGen.parse_lines lines) = length (header_lines lines)).
Proof.
  intros lines.
  destruct (parsers_records_per_header_line lines) as (_ & Hd & Hl).
  split.
  - apply Hd. vm_compute.
    constructor; [intros [H|[]]; discriminate H |].
    constructor; [intros [] | constructor].
  - apply Hl. vm_compute.
    constructor; [discriminate |]. constructor; [discriminate | constructor].
Defined.

(** C3 does not hold with repeated headers on the dictionary parser: two
    identical header lines give one record, which holds the later
    sequence. *)
Lemma duplicate_header_counterexample :
  let lines := [lit ">a" ++ [Py.LF]; lit "XX" ++ [Py.LF];
                lit ">a" ++ [Py.LF]; lit "YY" ++ [Py.LF]] in
  header_lines lines = [lit ">a"; lit ">a"]
  /\ ReplaceWCd.parse_lines lines = [(lit ">a", lit "YY")]
  /\ length (ReplaceWCd.parse_lines lines) <> length (header_lines lines).
Proof. vm_compute. repeat split. discriminate. Qed.

(** The list parser keeps a repeated header, and loses a record whose
    header line is the bare marker. *)
Example af_parse_duplicate_and_bare_marker :
  AFBatchGen.parse_lines [lit ">a" ++ [Py.LF]; lit "XX" ++ [Py.LF];
                          lit ">a" ++ [Py.LF]; lit "YY" ++ [Py.LF]]
  = [(lit "a", lit "XX"); (lit "a", lit "YY")]
  /\ AFBatchGen.parse_lines [lit ">" ++ [Py.LF]; lit "XX" ++ [Py.LF];
                             lit ">b" ++ [Py.LF]; lit "YY" ++ [Py.LF]]
     = [(lit "b", lit "YY")].
Proof. vm_compute. split; reflexivity. Qed.

(** ** Whole-record replacement ([replace_w_cd.process_fasta_file]) *)

Lemma bind_returns {A B} (m : M A) (k : A -> M B) (tr : list event) (a : A) :
  m = (tr, inr a) -> bind m k = (tr ++ trace (k a), result (k a)).
Proof. intros ->. unfold bind. destruct (k a); reflexivity. Qed.

Lemma split1_without_sep (sep : ascii) (s : str) :
  ~ In sep s -> Py.split1 sep s = [s].
Proof.
  induction s as [|c s IH]; intros Hn; cbn [Py.split1]; [reflexivity |].
  destruct (Ascii.eqb_spec c sep) as [->|Hc].
  - exfalso. apply Hn. now left.
  - rewrite IH; [reflexivity |]. intros Hin. apply Hn. now right.
Qed.

Lemma split1_cases (sep : ascii) (s : str) :
  Py.split1 sep s = [s] \/ exists a b, Py.split1 sep s = [a; b].
Proof.
  induction s as [|c s IH]; cbn [Py.split1]; [now left |].
  destruct (Ascii.eqb c sep); [right; now exists [], s |].
  destruct IH as [->|(a & b & ->)]; [now left |].
  right. now exists (c :: a), b.
Qed.

Section Replacement.

Variables (filename replacement_seq : str).
Variables (h1 s1 h2 s2 : str) (rest : OrderedDict.t).
Hypothesis distinct : h1 <> h2.

Let d : OrderedDict.t := (h1, s1) :: (h2, s2) :: rest.
Let d' : OrderedDict.t := (h1, s1) :: (h2, replacement_seq) :: rest.

(** Every branch of the filename rule assigns to the second header. *)
Lemma substitute_replaces :
  exists msg,
    ReplaceWCd.substitute filename h2 replacement_seq d
    = ([Print msg], inr d').
Proof.
  unfold ReplaceWCd.substitute. subst d d'.
  rewrite (set_second h1 s1 h2 s2 replacement_seq rest distinct).
  destruct (Py.startswith (lit "complex_") filename).
  - destruct (split1_cases Py.COLON (Py.slice_from 1 h2))
      as [->|(a & b & ->)]; eexists; reflexivity.
  - eexists; reflexivity.
Qed.

(** A [complex_] file whose second header has no colon takes the
    [except ValueError] branch. *)
Lemma substitute_warns :
  Py.startswith (lit "complex_") filename = true ->
  ~ In Py.COLON h2 ->
  ReplaceWCd.substitute filename h2 replacement_seq d
  = ([Print (lit "  Warning: 'complex_' file " ++ filename
             ++ lit " does not have a ':' in the second header. Replacing the whole second sequence.")],
     inr d').
Proof.
  intros Hc Hn. unfold ReplaceWCd.substitute. subst d d'.
  rewrite (set_second h1 s1 h2 s2 replacement_seq rest distinct), Hc.
  rewrite split1_without_sep; [reflexivity |].
  intros Hin. apply Hn. unfold Py.slice_from in Hin.
  destruct h2 as [|c t]; [exact Hin | now right].
Qed.

End Replacement.

Section ProcessFile.

Variable open_w : str -> option exn.
Variables (path output_dir replacement_seq : str).

Let filename : str := basename path.
Let output_file_path : str := path_div output_dir filename.

Lemma process_unreadable (e : exn) :
  ReplaceWCd.process_fasta_file open_w (path, inl e) output_dir
    replacement_seq
  = ([Print (lit "Processing: " ++ filename);
      Print (lit "Error parsing " ++ filename ++ lit ": " ++ exn_str e)],
     inr tt).
Proof. reflexivity. Qed.

Lemma process_too_few (text : str) :
  length (ReplaceWCd.parse_lines (Py.readlines text)) < 2 ->
  ReplaceWCd.process_fasta_file open_w (path, inr text) output_dir
    replacement_seq
  = ([Print (lit "Processing: " ++ filename);
      Print (lit "  Skipping: " ++ filename
             ++ lit " has less than two sequences.")],
     inr tt).
Proof.
  intros Hlen. unfold ReplaceWCd.process_fasta_file, ReplaceWCd.parse_fasta.
  cbn [fst snd bind print emit try_except ret app].
  unfold OrderedDict.keys. rewrite length_map.
  apply Nat.ltb_lt in Hlen. rewrite Hlen. reflexivity.
Qed.

(** With two records or more the run gets to the write, which either
    succeeds or lets the exception of [open] leave the function. *)
Lemma process_replaces (text msg : str) (r1 r2 : str * str)
    (rest d' : OrderedDict.t) :
  ReplaceWCd.parse_lines (Py.readlines text) = r1 :: r2 :: rest ->
  ReplaceWCd.substitute filename (fst r2) replacement_seq
    (r1 :: r2 :: rest) = ([Print msg], inr d') ->
  ReplaceWCd.process_fasta_file open_w (path, inr text) output_dir
    replacement_seq
  = match open_w output_file_path with
    | None =>
        ([Print (lit "Processing: " ++ filename);
          Print msg;
          WriteFile output_file_path (ReplaceWCd.fasta_text 60 d');
          Print (lit "  Wrote modified file to: " ++ output_file_path)],
         inr tt)
    | Some e =>
        ([Print (lit "Processing: " ++ filename); Print msg], inl e)
    end.
Proof.
  intros Hd Hs. unfold ReplaceWCd.process_fasta_file, ReplaceWCd.parse_fasta.
  cbn [fst snd bind print emit try_except ret app].
  rewrite Hd.
  cbn [OrderedDict.keys map length Nat.ltb Nat.leb index nth_error bind ret app].
  fold filename. rewrite Hs. unfold ReplaceWCd.write_fasta.
  fold output_file_path.
  destruct (open_w output_file_path); reflexivity.
Qed.

End ProcessFile.

(** The first two headers of a parsed file differ. *)
Lemma parsed_headers_distinct (lines : list str) (h1 s1 h2 s2 : str)
    (rest : OrderedDict.t) :
  ReplaceWCd.parse_lines lines = (h1, s1) :: (h2, s2) :: rest -> h1 <> h2.
Proof.
  intros E. pose proof (NoDup_keys_parse_lines lines) as Hn.
  rewrite E in Hn. cbn in Hn. inversion Hn as [|x l Hx Hl]; subst.
  intros ->. apply Hx. now left.
Qed.

(** C2.  On a parsed file of at least two records, the filename rule, in
    each of its branches (the [complex_] one included, whose rebuilt header
    is dropped), returns the parsed records with the second record's
    sequence replaced and nothing else touched: first record, second
    header and all later records are the parsed ones.  The one file written
    is the text of exactly these records; when the output cannot be opened
    nothing is written. *)
Theorem replacement_changes_second_sequence_only
    (open_w : str -> option exn)
    (path text output_dir replacement_seq : str) :
  2 <= length (ReplaceWCd.parse_lines (Py.readlines text)) ->
  exists r1 h2 s2 rest msg,
    ReplaceWCd.parse_lines (Py.readlines text) = r1 :: (h2, s2) :: rest
    /\ ReplaceWCd.substitute (basename path) h2 replacement_seq
         (ReplaceWCd.parse_lines (Py.readlines text))
       = ([Print msg], inr (r1 :: (h2, replacement_seq) :: rest))
    /\ written (trace (ReplaceWCd.process_fasta_file open_w (path, inr text)
                         output_dir replacement_seq))
       = match open_w (path_div output_dir (basename path)) with
         | None =>
             [(path_div output_dir (basename path),
               ReplaceWCd.fasta_text 60
                 (r1 :: (h2, replacement_seq) :: rest))]
         | Some _ => []
         end.
Proof.
  intros Hlen.
  destruct (ReplaceWCd.parse_lines (Py.readlines text))
    as [|[h1 s1] [|[h2 s2] rest]] eqn:E;
    try (cbn in Hlen; lia).
  pose proof (parsed_headers_distinct _ _ _ _ _ _ E) as Hne.
  destruct (substitute_replaces (basename path) replacement_seq
              h1 s1 h2 s2 rest Hne) as [msg Hs].
  exists (h1, s1), h2, s2, rest, msg.
  split; [reflexivity |]. split; [exact Hs |].
  rewrite (process_replaces open_w path output_dir replacement_seq text msg
             (h1, s1) (h2, s2) rest _ E Hs).
  destruct (open_w (path_div output_dir (basename path))); reflexivity.
Qed.

Lemma replacement_changes_second_sequence_only_witness :
  let text := lit ">TIMP3" ++ [Py.LF] ++ lit "CTCS" ++ [Py.LF]
              ++ lit ">MMP9:x" ++ [Py.LF] ++ lit "MSLW" ++ [Py.LF]
              ++ lit ">third" ++ [Py.LF] ++ lit "GG" ++ [Py.LF] in
  let path := lit "MMP2/complex_t.fasta" in
  2 <= length (ReplaceWCd.parse_lines (Py.readlines text))
  /\ exists r1 h2 s2 rest msg,
       ReplaceWCd.parse_lines (Py.readlines text) = r1 :: (h2, s2) :: rest
       /\ ReplaceWCd.substitute (basename path) h2 (lit "YNFFP")
            (ReplaceWCd.parse_lines (Py.readlines text))
          = ([Print msg], inr (r1 :: (h2, lit "YNFFP") :: rest))
       /\ written (trace (ReplaceWCd.process_fasta_file (fun _ => None)
                            (path, inr text) (lit "out") (lit "YNFFP")))
          = [(path_div (lit "out") (basename path),
              ReplaceWCd.fasta_text 60 (r1 :: (h2, lit "YNFFP") :: rest))].
Proof.
  intros text path.
  split; [vm_compute; lia |].
  apply (replacement_changes_second_sequence_only (fun _ => None) path text
           (lit "out") (lit "YNFFP")).
  vm_compute; lia.
Defined.

(** C8.  A readable file with fewer than two parsed records makes
    [process_fasta_file] print the skip diagnostic, write nothing and
    return normally, whatever the file system answers, so that the loop of
    the batch goes on with the files that follow. *)
Theorem too_few_records_skipped (open_w : str -> option exn)
    (path text output_dir replacement_seq : str) (others : list file) :
  length (ReplaceWCd.parse_lines (Py.readlines text)) < 2 ->
  let body := fun f => ReplaceWCd.process_fasta_file open_w f output_dir
                         replacement_seq in
  body (path, inr text)
  = ([Print (lit "Processing: " ++ basename path);
      Print (lit "  Skipping: " ++ basename path
             ++ lit " has less than two sequences.")],
     inr tt)
  /\ written (trace (body (path, inr text))) = []
  /\ for_each ((path, inr text) :: others) body
     = (trace (body (path, inr text)) ++ trace (for_each others body),
        result (for_each others body)).
Proof.
  intros Hlen body. subst body. cbn beta.
  rewrite (process_too_few open_w path output_dir replacement_seq text Hlen).
  split; [reflexivity |]. split; [reflexivity |].
  cbn [for_each].
  rewrite (bind_returns _ _ _ tt
             (process_too_few open_w path output_dir replacement_seq text
                Hlen)).
  reflexivity.
Qed.

Lemma too_few_records_skipped_witness :
  let text := lit ">only" ++ [Py.LF] ++ lit "MKV" ++ [Py.LF] in
  let path := lit "MMP2/one.fasta" in
  let body := fun f => ReplaceWCd.process_fasta_file
                         (fun _ => Some (OSError (lit "read-only")))
                         f (lit "out") (lit "YNFFP") in
  length (ReplaceWCd.parse_lines (Py.readlines text)) < 2
  /\ body (path, inr text)
     = ([Print (lit "Processing: " ++ basename path);
         Print (lit "  Skipping: " ++ basename path
                ++ lit " has less than two sequences.")],
        inr tt)
  /\ written (trace (body (path, inr text))) = []
  /\ for_each [(path, inr text); (path, inl (OSError (lit "denied")))] body
     = (trace (body (path, inr text))
        ++ trace (for_each [(path, inl (OSError (lit "denied")))] body),
        result (for_each [(path, inl (OSError (lit "denied")))] body)).
Proof.
  intros text path body.
  split; [vm_compute; lia |].
  apply (too_few_records_skipped (fun _ => Some (OSError (lit "read-only")))
           path text (lit "out") (lit "YNFFP")
           [(path, inl (OSError (lit "denied")))]).
  vm_compute; lia.
Defined.

(** C9.  For a file named [complex_...] whose second header holds no colon,
    the run warns, replaces the whole second sequence, writes the file and
    returns normally: the missing colon is no failure.  Only an output
    that cannot be opened ends the run early, after the warning, with the
    exception of [open]. *)
Theorem complex_without_colon_falls_back (open_w : str -> option exn)
    (path text output_dir replacement_seq : str)
    (r1 : str * str) (h2 s2 : str) (rest : OrderedDict.t) :
  Py.startswith (lit "complex_") (basename path) = true ->
  ReplaceWCd.parse_lines (Py.readlines text) = r1 :: (h2, s2) :: rest ->
  ~ In Py.COLON h2 ->
  ReplaceWCd.process_fasta_file open_w (path, inr text) output_dir
    replacement_seq
  = match open_w (path_div output_dir (basename path)) with
    | None =>
        ([Print (lit "Processing: " ++ basename path);
          Print (lit "  Warning: 'complex_' file " ++ basename path
                 ++ lit " does not have a ':' in the second header. Replacing the whole second sequence.");
          WriteFile (path_div output_dir (basename path))
            (ReplaceWCd.fasta_text 60 (r1 :: (h2, replacement_seq) :: rest));
          Print (lit "  Wrote modified file to: "
                 ++ path_div output_dir (basename path))],
         inr tt)
    | Some e =>
        ([Print (lit "Processing: " ++ basename path);
          Print (lit "  Warning: 'complex_' file " ++ basename path
                 ++ lit " does not have a ':' in the second header. Replacing the whole second sequence.")],
         inl e)
    end.
Proof.
  intros Hc E Hn. destruct r1 as [h1 s1].
  pose proof (parsed_headers_distinct _ _ _ _ _ _ E) as Hne.
  apply (process_replaces open_w path output_dir replacement_seq text _
           (h1, s1) (h2, s2) rest _ E).
  now apply substitute_warns.
Qed.

Lemma complex_without_colon_falls_back_witness :
  let text := lit ">TIMP3" ++ [Py.LF] ++ lit "CTCS" ++ [Py.LF]
              ++ lit ">MMP9" ++ [Py.LF] ++ lit "MSLW" ++ [Py.LF] in
  let path := lit "MMP2/complex_t.fasta" in
  ReplaceWCd.process_fasta_file (fun _ => None) (path, inr text)
    (lit "./out/") (lit "YNFFP")
  = ([Print (lit "Processing: complex_t.fasta");
      Print (lit "  Warning: 'complex_' file complex_t.fasta does not have a ':' in the second header. Replacing the whole second sequence.");
      WriteFile (lit "out/complex_t.fasta")
        (ReplaceWCd.fasta_text 60
           [(lit ">TIMP3", lit "CTCS"); (lit ">MMP9", lit "YNFFP")]);
      Print (lit "  Wrote modified file to: out/complex_t.fasta")],
     inr tt).
Proof.
  intros text path.
  refine (complex_without_colon_falls_back (fun _ => None) path text
            (lit "./out/") (lit "YNFFP")
            (lit ">TIMP3", lit "CTCS") (lit ">MMP9") (lit "MSLW") []
            eq_refl eq_refl _).
  absent.
Defined.

(** ** The batch driver ([replace_w_cd.main]) *)

(** A read error is caught and a short file is skipped before
    [headers[1]] is taken: neither raises, whatever the file system
    answers. *)
Lemma process_gives_up (open_w : str -> option exn) (f : file)
    (output_dir replacement_seq : str) :
  unreadable_or_short f ->
  exists line,
    ReplaceWCd.process_fasta_file open_w f output_dir replacement_seq
    = ([Print (lit "Processing: " ++ basename (fst f)); Print line], inr tt).
Proof.
  destruct f as [path [e|text]]; cbn [unreadable_or_short fst snd]; intros H.
  - rewrite process_unreadable. eexists; reflexivity.
  - rewrite process_too_few by exact H. eexists; reflexivity.
Qed.

(** The unpacking error of the [complex_] branch is caught too: a file
    whose output can be opened never makes [process_fasta_file] raise. *)
Lemma process_fasta_file_returns (open_w : str -> option exn) (f : file)
    (output_dir replacement_seq : str) :
  open_w (path_div output_dir (basename (fst f))) = None ->
  exists tl,
    ReplaceWCd.process_fasta_file open_w f output_dir replacement_seq
    = (Print (lit "Processing: " ++ basename (fst f)) :: tl, inr tt).
Proof.
  intros Hw. destruct f as [path [e|text]]; cbn [fst] in Hw.
  - rewrite process_unreadable. eexists; reflexivity.
  - destruct (ReplaceWCd.parse_lines (Py.readlines text))
      as [|[h1 s1] [|[h2 s2] rest]] eqn:E.
    + rewrite process_too_few by (rewrite E; cbn; lia). eexists; reflexivity.
    + rewrite process_too_few by (rewrite E; cbn; lia). eexists; reflexivity.
    + pose proof (parsed_headers_distinct _ _ _ _ _ _ E) as Hne.
      destruct (substitute_replaces (basename path) replacement_seq
                  h1 s1 h2 s2 rest Hne) as [msg Hs].
      rewrite (process_replaces open_w path output_dir replacement_seq text
                 msg (h1, s1) (h2, s2) rest _ E Hs).
      rewrite Hw. eexists; reflexivity.
Qed.

Lemma for_each_returns {A} (xs : list A) (body : A -> M unit) :
  (forall x, In x xs -> result (body x) = inr tt) ->
  for_each xs body = (flat_map (fun x => trace (body x)) xs, inr tt).
Proof.
  induction xs as [|x xs IH]; intros Hb; cbn [for_each flat_map].
  - reflexivity.
  - pose proof (Hb x (or_introl eq_refl)) as Hx.
    destruct (body x) as [tr r] eqn:E.
    cbn [result snd] in Hx. subst r.
    rewrite (bind_returns _ _ tr tt eq_refl), IH; [reflexivity |].
    intros y Hy. apply Hb. now right.
Qed.

Lemma for_each_total {A} (xs : list A) (body : A -> M unit) :
  (forall x, result (body x) = inr tt) ->
  for_each xs body = (flat_map (fun x => trace (body x)) xs, inr tt).
Proof. intros Hb. apply for_each_returns. intros x _. apply Hb. Qed.

(** The run of [main] when the output directory can be made and each
    output can be opened. *)
Lemma main_trace (open_w : str -> option exn) (f : file) (fs : list file) :
  writable open_w ReplaceWCd.OUTPUT_DIR (f :: fs) ->
  ReplaceWCd.main open_w None (f :: fs)
  = (Print (lit "--- Starting FASTA Processor ---")
     :: MakeDir ReplaceWCd.OUTPUT_DIR
     :: flat_map
          (fun x => trace (ReplaceWCd.process_fasta_file open_w x
                             ReplaceWCd.OUTPUT_DIR
                             ReplaceWCd.REPLACEMENT_SEQUENCE)) (f :: fs)
        ++ [Print (lit "--- Processing Complete ---")],
     inr tt).
Proof.
  intros Hw. unfold ReplaceWCd.main.
  rewrite (for_each_returns (f :: fs)
             (fun x => ReplaceWCd.process_fasta_file open_w x
                         ReplaceWCd.OUTPUT_DIR
                         ReplaceWCd.REPLACEMENT_SEQUENCE)).
  - reflexivity.
  - intros x Hx.
    destruct (process_fasta_file_returns open_w x ReplaceWCd.OUTPUT_DIR
                ReplaceWCd.REPLACEMENT_SEQUENCE (Hw x Hx)) as [tl ->].
    reflexivity.
Qed.

(** C7, without the count.  A file that cannot be read or that has fewer
    than two records makes [process_fasta_file] print its diagnostic and
    return normally, whatever the file system answers: it never stops the
    batch.  When the output directory can be made and the output of each
    file can be opened, [main] returns normally and each file gets its
    own run, in order, which starts by printing the file's name.  The run
    ends with the fixed line [--- Processing Complete ---]; with no file
    it prints the line [No FASTA files found in MMP2. ...] instead.  No
    line counts files. *)
Theorem batch_runs_every_file (open_w : str -> option exn)
    (fasta_files : list file) :
  let body := fun f => ReplaceWCd.process_fasta_file open_w f
                         ReplaceWCd.OUTPUT_DIR
                         ReplaceWCd.REPLACEMENT_SEQUENCE in
  (forall f, unreadable_or_short f ->
     exists line,
       body f = ([Print (lit "Processing: " ++ basename (fst f)); Print line],
                 inr tt))
  /\ (writable open_w ReplaceWCd.OUTPUT_DIR fasta_files ->
      ReplaceWCd.main open_w None fasta_files
      = (Print (lit "--- Starting FASTA Processor ---")
         :: MakeDir ReplaceWCd.OUTPUT_DIR
         :: match fasta_files with
            | [] => [Print (lit "No FASTA files found in "
                            ++ ReplaceWCd.INPUT_DIR
                            ++ lit ". Please check the path and file extensions.")]
            | _ => flat_map (fun f => trace (body f)) fasta_files
                   ++ [Print (lit "--- Processing Complete ---")]
            end,
         inr tt)
      /\ forall f, In f fasta_files -> exists tl,
           body f
           = (Print (lit "Processing: " ++ basename (fst f)) :: tl, inr tt)).
Proof.
  intros body. split.
  - intros f Hf. now apply process_gives_up.
  - intros Hw. split.
    + destruct fasta_files as [|f fs]; [reflexivity |].
      now apply main_trace.
    + intros f Hf. apply process_fasta_file_returns. now apply Hw.
Qed.

Lemma batch_runs_every_file_witness :
  let unreadable := (lit "MMP2/a.fasta", inl (OSError (lit "denied"))) : file in
  let short := (lit "MMP2/b.fasta",
                inr (lit ">a" ++ [Py.LF] ++ lit "AA" ++ [Py.LF])) : file in
  let good := (lit "MMP2/c.fasta",
               inr (lit ">a" ++ [Py.LF] ++ lit "AA" ++ [Py.LF]
                    ++ lit ">b" ++ [Py.LF] ++ lit "BB" ++ [Py.LF])) : file in
  let body := fun f => ReplaceWCd.process_fasta_file (fun _ => None) f
                         ReplaceWCd.OUTPUT_DIR
                         ReplaceWCd.REPLACEMENT_SEQUENCE in
  (exists line,
     body short
     = ([Print (lit "Processing: " ++ basename (fst short)); Print line],
        inr tt))
  /\ ReplaceWCd.main (fun _ => None) None [unreadable; short; good]
     = (Print (lit "--- Starting FASTA Processor ---")
        :: MakeDir ReplaceWCd.OUTPUT_DIR
        :: flat_map (fun f => trace (body f)) [unreadable; short; good]
           ++ [Print (lit "--- Processing Complete ---")],
        inr tt).
Proof.
  intros unreadable short good body.
  destruct (batch_runs_every_file (fun _ => None) [unreadable; short; good])
    as [Hskip Hrun].
  split.
  - apply (Hskip short). vm_compute; lia.
  - apply Hrun. intros f _. reflexivity.
Defined.

(** C7 does not hold for the final report: a run that processed its one
    file and a run that skipped its one file end with the same line, and a
    run over no file prints its two fixed lines, none of which reports a
    count. *)
Lemma final_report_counterexample :
  let processed := (lit "MMP2/a.fasta",
                    inr (lit ">a" ++ [Py.LF] ++ lit "AA" ++ [Py.LF]
                         ++ lit ">b" ++ [Py.LF] ++ lit "BB" ++ [Py.LF])) in
  let skipped := (lit "MMP2/b.fasta",
                  inr (lit ">a" ++ [Py.LF] ++ lit "AA" ++ [Py.LF])) in
  let run1 := trace (ReplaceWCd.main (fun _ => None) None [processed]) in
  let run2 := trace (ReplaceWCd.main (fun _ => None) None [skipped]) in
  length (written run1) = 1 /\ length (written run2) = 0
  /\ last (printed run1) [] = lit "--- Processing Complete ---"
  /\ last (printed run2) [] = lit "--- Processing Complete ---"
  /\ printed (trace (ReplaceWCd.main (fun _ => None) None []))
     = [lit "--- Starting FASTA Processor ---";
        lit "No FASTA files found in MMP2. Please check the path and file extensions."].
Proof. vm_compute. repeat split. Qed.

(** Neither the making of the output directory nor the write is guarded:
    the exception of either leaves [main] at once, and the files that
    follow are not looked at. *)
Lemma unguarded_failure_ends_run :
  let good := (lit "MMP2/a.fasta",
               inr (lit ">a" ++ [Py.LF] ++ lit "AA" ++ [Py.LF]
                    ++ lit ">b" ++ [Py.LF] ++ lit "BB" ++ [Py.LF])) : file in
  let later := (lit "MMP2/b.fasta",
                inr (lit ">a" ++ [Py.LF] ++ lit "AA" ++ [Py.LF])) : file in
  let full := fun _ : str => Some (OSError (lit "No space left on device")) in
  ReplaceWCd.main full None [good; later]
  = ([Print (lit "--- Starting FASTA Processor ---");
      MakeDir ReplaceWCd.OUTPUT_DIR;
      Print (lit "Processing: a.fasta");
      Print (lit "  Result: Replaced second sequence with predefined sequence. Header remains: >b")],
     inl (OSError (lit "No space left on device")))
  /\ ReplaceWCd.main (fun _ => None) (Some (OSError (lit "denied")))
       [good; later]
     = ([Print (lit "--- Starting FASTA Processor ---")],
        inl (OSError (lit "denied"))).
Proof. vm_compute. split; reflexivity. Qed.

(** ** Reading back written lines *)

Lemma translate_without_CR (t : str) :
  ~ In Py.CR t -> Py.translate_newlines t = t.
Proof.
  induction t as [|c t IH]; intros Hn; cbn [Py.translate_newlines].
  - reflexivity.
  - destruct (Ascii.eqb_spec c Py.CR) as [->|Hc].
    + exfalso. apply Hn. now left.
    + rewrite IH; [reflexivity |]. intros Hin. apply Hn. now right.
Qed.

Lemma lines_from_line (cur l rest : str) :
  ~ In Py.LF l ->
  Py.lines_from cur (l ++ Py.LF :: rest)
  = (cur ++ l ++ [Py.LF]) :: Py.lines_from [] rest.
Proof.
  revert cur. induction l as [|c l IH]; intros cur Hn; cbn [app Py.lines_from].
  - now rewrite Ascii.eqb_refl.
  - destruct (Ascii.eqb_spec c Py.LF) as [->|Hc].
    + exfalso. apply Hn. now left.
    + rewrite IH by (intros Hin; apply Hn; now right).
      now rewrite <- app_assoc.
Qed.

Lemma lines_from_unlines (ls : list str) :
  Forall (fun l => ~ In Py.LF l) ls ->
  Py.lines_from [] (concat (map with_newline ls)) = map with_newline ls.
Proof.
  induction 1 as [|l ls Hl Hls IH]; cbn [map concat].
  - reflexivity.
  - unfold with_newline at 1 3. rewrite <- app_assoc. cbn [app].
    rewrite lines_from_line by exact Hl. now rewrite IH.
Qed.

Lemma In_concat_with_newline (c : ascii) (ls : list str) :
  In c (concat (map with_newline ls)) ->
  c = Py.LF \/ exists l, In l ls /\ In c l.
Proof.
  induction ls as [|l ls IH]; cbn [map concat]; [intros [] |].
  unfold with_newline at 1. rewrite !in_app_iff.
  intros [[Hin|[<-|[]]]|Hin].
  - right. exists l. split; [now left | assumption].
  - now left.
  - destruct (IH Hin) as [->|(l' & Hl' & Hc)]; [now left |].
    right. exists l'. split; [now right | assumption].
Qed.

Lemma readlines_unlines (ls : list str) :
  Forall (fun l => ~ In Py.LF l /\ ~ In Py.CR l) ls ->
  Py.readlines (concat (map with_newline ls)) = map with_newline ls.
Proof.
  intros Hall. unfold Py.readlines.
  rewrite translate_without_CR.
  - apply lines_from_unlines.
    eapply Forall_impl; [| exact Hall]. now intros l [H _].
  - intros Hin. apply In_concat_with_newline in Hin as [E|(l & Hl & Hc)].
    + discriminate E.
    + rewrite Forall_forall in Hall. now apply (Hall l Hl).
Qed.

(** ** Wrapping *)

Lemma firstn_plus {A} (a b : nat) (l : list A) :
  firstn a l ++ firstn b (skipn a l) = firstn (a + b) l.
Proof.
  revert l. induction a as [|a IH]; intros l; [reflexivity |].
  destruct l as [|x l]; cbn [firstn skipn Nat.add app].
  - now rewrite firstn_nil.
  - now rewrite IH.
Qed.

Lemma slice_window (i w : nat) (s : str) :
  Py.slice i (i + w) s = firstn w (skipn i s).
Proof. unfold Py.slice. f_equal. lia. Qed.

Lemma concat_windows (w m : nat) (s : str) :
  concat (map (fun i => Py.slice i (i + w) s)
            (map (fun k => k * w) (seq 0 m)))
  = firstn (m * w) s.
Proof.
  induction m as [|m IH]; [reflexivity |].
  rewrite seq_S, !map_app, concat_app, IH. cbn [map concat Nat.add].
  rewrite app_nil_r, slice_window, firstn_plus. f_equal. lia.
Qed.

Lemma range_covers (n w : nat) : 1 <= w -> n <= (n + w - 1) / w * w.
Proof.
  intros Hw.
  pose proof (Nat.div_mod_eq (n + w - 1) w) as E.
  pose proof (Nat.mod_upper_bound (n + w - 1) w) as Hr.
  nia.
Qed.

Lemma range_inside (n w k : nat) :
  1 <= w -> k < (n + w - 1) / w -> k * w < n.
Proof.
  intros Hw Hk.
  pose proof (Nat.Div0.mul_div_le (n + w - 1) w) as Hq.
  nia.
Qed.

Lemma concat_chunks (w : nat) (s : str) :
  1 <= w -> concat (chunks w s) = s.
Proof.
  intros Hw. unfold chunks, Py.range_step.
  rewrite concat_windows. apply firstn_all2. now apply range_covers.
Qed.

Lemma forallb_firstn {A} (p : A -> bool) (n : nat) (l : list A) :
  forallb p l = true -> forallb p (firstn n l) = true.
Proof.
  revert l. induction n as [|n IH]; intros [|x l]; cbn; try reflexivity.
  intros H. apply andb_true_iff in H as [Hx Hl]. now rewrite Hx, IH.
Qed.

Lemma forallb_skipn {A} (p : A -> bool) (n : nat) (l : list A) :
  forallb p l = true -> forallb p (skipn n l) = true.
Proof.
  revert l. induction n as [|n IH]; intros [|x l]; cbn; try easy.
  intros H. apply andb_true_iff in H as [Hx Hl]. now apply IH.
Qed.

(** Every chunk is a non-empty run of characters of the sequence. *)
Lemma chunks_shape (w : nat) (s : str) :
  1 <= w -> forallb residue s = true ->
  Forall (fun c => c <> [] /\ forallb residue c = true) (chunks w s).
Proof.
  intros Hw Hs. unfold chunks, Py.range_step.
  rewrite Forall_forall. intros c Hc.
  apply in_map_iff in Hc as (i & <- & Hi).
  apply in_map_iff in Hi as (k & <- & Hk).
  apply in_seq in Hk as [_ Hk]. cbn [Nat.add] in Hk.
  rewrite slice_window. split.
  - pose proof (range_inside (length s) w k Hw Hk) as Hlt.
    intros E. apply (f_equal (@length ascii)) in E.
    rewrite length_firstn, length_skipn in E. cbn [length] in E. lia.
  - now apply forallb_firstn, forallb_skipn.
Qed.

(** ** Parsing the writer's output *)

Lemma residue_not_space (c : ascii) :
  residue c = true -> Py.isspace c = false /\ c <> Py.GT.
Proof.
  unfold residue. intros H. apply andb_true_iff in H as [Hs Hg].
  split.
  - now destruct (Py.isspace c).
  - intros ->. now rewrite Ascii.eqb_refl in Hg.
Qed.

Lemma residue_no_line_end (s : str) :
  forallb residue s = true -> ~ In Py.LF s /\ ~ In Py.CR s.
Proof.
  intros H. rewrite forallb_forall in H.
  split; intros Hin; apply H in Hin; discriminate Hin.
Qed.

Lemma strip_chunk_line (c : str) :
  c <> [] -> forallb residue c = true -> Py.strip (with_newline c) = c.
Proof.
  intros Hne Hr. unfold Py.strip, Py.lstrip, with_newline.
  destruct c as [|x c]; [congruence |].
  assert (Hx : Py.isspace x = false).
  { cbn [forallb] in Hr. apply andb_true_iff in Hr as [Hx _].
    now apply residue_not_space in Hx. }
  cbn [app]. rewrite dropwhile_head by exact Hx.
  change (x :: c ++ [Py.LF]) with ((x :: c) ++ [Py.LF]).
  rewrite rstrip_snoc_space by reflexivity.
  destruct (exists_last Hne) as (c' & y & E). rewrite E in *.
  apply rstrip_last_nonspace.
  rewrite forallb_app in Hr. apply andb_true_iff in Hr as [_ Hy].
  cbn [forallb] in Hy. rewrite andb_true_r in Hy.
  now apply residue_not_space in Hy.
Qed.

Lemma chunk_not_header (c : str) :
  forallb residue c = true -> Py.startswith [Py.GT] c = false.
Proof.
  destruct c as [|x c]; [reflexivity |]. cbn [forallb Py.startswith].
  intros H. apply andb_true_iff in H as [Hx _].
  apply residue_not_space in Hx as [_ Hx].
  rewrite andb_true_r. apply Ascii.eqb_neq. congruence.
Qed.

Lemma fold_chunk_lines (cs : list str) (st : ReplaceWCd.pstate) :
  Forall (fun c => c <> [] /\ forallb residue c = true) cs ->
  fold_left ReplaceWCd.step (map with_newline cs) st
  = ReplaceWCd.mk_pstate (ReplaceWCd.sequences st)
      (ReplaceWCd.current_header st)
      (ReplaceWCd.current_sequence_lines st ++ cs).
Proof.
  intros Hall. revert st.
  induction Hall as [|c cs [Hne Hr] Hcs IH]; intros st; cbn [map fold_left].
  - rewrite app_nil_r. now destruct st.
  - rewrite step_sequence; rewrite strip_chunk_line by assumption.
    + rewrite IH. cbn. now rewrite <- app_assoc.
    + now apply chunk_not_header.
    + destruct c; [congruence | reflexivity].
Qed.

Lemma join_nil (cs : list str) : Py.join [] cs = concat cs.
Proof.
  induction cs as [|c cs IH]; [reflexivity |].
  cbn [Py.join concat]. destruct cs as [|c' cs].
  - cbn. now rewrite app_nil_r.
  - cbn [app]. now rewrite IH.
Qed.

Lemma fasta_text_lines (w : nat) (d : OrderedDict.t) :
  ReplaceWCd.fasta_text w d = concat (map with_newline (fasta_lines w d)).
Proof.
  unfold ReplaceWCd.fasta_text, fasta_lines.
  induction d as [|[h s] d IH]; [reflexivity |].
  cbn [map concat flat_map fst snd]. rewrite IH.
  rewrite map_app, concat_app. f_equal.
  unfold ReplaceWCd.record_text, chunks. cbn [map concat].
  unfold with_newline at 1. rewrite <- app_assoc. do 2 f_equal.
  now rewrite map_map.
Qed.

(** Parsing the lines of well-formed records appends them, in order, to
    what the parser holds. *)
Lemma parse_written_records (w : nat) (d : OrderedDict.t)
    (st : ReplaceWCd.pstate) :
  1 <= w ->
  Forall (fun rec => stored_header (fst rec)
                     /\ forallb residue (snd rec) = true) d ->
  NoDup (OrderedDict.keys (ReplaceWCd.flush st) ++ OrderedDict.keys d) ->
  ReplaceWCd.flush
    (fold_left ReplaceWCd.step (map with_newline (fasta_lines w d)) st)
  = ReplaceWCd.flush st ++ d.
Proof.
  intros Hw Hall. revert st.
  induction Hall as [|[h s] d [Hh Hs] Hd IH]; intros st Hnd.
  - cbn. now rewrite app_nil_r.
  - cbn [fst snd] in Hh, Hs. destruct Hh as (Hgt & Hstrip & _).
    unfold fasta_lines in *. cbn [flat_map fst snd map app fold_left].
    rewrite map_app, fold_left_app.
    assert (Hsh : Py.strip (with_newline h) = h)
      by now apply strip_header_line.
    rewrite step_header by now rewrite Hsh.
    rewrite Hsh.
    rewrite (fold_chunk_lines (chunks w s)) by now apply chunks_shape.
    cbn [ReplaceWCd.sequences ReplaceWCd.current_header
         ReplaceWCd.current_sequence_lines app].
    set (st2 := ReplaceWCd.mk_pstate (ReplaceWCd.flush st) (Some h)
                  (chunks w s)).
    assert (Hfl : ReplaceWCd.flush st2 = ReplaceWCd.flush st ++ [(h, s)]).
    { unfold ReplaceWCd.flush at 1. subst st2.
      cbn [ReplaceWCd.sequences ReplaceWCd.current_header
           ReplaceWCd.current_sequence_lines].
      rewrite (startswith_truthy _ Hgt), join_nil, concat_chunks by exact Hw.
      apply set_fresh. cbn [OrderedDict.keys map fst] in Hnd.
      apply NoDup_remove_2 in Hnd. intros Hin. apply Hnd.
      apply in_or_app. now left. }
    rewrite IH; rewrite Hfl.
    + now rewrite <- app_assoc.
    + unfold OrderedDict.keys in *. rewrite map_app, <- app_assoc. exact Hnd.
Qed.

(** C1, on well-formed dictionaries.  For every wrap width of at least 1 and every
    dictionary whose headers are distinct stored headers (marker first,
    stripped, on one line) and whose sequences hold neither whitespace nor
    the marker, parsing the text the writer produces gives the dictionary
    back, records in the same order. *)
Theorem write_then_parse (w : nat) (d : OrderedDict.t) (path : str) :
  1 <= w -> well_formed d ->
  ReplaceWCd.parse_lines (Py.readlines (ReplaceWCd.fasta_text w d)) = d
  /\ ReplaceWCd.parse_fasta (path, inr (ReplaceWCd.fasta_text w d)) = ret d.
Proof.
  intros Hw [Hnd Hall].
  assert (E : ReplaceWCd.parse_lines
                (Py.readlines (ReplaceWCd.fasta_text w d)) = d).
  { rewrite fasta_text_lines, readlines_unlines.
    - unfold ReplaceWCd.parse_lines.
      now rewrite (parse_written_records w d ReplaceWCd.init Hw Hall).
    - unfold fasta_lines. rewrite Forall_forall. intros l Hl.
      apply in_flat_map in Hl as ([h s] & Hrec & Hl).
      rewrite Forall_forall in Hall. destruct (Hall _ Hrec) as [Hh Hs].
      cbn [fst snd] in *. destruct Hl as [<-|Hl].
      + now destruct Hh as (_ & _ & Hlf & Hcr).
      + apply residue_no_line_end.
        pose proof (chunks_shape w s Hw Hs) as Hc.
        rewrite Forall_forall in Hc. now apply Hc. }
  split; [exact E |].
  unfold ReplaceWCd.parse_fasta. cbn [snd]. now rewrite E.
Qed.

Lemma write_then_parse_witness :
  let d := [(lit ">TIMP3|P35625", lit "CTCSPSH");
            (lit ">empty", []);
            (lit ">MMP9 HUMAN", lit "MSL")] in
  1 <= 3
  /\ well_formed d
  /\ ReplaceWCd.parse_lines (Py.readlines (ReplaceWCd.fasta_text 3 d)) = d
  /\ ReplaceWCd.parse_fasta (lit "x.fasta", inr (ReplaceWCd.fasta_text 3 d))
     = ret d.
Proof.
  intros d.
  assert (Hwf : well_formed d).
  { split.
    - repeat (constructor; [absent |]). constructor.
    - repeat (constructor;
              [split; [repeat split; [absent | absent] | reflexivity] |]).
      constructor. }
  split; [lia |]. split; [exact Hwf |].
  apply (write_then_parse 3 d (lit "x.fasta")); [lia | exact Hwf].
Defined.

(** C1 does not hold for every dictionary, not even for every parsed one,
    at the script's own width of 60: the parser keeps a blank inside a
    sequence line, the writer then ends the first chunk on that blank, and
    parsing the written text strips it. *)
Lemma write_then_parse_counterexample :
  let seq := repeat (ascii_of_nat 65) 59 ++ lit " B" in
  let d := [(lit ">h", seq)] in
  ReplaceWCd.parse_lines (Py.readlines (lit ">h" ++ [Py.LF] ++ seq ++ [Py.LF]))
  = d
  /\ ReplaceWCd.parse_lines (Py.readlines (ReplaceWCd.fasta_text 60 d))
     = [(lit ">h", repeat (ascii_of_nat 65) 59 ++ lit "B")]
  /\ ReplaceWCd.parse_lines (Py.readlines (ReplaceWCd.fasta_text 60 d)) <> d.
Proof.
  intros seq d.
  assert (E : ReplaceWCd.parse_lines
                (Py.readlines (ReplaceWCd.fasta_text 60 d))
              = [(lit ">h", repeat (ascii_of_nat 65) 59 ++ lit "B")])
    by (vm_compute; reflexivity).
  split; [vm_compute; reflexivity |]. split; [exact E |].
  rewrite E. intros H.
  apply (f_equal (fun l => length (snd (hd ([], []) l)))) in H.
  vm_compute in H. discriminate H.
Qed.

(** ** The splitter's loop ([separate_complex.process_fasta_files]) *)

Lemma process_entry_total (filename : str) (f : file) (output_folder : str) :
  result (SeparateComplex.process_entry filename f output_folder) = inr tt.
Proof.
  unfold SeparateComplex.process_entry.
  destruct (SeparateComplex.split_file filename f output_folder)
    as [tr [e|[]]]; reflexivity.
Qed.

(** Whatever the entries of the input folder hold, the loop visits each of
    them and returns normally. *)
Lemma process_fasta_files_total (output_exists : bool)
    (listing : list SeparateComplex.dirent) (input_folder output_folder : str) :
  result (SeparateComplex.process_fasta_files output_exists listing
            input_folder output_folder) = inr tt.
Proof.
  unfold SeparateComplex.process_fasta_files.
  rewrite for_each_total.
  - destruct output_exists; reflexivity.
  - intros [filename [content|]]; cbn [fst snd]; [| reflexivity].
    apply process_entry_total.
Qed.

(** ** Stripping: further facts *)

Lemma In_dropwhile (p : ascii -> bool) (x : ascii) (s : str) :
  In x (Py.dropwhile p s) -> In x s.
Proof.
  induction s as [|c s IH]; cbn [Py.dropwhile]; [easy |].
  destruct (p c); [intros H; right; now apply IH | easy].
Qed.

Lemma In_strip (x : ascii) (s : str) : In x (Py.strip s) -> In x s.
Proof.
  unfold Py.strip, Py.rstrip, Py.lstrip. intros H.
  apply in_rev, In_dropwhile, in_rev in H. now apply In_dropwhile in H.
Qed.

Lemma rstrip_idem (s : str) : Py.rstrip (Py.rstrip s) = Py.rstrip s.
Proof.
  unfold Py.rstrip. now rewrite rev_involutive, dropwhile_idem.
Qed.

(** Stripping a stripped string changes nothing. *)
Lemma strip_idem (s : str) : Py.strip (Py.strip s) = Py.strip s.
Proof.
  unfold Py.strip at 2 3. unfold Py.lstrip.
  destruct (dropwhile_shape Py.isspace s) as [->|(c & t & -> & Hc)];
    [reflexivity |].
  rewrite rstrip_cons_nonspace by exact Hc.
  unfold Py.strip, Py.lstrip. rewrite dropwhile_head by exact Hc.
  rewrite rstrip_cons_nonspace by exact Hc. now rewrite rstrip_idem.
Qed.

(** The line end of a line read from a file does not survive stripping. *)
Lemma strip_with_newline (s : str) : Py.strip (with_newline s) = Py.strip s.
Proof.
  unfold Py.strip, Py.lstrip, with_newline.
  destruct (dropwhile_shape Py.isspace s) as [E|(c & t & E & Hc)].
  - rewrite dropwhile_app_all by exact E. now rewrite E.
  - rewrite dropwhile_app_some by (rewrite E; discriminate).
    now apply rstrip_snoc_space.
Qed.

(** A string without whitespace is its own stripped form. *)
Lemma strip_residue (s : str) :
  forallb residue s = true -> Py.strip s = s.
Proof.
  intros Hr. destruct s as [|c s]; [reflexivity |].
  rewrite <- (strip_chunk_line (c :: s)) at 2; [| discriminate | exact Hr].
  symmetry. apply strip_with_newline.
Qed.

(** ** Lines of a file: further facts *)

Lemma In_translate_newlines (x : ascii) (t : str) :
  In x (Py.translate_newlines t) ->
  x <> Py.CR /\ (x = Py.LF \/ In x t).
Proof.
  remember (length t) as n eqn:Hn. revert t Hn.
  induction n as [n IH] using lt_wf_ind. intros t Hn.
  destruct t as [|c t]; cbn [Py.translate_newlines]; [easy |].
  destruct (Ascii.eqb_spec c Py.CR) as [->|Hc].
  - intros [<-|Hin]; [split; [discriminate | now left] |].
    destruct t as [|d t]; [easy |].
    destruct (Ascii.eqb d Py.LF).
    + apply (IH (length t)) in Hin; [| subst n; cbn; lia | reflexivity].
      destruct Hin as [H1 [H2|H2]]; split; auto. right. right. now right.
    + apply (IH (length (d :: t))) in Hin; [| subst n; cbn; lia | reflexivity].
      destruct Hin as [H1 [H2|H2]]; split; auto. right. now right.
  - intros [<-|Hin]; [split; [congruence | right; now left] |].
    apply (IH (length t)) in Hin; [| subst n; cbn; lia | reflexivity].
    destruct Hin as [H1 [H2|H2]]; split; auto. right. now right.
Qed.

(** Each line is a body without line feed, with or without a final one. *)
Lemma lines_from_shape (cur t : str) (l : str) :
  ~ In Py.LF cur -> In l (Py.lines_from cur t) ->
  exists body, (l = body \/ l = with_newline body)
               /\ ~ In Py.LF body
               /\ forall x, In x body -> In x cur \/ In x t.
Proof.
  revert cur. induction t as [|c t IH]; intros cur Hcur; cbn [Py.lines_from].
  - destruct cur as [|c0 cur0]; [intros [] |]. intros [<-|[]].
    exists (c0 :: cur0). split; [now left |]. split; [exact Hcur |]. now left.
  - destruct (Ascii.eqb_spec c Py.LF) as [->|Hc].
    + intros [<-|Hin].
      * exists cur. split; [now right |]. split; [exact Hcur |]. now left.
      * destruct (IH [] (fun H => H) Hin) as (body & Hl & Hb & Hx).
        exists body. split; [exact Hl |]. split; [exact Hb |].
        intros x Hxb. destruct (Hx x Hxb) as [[]|H]. right. now right.
    + intros Hin.
      assert (Hcur' : ~ In Py.LF (cur ++ [c])).
      { rewrite in_app_iff. intros [H|[H|[]]]; [now apply Hcur | congruence]. }
      destruct (IH (cur ++ [c]) Hcur' Hin) as (body & Hl & Hb & Hx).
      exists body. split; [exact Hl |]. split; [exact Hb |].
      intros x Hxb. destruct (Hx x Hxb) as [H|H].
      * apply in_app_iff in H as [H|[<-|[]]]; [now left | right; now left].
      * right. now right.
Qed.

(** No stripped line of a file holds a line break. *)
Lemma readlines_strip_clean (text l : str) (x : ascii) :
  In l (Py.readlines text) -> In x (Py.strip l) -> line_break x = false.
Proof.
  unfold Py.readlines. intros Hl Hx.
  destruct (lines_from_shape [] (Py.translate_newlines text) l
              (fun H => H) Hl) as (body & Hshape & Hb & Hchars).
  assert (Hxb : In x body).
  { destruct Hshape as [->| ->]; [| rewrite strip_with_newline in Hx];
      now apply In_strip. }
  destruct (Hchars x Hxb) as [[]|Ht].
  apply In_translate_newlines in Ht as [Hcr _].
  unfold line_break. apply orb_false_iff. split; apply Ascii.eqb_neq.
  - intros ->. now apply Hb.
  - exact Hcr.
Qed.

(** ** The dictionary parser: what it keeps and what it ignores *)

Lemma forallb_concat {A} (p : A -> bool) (ls : list (list A)) :
  Forall (fun l => forallb p l = true) ls -> forallb p (concat ls) = true.
Proof.
  induction 1 as [|l ls Hl Hls IH]; cbn [concat forallb]; [reflexivity |].
  rewrite forallb_app, Hl, IH. reflexivity.
Qed.

Section ParsedCharacters.

Variable Q : ascii -> bool.

Let recQ (rec : str * str) : Prop :=
  forallb Q (fst rec) = true /\ forallb Q (snd rec) = true.

Let Inv (st : ReplaceWCd.pstate) : Prop :=
  Forall recQ (ReplaceWCd.sequences st)
  /\ (forall h, ReplaceWCd.current_header st = Some h -> forallb Q h = true)
  /\ Forall (fun l => forallb Q l = true) (ReplaceWCd.current_sequence_lines st).

Lemma Forall_set (k v : str) (d : OrderedDict.t) :
  Forall recQ d -> forallb Q k = true -> forallb Q v = true ->
  Forall recQ (OrderedDict.set k v d).
Proof.
  intros Hd Hk Hv.
  induction Hd as [|[k' v'] d [Hk' Hv'] Hd IH]; cbn [OrderedDict.set].
  - constructor; [now split | constructor].
  - destruct (Py.str_eqb k' k); constructor; try assumption; now split.
Qed.

Lemma flush_chars (st : ReplaceWCd.pstate) :
  Inv st -> Forall recQ (ReplaceWCd.flush st).
Proof.
  intros (Hs & Hh & Hl). unfold ReplaceWCd.flush.
  destruct (ReplaceWCd.current_header st) as [h|]; [| exact Hs].
  destruct (Py.truthy h); [| exact Hs].
  apply Forall_set; [exact Hs | now apply Hh |].
  rewrite join_nil. now apply forallb_concat.
Qed.

Lemma step_chars (st : ReplaceWCd.pstate) (raw : str) :
  Inv st -> forallb Q (Py.strip raw) = true -> Inv (ReplaceWCd.step st raw).
Proof.
  intros HI Hraw.
  destruct (Py.truthy (Py.strip raw)) eqn:Ht;
    [| now rewrite step_blank].
  destruct (Py.startswith [Py.GT] (Py.strip raw)) eqn:Hg.
  - rewrite step_header by exact Hg. repeat split; cbn.
    + now apply flush_chars.
    + intros h [= <-]. exact Hraw.
    + constructor.
  - rewrite step_sequence by assumption.
    destruct HI as (Hs & Hh & Hl). repeat split; cbn; try assumption.
    apply Forall_app. split; [exact Hl |]. constructor; [exact Hraw | constructor].
Qed.

Lemma parse_lines_chars (lines : list str) :
  (forall l, In l lines -> forallb Q (Py.strip l) = true) ->
  Forall recQ (ReplaceWCd.parse_lines lines).
Proof.
  intros Hall. unfold ReplaceWCd.parse_lines. apply flush_chars.
  assert (H0 : Inv ReplaceWCd.init).
  { repeat split; cbn; [constructor | discriminate | constructor]. }
  revert H0. generalize ReplaceWCd.init.
  induction lines as [|raw lines IH]; intros st Hst; cbn [fold_left].
  - exact Hst.
  - apply IH.
    + intros l Hl. apply Hall. now right.
    + apply step_chars; [exact Hst |]. apply Hall. now left.
Qed.

End ParsedCharacters.

Lemma In_fold_add_key (k : str) (hs acc : list str) :
  In k (fold_left add_key hs acc) -> In k acc \/ In k hs.
Proof.
  revert acc. induction hs as [|h hs IH]; intros acc; cbn [fold_left].
  - now left.
  - intros H. apply IH in H as [H|H]; [| right; now right].
    unfold add_key in H.
    destruct (existsb (Py.str_eqb h) acc); [now left |].
    apply in_app_iff in H as [H|[<-|[]]]; [now left | right; now left].
Qed.

Lemma parsed_key_is_header_line (lines : list str) (k : str) :
  In k (OrderedDict.keys (ReplaceWCd.parse_lines lines)) ->
  In k (header_lines lines).
Proof.
  rewrite keys_parse_lines. unfold first_occurrences.
  intros H. now apply In_fold_add_key in H as [[]|H].
Qed.

Lemma parsed_records_stored (text : str) :
  Forall (fun rec =>
            stored_header (fst rec)
            /\ forallb (fun c => negb (line_break c)) (snd rec) = true)
    (ReplaceWCd.parse_lines (Py.readlines text)).
Proof.
  pose proof (parse_lines_chars (fun c => negb (line_break c))
                (Py.readlines text)) as Hc.
  assert (Hclean : forall l, In l (Py.readlines text) ->
            forallb (fun c => negb (line_break c)) (Py.strip l) = true).
  { intros l Hl. apply forallb_forall. intros x Hx.
    now rewrite (readlines_strip_clean text l x Hl Hx). }
  specialize (Hc Hclean).
  rewrite Forall_forall in *. intros [h s] Hrec.
  destruct (Hc _ Hrec) as [Hh Hs]. cbn [fst snd] in *.
  split; [| exact Hs].
  assert (Hk : In h (header_lines (Py.readlines text))).
  { apply parsed_key_is_header_line. unfold OrderedDict.keys.
    apply in_map_iff. now exists (h, s). }
  unfold header_lines in Hk. apply filter_In in Hk as [Hk Hgt].
  apply in_map_iff in Hk as (l & <- & Hl).
  rewrite forallb_forall in Hh.
  repeat split.
  - exact Hgt.
  - apply strip_idem.
  - intros Hin. now apply Hh in Hin.
  - intros Hin. now apply Hh in Hin.
Qed.

(** X1.  Whatever the file holds, the dictionary parsed from it has
    pairwise distinct headers, each of which starts with the marker, is
    stripped and lies on one line, and no sequence holds a line break. *)
Theorem parsed_records_invariant (text : str) :
  let d := ReplaceWCd.parse_lines (Py.readlines text) in
  NoDup (OrderedDict.keys d)
  /\ Forall (fun rec =>
               stored_header (fst rec)
               /\ forallb (fun c => negb (line_break c)) (snd rec) = true) d.
Proof.
  intros d. subst d. split.
  - apply NoDup_keys_parse_lines.
  - apply parsed_records_stored.
Qed.

Lemma header_lines_app (a b : list str) :
  header_lines (a ++ b) = header_lines a ++ header_lines b.
Proof. unfold header_lines. now rewrite map_app, filter_app. Qed.

Lemma header_lines_nil_cons (raw : str) (lines : list str) :
  header_lines (raw :: lines) = [] ->
  Py.startswith [Py.GT] (Py.strip raw) = false /\ header_lines lines = [].
Proof.
  rewrite header_lines_cons.
  destruct (Py.startswith [Py.GT] (Py.strip raw)); [discriminate | easy].
Qed.

Lemma concat_filter_truthy (ls : list str) :
  concat (filter Py.truthy ls) = concat ls.
Proof.
  induction ls as [|[|c l] ls IH]; cbn [filter Py.truthy concat app];
    [reflexivity | exact IH | now rewrite IH].
Qed.

(** Lines without a header only grow the list of collected lines. *)
Lemma fold_sequence_lines (body : list str) (st : ReplaceWCd.pstate) :
  header_lines body = [] ->
  fold_left ReplaceWCd.step body st
  = ReplaceWCd.mk_pstate (ReplaceWCd.sequences st)
      (ReplaceWCd.current_header st)
      (ReplaceWCd.current_sequence_lines st
       ++ filter Py.truthy (map Py.strip body)).
Proof.
  revert st. induction body as [|raw body IH]; intros st Hb; cbn [fold_left].
  - cbn. rewrite app_nil_r. now destruct st.
  - apply header_lines_nil_cons in Hb as [Hg Hb].
    rewrite IH by exact Hb. cbn [map filter].
    destruct (Py.truthy (Py.strip raw)) eqn:Ht.
    + rewrite step_sequence by assumption. cbn. now rewrite <- app_assoc.
    + now rewrite step_blank.
Qed.

Lemma flush_record (st : ReplaceWCd.pstate) (hline : str) (body : list str) :
  Py.startswith [Py.GT] (Py.strip hline) = true ->
  header_lines body = [] ->
  ReplaceWCd.flush (fold_left ReplaceWCd.step (hline :: body) st)
  = OrderedDict.set (Py.strip hline) (concat (map Py.strip body))
      (ReplaceWCd.flush st).
Proof.
  intros Hg Hb. cbn [fold_left].
  rewrite fold_sequence_lines by exact Hb.
  rewrite step_header by exact Hg.
  unfold ReplaceWCd.flush at 1.
  cbn [ReplaceWCd.sequences ReplaceWCd.current_header
       ReplaceWCd.current_sequence_lines app].
  now rewrite (startswith_truthy _ Hg), join_nil, concat_filter_truthy.
Qed.

(** X2.  A header line followed by lines without header adds one
    assignment to what the lines before it parse to: the stripped header
    line receives the concatenation of the stripped lines that follow. *)
Theorem parse_lines_last_record (pre body : list str) (hline : str) :
  Py.startswith [Py.GT] (Py.strip hline) = true ->
  header_lines body = [] ->
  ReplaceWCd.parse_lines (pre ++ hline :: body)
  = OrderedDict.set (Py.strip hline) (concat (map Py.strip body))
      (ReplaceWCd.parse_lines pre).
Proof.
  intros Hg Hb. unfold ReplaceWCd.parse_lines.
  rewrite fold_left_app.
  now apply flush_record.
Qed.

Lemma parse_lines_last_record_witness :
  let pre := [lit ">a" ++ [Py.LF]; lit "XX" ++ [Py.LF];
              lit ">b" ++ [Py.LF]; lit "YY" ++ [Py.LF]] in
  let body := [lit " ZZ" ++ [Py.LF]; [Py.LF]; lit "WW "] in
  ReplaceWCd.parse_lines (pre ++ (lit ">a " ++ [Py.LF]) :: body)
  = OrderedDict.set (lit ">a") (lit "ZZWW") (ReplaceWCd.parse_lines pre).
Proof.
  intros pre body.
  exact (parse_lines_last_record pre body (lit ">a " ++ [Py.LF])
           eq_refl eq_refl).
Defined.

Lemma flush_ignores_orphan_lines (rest acc : list str) :
  ReplaceWCd.flush
    (fold_left ReplaceWCd.step rest (ReplaceWCd.mk_pstate [] None acc))
  = ReplaceWCd.flush (fold_left ReplaceWCd.step rest ReplaceWCd.init).
Proof.
  revert acc. induction rest as [|raw rest IH]; intros acc; cbn [fold_left].
  - reflexivity.
  - destruct (Py.truthy (Py.strip raw)) eqn:Ht;
      [| rewrite !step_blank by exact Ht; apply IH].
    destruct (Py.startswith [Py.GT] (Py.strip raw)) eqn:Hg.
    + now rewrite !step_header by exact Hg.
    + rewrite !step_sequence by assumption. cbn. rewrite IH.
      symmetry. apply IH.
Qed.

(** X3.  Lines that come before the first header line are dropped: they
    change nothing in what the rest parses to.  A stream without header
    line parses to the empty dictionary. *)
Theorem parse_lines_drops_orphan_lines (pre rest : list str) :
  header_lines pre = [] ->
  ReplaceWCd.parse_lines (pre ++ rest) = ReplaceWCd.parse_lines rest
  /\ ReplaceWCd.parse_lines pre = [].
Proof.
  intros Hp. unfold ReplaceWCd.parse_lines. split.
  - rewrite fold_left_app, (fold_sequence_lines pre) by exact Hp.
    apply flush_ignores_orphan_lines.
  - now rewrite fold_sequence_lines by exact Hp.
Qed.

Lemma parse_lines_drops_orphan_lines_witness :
  let pre := [lit "MKV" ++ [Py.LF]; [Py.LF]; lit "  QRS" ++ [Py.LF]] in
  let rest := [lit ">a" ++ [Py.LF]; lit "XX" ++ [Py.LF]] in
  ReplaceWCd.parse_lines (pre ++ rest) = ReplaceWCd.parse_lines rest
  /\ ReplaceWCd.parse_lines pre = [].
Proof.
  intros pre rest.
  exact (parse_lines_drops_orphan_lines pre rest eq_refl).
Defined.

(** X4.  Blank lines, that is empty lines and lines of whitespace, have no
    effect wherever they stand. *)
Theorem parse_lines_skips_blank_lines (lines : list str) :
  ReplaceWCd.parse_lines lines
  = ReplaceWCd.parse_lines (filter (fun l => negb (blank l)) lines).
Proof.
  unfold ReplaceWCd.parse_lines. f_equal.
  generalize ReplaceWCd.init.
  induction lines as [|raw lines IH]; intros st; cbn [fold_left filter].
  - reflexivity.
  - unfold blank at 1. destruct (Py.truthy (Py.strip raw)) eqn:Ht; cbn [negb].
    + cbn [fold_left]. apply IH.
    + rewrite step_blank by exact Ht. apply IH.
Qed.

(** ** The list parser: what it keeps and what it ignores *)

Lemma af_step_header (st : AFBatchGen.pstate) (raw : str) :
  Py.startswith [Py.GT] (Py.strip raw) = true ->
  AFBatchGen.step st raw
  = AFBatchGen.mk_pstate (AFBatchGen.flush st)
      (Some (header_text (Py.strip raw))) [].
Proof.
  intros H. unfold AFBatchGen.step.
  now rewrite (startswith_truthy _ H), H.
Qed.

Lemma af_step_sequence (st : AFBatchGen.pstate) (raw : str) :
  Py.startswith [Py.GT] (Py.strip raw) = false ->
  Py.truthy (Py.strip raw) = true ->
  AFBatchGen.step st raw
  = AFBatchGen.mk_pstate (AFBatchGen.sequences st) (AFBatchGen.header st)
      (AFBatchGen.seq_lines st ++ [Py.strip raw]).
Proof. intros H Ht. unfold AFBatchGen.step. now rewrite Ht, H. Qed.

Lemma af_step_blank (st : AFBatchGen.pstate) (raw : str) :
  Py.truthy (Py.strip raw) = false -> AFBatchGen.step st raw = st.
Proof. intros Ht. unfold AFBatchGen.step. now rewrite Ht. Qed.

Lemma af_fold_sequence_lines (body : list str) (st : AFBatchGen.pstate) :
  header_lines body = [] ->
  fold_left AFBatchGen.step body st
  = AFBatchGen.mk_pstate (AFBatchGen.sequences st) (AFBatchGen.header st)
      (AFBatchGen.seq_lines st ++ filter Py.truthy (map Py.strip body)).
Proof.
  revert st. induction body as [|raw body IH]; intros st Hb; cbn [fold_left].
  - cbn. rewrite app_nil_r. now destruct st.
  - apply header_lines_nil_cons in Hb as [Hg Hb].
    rewrite IH by exact Hb. cbn [map filter].
    destruct (Py.truthy (Py.strip raw)) eqn:Ht.
    + rewrite af_step_sequence by assumption. cbn. now rewrite <- app_assoc.
    + now rewrite af_step_blank.
Qed.

Lemma af_flush_record (st : AFBatchGen.pstate) (hline : str)
    (body : list str) :
  Py.startswith [Py.GT] (Py.strip hline) = true ->
  header_lines body = [] ->
  AFBatchGen.flush (fold_left AFBatchGen.step (hline :: body) st)
  = AFBatchGen.flush st
    ++ (if Py.truthy (header_text (Py.strip hline))
        then [(header_text (Py.strip hline), concat (map Py.strip body))]
        else []).
Proof.
  intros Hg Hb. cbn [fold_left].
  rewrite af_fold_sequence_lines by exact Hb.
  rewrite af_step_header by exact Hg.
  unfold AFBatchGen.flush at 1.
  cbn [AFBatchGen.sequences AFBatchGen.header AFBatchGen.seq_lines app
       Py.truthy_opt].
  destruct (Py.truthy (header_text (Py.strip hline)));
    [| now rewrite app_nil_r].
  now rewrite join_nil, concat_filter_truthy.
Qed.

(** X5.  In the list parser, a header line followed by lines without
    header appends one record to what the lines before it parse to: the
    header text with the concatenation of the stripped lines that follow.
    When the header line has no text after the marker, no record is
    appended and the lines that follow it are lost. *)
Theorem af_parse_lines_last_record (pre body : list str) (hline : str) :
  Py.startswith [Py.GT] (Py.strip hline) = true ->
  header_lines body = [] ->
  AFBatchGen.parse_lines (pre ++ hline :: body)
  = AFBatchGen.parse_lines pre
    ++ (if Py.truthy (header_text (Py.strip hline))
        then [(header_text (Py.strip hline), concat (map Py.strip body))]
        else []).
Proof.
  intros Hg Hb. unfold AFBatchGen.parse_lines.
  rewrite fold_left_app.
  now apply af_flush_record.
Qed.

Lemma af_parse_lines_last_record_witness :
  let pre := [lit ">a" ++ [Py.LF]; lit "XX" ++ [Py.LF]] in
  let body := [lit "YY" ++ [Py.LF]; lit "ZZ" ++ [Py.LF]] in
  AFBatchGen.parse_lines (pre ++ (lit "> " ++ [Py.LF]) :: body)
  = AFBatchGen.parse_lines pre ++ []
  /\ AFBatchGen.parse_lines (pre ++ (lit ">a" ++ [Py.LF]) :: body)
     = AFBatchGen.parse_lines pre ++ [(lit "a", lit "YYZZ")].
Proof.
  intros pre body. split.
  - exact (af_parse_lines_last_record pre body (lit "> " ++ [Py.LF])
             eq_refl eq_refl).
  - exact (af_parse_lines_last_record pre body (lit ">a" ++ [Py.LF])
             eq_refl eq_refl).
Defined.

Lemma af_flush_ignores_orphan_lines (rest acc : list str) :
  AFBatchGen.flush
    (fold_left AFBatchGen.step rest (AFBatchGen.mk_pstate [] None acc))
  = AFBatchGen.flush (fold_left AFBatchGen.step rest AFBatchGen.init).
Proof.
  revert acc. induction rest as [|raw rest IH]; intros acc; cbn [fold_left].
  - reflexivity.
  - destruct (Py.truthy (Py.strip raw)) eqn:Ht;
      [| rewrite !af_step_blank by exact Ht; apply IH].
    destruct (Py.startswith [Py.GT] (Py.strip raw)) eqn:Hg.
    + now rewrite !af_step_header by exact Hg.
    + rewrite !af_step_sequence by assumption. cbn. rewrite IH.
      symmetry. apply IH.
Qed.

(** X6.  The list parser too drops the lines that come before the first
    header line, gives no record for a stream without header line, and
    skips blank lines wherever they stand. *)
Theorem af_parse_lines_ignores (pre rest : list str) :
  (header_lines pre = [] ->
   AFBatchGen.parse_lines (pre ++ rest) = AFBatchGen.parse_lines rest
   /\ AFBatchGen.parse_lines pre = [])
  /\ AFBatchGen.parse_lines rest
     = AFBatchGen.parse_lines (filter (fun l => negb (blank l)) rest).
Proof.
  unfold AFBatchGen.parse_lines. split.
  - intros Hp. split.
    + rewrite fold_left_app, (af_fold_sequence_lines pre) by exact Hp.
      apply af_flush_ignores_orphan_lines.
    + now rewrite af_fold_sequence_lines by exact Hp.
  - f_equal. generalize AFBatchGen.init.
    induction rest as [|raw rest IH]; intros st; cbn [fold_left filter].
    + reflexivity.
    + unfold blank at 1.
      destruct (Py.truthy (Py.strip raw)) eqn:Ht; cbn [negb].
      * cbn [fold_left]. apply IH.
      * rewrite af_step_blank by exact Ht. apply IH.
Qed.

Lemma af_parse_lines_ignores_witness :
  let pre := [lit "MKV" ++ [Py.LF]; [Py.LF]] in
  let rest := [lit ">a" ++ [Py.LF]; lit "  " ++ [Py.LF]; lit "XX" ++ [Py.LF]] in
  (AFBatchGen.parse_lines (pre ++ rest) = AFBatchGen.parse_lines rest
   /\ AFBatchGen.parse_lines pre = [])
  /\ AFBatchGen.parse_lines rest
     = AFBatchGen.parse_lines (filter (fun l => negb (blank l)) rest).
Proof.
  intros pre rest.
  destruct (af_parse_lines_ignores pre rest) as [H1 H2].
  split; [exact (H1 eq_refl) | exact H2].
Defined.

(** ** The writer: wrapped lines *)

Lemma record_text_lines (w : nat) (h s : str) :
  ReplaceWCd.record_text w (h, s)
  = concat (map with_newline (h :: chunks w s)).
Proof.
  unfold ReplaceWCd.record_text, chunks. cbn [map concat].
  unfold with_newline at 1. rewrite <- app_assoc. do 2 f_equal.
  now rewrite map_map.
Qed.

Lemma chunk_lengths (w : nat) (s : str) :
  1 <= w -> Forall (fun c => 1 <= length c <= w) (chunks w s).
Proof.
  intros Hw. unfold chunks, Py.range_step.
  rewrite Forall_forall. intros c Hc.
  apply in_map_iff in Hc as (i & <- & Hi).
  apply in_map_iff in Hi as (k & <- & Hk).
  apply in_seq in Hk as [_ Hk]. cbn [Nat.add] in Hk.
  pose proof (range_inside (length s) w k Hw Hk) as Hlt.
  rewrite slice_window, length_firstn, length_skipn. lia.
Qed.

Lemma full_chunks (w : nat) (s : str) :
  1 <= w -> Forall (fun c => length c = w) (removelast (chunks w s)).
Proof.
  intros Hw. unfold chunks, Py.range_step.
  destruct ((length s + w - 1) / w) as [|m] eqn:Em; [constructor |].
  rewrite seq_S, !map_app. cbn [map]. rewrite removelast_last.
  rewrite Forall_forall. intros c Hc.
  apply in_map_iff in Hc as (i & <- & Hi).
  apply in_map_iff in Hi as (k & <- & Hk).
  apply in_seq in Hk as [_ Hk]. cbn [Nat.add] in Hk.
  assert (Hm : m < (length s + w - 1) / w) by lia.
  pose proof (range_inside (length s) w m Hw Hm) as Hlt.
  rewrite slice_window, length_firstn, length_skipn. nia.
Qed.

(** X7.  A record is written as its header line followed by the sequence
    cut into lines: the lines put end to end give the sequence back, there
    are [ceil (length / width)] of them, none is empty or longer than the
    width, and all but the last have exactly the width.  An empty sequence
    gives no line at all. *)
Theorem record_text_wrapping (w : nat) (h s : str) :
  1 <= w ->
  exists cs,
    ReplaceWCd.record_text w (h, s) = concat (map with_newline (h :: cs))
    /\ concat cs = s
    /\ length cs = (length s + w - 1) / w
    /\ Forall (fun c => 1 <= length c <= w) cs
    /\ Forall (fun c => length c = w) (removelast cs).
Proof.
  intros Hw. exists (chunks w s).
  split; [apply record_text_lines |].
  split; [now apply concat_chunks |].
  split; [unfold chunks, Py.range_step; now rewrite !length_map, length_seq |].
  split; [now apply chunk_lengths | now apply full_chunks].
Qed.

Lemma record_text_wrapping_witness :
  1 <= 60
  /\ exists cs,
       ReplaceWCd.record_text 60 (lit ">h", repeat (ascii_of_nat 65) 130)
       = concat (map with_newline (lit ">h" :: cs))
       /\ concat cs = repeat (ascii_of_nat 65) 130
       /\ length cs = (length (repeat (ascii_of_nat 65) 130) + 60 - 1) / 60
       /\ Forall (fun c => 1 <= length c <= 60) cs
       /\ Forall (fun c => length c = 60) (removelast cs).
Proof.
  split; [lia |].
  apply (record_text_wrapping 60 (lit ">h") (repeat (ascii_of_nat 65) 130)).
  lia.
Defined.

(** ** Paths *)

Lemma last_split_after_sep (sep : ascii) (a b : str) :
  last (Py.split sep (a ++ sep :: b)) [] = last (Py.split sep b) [].
Proof.
  induction a as [|c a IH]; cbn [app Py.split].
  - rewrite Ascii.eqb_refl.
    destruct (Py.split sep b) eqn:E; [now apply split_nonempty in E |].
    reflexivity.
  - pose proof (length_split sep (a ++ sep :: b)) as Hlen.
    rewrite count_occ_app in Hlen. cbn [count_occ] in Hlen.
    destruct (ascii_dec sep sep) as [_|Hne]; [| congruence].
    destruct (Py.split sep (a ++ sep :: b)) as [|p [|q ps]] eqn:E;
      cbn [length] in Hlen; try lia.
    destruct (Ascii.eqb c sep); rewrite <- IH; reflexivity.
Qed.

Lemma startswith_slash_absent (name : str) :
  ~ In SLASH name -> Py.startswith [SLASH] name = false.
Proof.
  intros Hn. destruct name as [|c name]; [reflexivity |].
  cbn [Py.startswith].
  destruct (Ascii.eqb_spec SLASH c) as [<-|_];
    [exfalso; apply Hn; now left | reflexivity].
Qed.

(** A name without a separator is joined after the folder, with one
    separator between the two unless the folder is empty or brings its
    own. *)
Lemma path_join_name (dir name : str) :
  ~ In SLASH name ->
  path_join dir name = name
  \/ exists d, path_join dir name = d ++ SLASH :: name.
Proof.
  intros Hn. unfold path_join. rewrite (startswith_slash_absent name Hn).
  induction dir as [|c dir _] using rev_ind.
  - now left.
  - right. unfold endswith_slash. rewrite rev_unit.
    replace (Py.truthy (dir ++ [c])) with true by now destruct dir.
    cbn [negb orb].
    destruct (Ascii.eqb_spec c SLASH) as [->|_].
    + exists dir. now rewrite <- app_assoc.
    + exists (dir ++ [c]). reflexivity.
Qed.

(** The name of [dir/name] is [name]. *)
Lemma basename_path_join (dir name : str) :
  ~ In (ascii_of_nat 47) name -> basename (path_join dir name) = name.
Proof.
  intros Hn. unfold basename.
  destruct (path_join_name dir name Hn) as [->|[d ->]].
  - now rewrite split_without_sep.
  - fold SLASH. rewrite last_split_after_sep.
    now rewrite split_without_sep.
Qed.

Lemma rfind_dot_none (i : nat) (s : str) :
  ~ In SeparateComplex.DOT s -> SeparateComplex.rfind_dot i s = None.
Proof.
  revert i. induction s as [|c s IH]; intros i Hn;
    cbn [SeparateComplex.rfind_dot]; [reflexivity |].
  rewrite IH by (intros H; apply Hn; now right).
  destruct (Ascii.eqb_spec c SeparateComplex.DOT) as [->|Hc];
    [exfalso; apply Hn; now left | reflexivity].
Qed.

Lemma rfind_dot_last (i : nat) (root ext : str) :
  ~ In SeparateComplex.DOT ext ->
  SeparateComplex.rfind_dot i (root ++ SeparateComplex.DOT :: ext)
  = Some (i + length root).
Proof.
  intros Hn. revert i.
  induction root as [|c root IH]; intros i;
    cbn [app SeparateComplex.rfind_dot length].
  - rewrite rfind_dot_none by exact Hn. rewrite Ascii.eqb_refl.
    f_equal. lia.
  - rewrite IH. f_equal. lia.
Qed.

(** ** Reading back what [replace_w_cd.py] writes *)

Lemma fasta_lines_clean (w : nat) (d : OrderedDict.t) :
  1 <= w ->
  Forall (fun rec => stored_header (fst rec)
                     /\ forallb residue (snd rec) = true) d ->
  Forall (fun l => ~ In Py.LF l /\ ~ In Py.CR l) (fasta_lines w d).
Proof.
  intros Hw Hall. unfold fasta_lines. rewrite Forall_forall. intros l Hl.
  apply in_flat_map in Hl as ([h s] & Hrec & Hl).
  rewrite Forall_forall in Hall. destruct (Hall _ Hrec) as [Hh Hs].
  cbn [fst snd] in *. destruct Hl as [<-|Hl].
  - now destruct Hh as (_ & _ & Hlf & Hcr).
  - apply residue_no_line_end.
    pose proof (chunks_shape w s Hw Hs) as Hc.
    rewrite Forall_forall in Hc. now apply Hc.
Qed.

Lemma parse_fasta_text (w : nat) (d : OrderedDict.t) :
  1 <= w -> well_formed d ->
  ReplaceWCd.parse_lines (Py.readlines (ReplaceWCd.fasta_text w d)) = d.
Proof.
  intros Hw [Hnd Hall].
  rewrite fasta_text_lines, readlines_unlines
    by now apply fasta_lines_clean.
  unfold ReplaceWCd.parse_lines.
  now rewrite (parse_written_records w d ReplaceWCd.init Hw Hall).
Qed.

Lemma chunk_lines_no_header (cs : list str) :
  Forall (fun c => c <> [] /\ forallb residue c = true) cs ->
  header_lines (map with_newline cs) = []
  /\ map Py.strip (map with_newline cs) = cs.
Proof.
  induction 1 as [|c cs [Hne Hr] Hcs [IH1 IH2]]; [now split |].
  cbn [map]. rewrite header_lines_cons, strip_chunk_line by assumption.
  rewrite chunk_not_header by exact Hr. split; [exact IH1 | now rewrite IH2].
Qed.

Lemma af_parse_fasta_lines (w : nat) (d : OrderedDict.t) :
  1 <= w ->
  Forall (fun rec => stored_header (fst rec)
                     /\ forallb residue (snd rec) = true
                     /\ header_text (fst rec) <> []) d ->
  AFBatchGen.parse_lines (map with_newline (fasta_lines w d))
  = map (fun rec => (header_text (fst rec), snd rec)) d.
Proof.
  intros Hw. induction d as [|[h s] d IH] using rev_ind; intros Hall.
  - reflexivity.
  - apply Forall_app in Hall as [Hd Hrec].
    inversion Hrec as [|x l (Hh & Hs & Ht) _]; subst. cbn [fst snd] in *.
    unfold fasta_lines in *. rewrite flat_map_app, map_app.
    cbn [flat_map fst snd app map]. rewrite app_nil_r.
    unfold AFBatchGen.parse_lines in *. rewrite fold_left_app.
    destruct Hh as (Hgt & Hstrip & _).
    assert (Hsh : Py.strip (with_newline h) = h)
      by now apply strip_header_line.
    destruct (chunk_lines_no_header (chunks w s) (chunks_shape w s Hw Hs))
      as [Hnh Hcs].
    rewrite af_flush_record; rewrite ?Hsh; try assumption.
    rewrite IH by exact Hd. rewrite map_app. cbn [map fst snd].
    rewrite Hcs, concat_chunks by exact Hw.
    destruct (header_text h) as [|c t]; [congruence | reflexivity].
Qed.

(** X8.  The batch generator reads back what [replace_w_cd.py] writes: for
    a dictionary of stored headers with some text after the marker and of
    sequences without whitespace or marker, written at any width of at
    least 1, its parser returns one record per entry, in order, the header
    without its marker and the sequence whole; the job built from the file
    has one chain per entry, with that sequence and count 1, and no seed. *)
Theorem job_of_written_file (w : nat) (d : OrderedDict.t) (path : str) :
  1 <= w ->
  Forall (fun rec => stored_header (fst rec)
                     /\ forallb residue (snd rec) = true
                     /\ header_text (fst rec) <> []) d ->
  AFBatchGen.parse_lines (Py.readlines (ReplaceWCd.fasta_text w d))
  = map (fun rec => (header_text (fst rec), snd rec)) d
  /\ AFJobs.fasta_to_job (path, inr (ReplaceWCd.fasta_text w d))
     = ret (AFJobs.mk_job (AFJobs.stem path)
              (map (fun rec => AFJobs.mk_chain (snd rec) 1) d) []).
Proof.
  intros Hw Hall.
  assert (Hall' : Forall (fun rec => stored_header (fst rec)
                            /\ forallb residue (snd rec) = true) d).
  { eapply Forall_impl; [| exact Hall]. now intros rec (H1 & H2 & _). }
  assert (E : AFBatchGen.parse_lines
                (Py.readlines (ReplaceWCd.fasta_text w d))
              = map (fun rec => (header_text (fst rec), snd rec)) d).
  { rewrite fasta_text_lines, readlines_unlines
      by now apply fasta_lines_clean.
    now apply af_parse_fasta_lines. }
  split; [exact E |].
  unfold AFJobs.fasta_to_job, AFBatchGen.parse_fasta.
  cbn [fst snd bind ret app]. rewrite E, map_map. reflexivity.
Qed.

Lemma job_of_written_file_witness :
  let d := [(lit ">TIMP3|P35625", lit "CTCSPSH");
            (lit ">MMP9 HUMAN", lit "YNFFP")] in
  1 <= 3
  /\ AFBatchGen.parse_lines (Py.readlines (ReplaceWCd.fasta_text 3 d))
     = [(lit "TIMP3|P35625", lit "CTCSPSH"); (lit "MMP9 HUMAN", lit "YNFFP")]
  /\ AFJobs.fasta_to_job (lit "output_fastas/t.fasta",
                          inr (ReplaceWCd.fasta_text 3 d))
     = ret (AFJobs.mk_job (lit "t")
              [AFJobs.mk_chain (lit "CTCSPSH") 1;
               AFJobs.mk_chain (lit "YNFFP") 1] []).
Proof.
  intros d. split; [lia |].
  apply (job_of_written_file 3 d (lit "output_fastas/t.fasta")); [lia |].
  repeat (constructor;
          [split; [repeat split; [absent | absent] |
                   split; [reflexivity | discriminate]] |]).
  constructor.
Defined.

(** X9.  A job is named after its file, without the directory and without
    the [.fasta] extension. *)
Theorem job_name_of_fasta_file (dir root : str) :
  ~ In (ascii_of_nat 47) root ->
  existsb (fun c => negb (Ascii.eqb c SeparateComplex.DOT)) root = true ->
  AFJobs.stem (path_join dir (root ++ lit ".fasta")) = root.
Proof.
  intros Hslash Hroot. unfold AFJobs.stem.
  rewrite basename_path_join.
  - change (lit ".fasta") with (SeparateComplex.DOT :: lit "fasta").
    rewrite rfind_dot_last by absent.
    cbn [Nat.add]. rewrite length_app.
    destruct root as [|c root]; [discriminate |].
    replace (0 <? length (c :: root)) with true
      by (symmetry; apply Nat.ltb_lt; cbn; lia).
    replace (length (c :: root)
             <? length (c :: root)
                + length (SeparateComplex.DOT :: lit "fasta") - 1)
      with true by (symmetry; apply Nat.ltb_lt; cbn; lia).
    cbn [andb]. now apply firstn_app_exact.
  - rewrite in_app_iff. intros [H|H]; [now apply Hslash | revert H; absent].
Qed.

Lemma job_name_of_fasta_file_witness :
  AFJobs.stem (path_join (lit "output_fastas")
                 (lit "TIMP3_v_MMP9_C_WT" ++ lit ".fasta"))
  = lit "TIMP3_v_MMP9_C_WT".
Proof.
  apply (job_name_of_fasta_file (lit "output_fastas")
           (lit "TIMP3_v_MMP9_C_WT")); [absent | reflexivity].
Defined.

(** ** What a run of [replace_w_cd.py] leaves on disk *)

Lemma written_app (a b : list event) : written (a ++ b) = written a ++ written b.
Proof. unfold written. apply flat_map_app. Qed.

Lemma written_flat_map {A} (g : A -> list event) (xs : list A) :
  written (flat_map g xs) = flat_map (fun x => written (g x)) xs.
Proof.
  induction xs as [|x xs IH]; cbn [flat_map]; [reflexivity |].
  now rewrite written_app, IH.
Qed.

Lemma written_process_fasta_file (open_w : str -> option exn) (f : file)
    (output_dir replacement_seq : str) :
  written (trace (ReplaceWCd.process_fasta_file open_w f output_dir
                    replacement_seq))
  = match open_w (path_div output_dir (basename (fst f))) with
    | None => expected_outputs output_dir replacement_seq f
    | Some _ => []
    end.
Proof.
  unfold expected_outputs. destruct f as [path [e|text]]; cbn [fst snd].
  - rewrite process_unreadable. now destruct (open_w _).
  - destruct (ReplaceWCd.parse_lines (Py.readlines text))
      as [|[h1 s1] [|[h2 s2] rest]] eqn:E.
    + rewrite process_too_few by (rewrite E; cbn; lia). now destruct (open_w _).
    + rewrite process_too_few by (rewrite E; cbn; lia). now destruct (open_w _).
    + pose proof (parsed_headers_distinct _ _ _ _ _ _ E) as Hne.
      destruct (substitute_replaces (basename path) replacement_seq
                  h1 s1 h2 s2 rest Hne) as [msg Hs].
      rewrite (process_replaces open_w path output_dir replacement_seq text
                 msg (h1, s1) (h2, s2) rest _ E Hs).
      now destruct (open_w _).
Qed.

Lemma written_runs (open_w : str -> option exn)
    (output_dir replacement_seq : str) (fasta_files : list file) :
  writable open_w output_dir fasta_files ->
  flat_map (fun f => written (trace (ReplaceWCd.process_fasta_file open_w f
                                       output_dir replacement_seq)))
    fasta_files
  = flat_map (expected_outputs output_dir replacement_seq) fasta_files.
Proof.
  induction fasta_files as [|f fs IH]; intros Hw; cbn [flat_map];
    [reflexivity |].
  rewrite written_process_fasta_file, (Hw f (or_introl eq_refl)).
  rewrite IH; [reflexivity |].
  intros x Hx. apply Hw. now right.
Qed.

(** X10.  When no file-system error occurs (the output directory can be
    made and the output of each file can be opened), a run of [main]
    writes, in the order of the files it was given, one file for each
    readable input of at least two records (the input's name under the
    output directory, holding the parsed records with the second sequence
    replaced) and nothing for any other input. *)
Theorem main_writes_expected_outputs (open_w : str -> option exn)
    (fasta_files : list file) :
  writable open_w ReplaceWCd.OUTPUT_DIR fasta_files ->
  written (trace (ReplaceWCd.main open_w None fasta_files))
  = flat_map (expected_outputs ReplaceWCd.OUTPUT_DIR
                ReplaceWCd.REPLACEMENT_SEQUENCE) fasta_files.
Proof.
  intros Hw. destruct fasta_files as [|f fs]; [reflexivity |].
  rewrite main_trace by exact Hw. cbn [trace fst].
  revert Hw. generalize (f :: fs). intros files Hw.
  change (written (Print ?a :: MakeDir ?b :: ?l)) with (written l).
  rewrite written_app, written_flat_map.
  change (written [Print ?c]) with (@nil (str * str)).
  rewrite app_nil_r. now apply written_runs.
Qed.

Lemma main_writes_expected_outputs_witness :
  let unreadable := (lit "MMP2/a.fasta", inl (OSError (lit "denied"))) : file in
  let short := (lit "MMP2/b.fasta",
                inr (lit ">a" ++ [Py.LF] ++ lit "AA" ++ [Py.LF])) : file in
  let good := (lit "MMP2/c.fasta",
               inr (lit ">a" ++ [Py.LF] ++ lit "AA" ++ [Py.LF]
                    ++ lit ">b" ++ [Py.LF] ++ lit "BB" ++ [Py.LF])) : file in
  written (trace (ReplaceWCd.main (fun _ => None) None
                    [unreadable; short; good]))
  = [(lit "output_fastas/c.fasta",
      ReplaceWCd.fasta_text 60
        [(lit ">a", lit "AA"); (lit ">b", ReplaceWCd.REPLACEMENT_SEQUENCE)])].
Proof.
  intros unreadable short good.
  apply (main_writes_expected_outputs (fun _ => None)
           [unreadable; short; good]).
  intros f _. reflexivity.
Defined.

(** X11.  A file picked up as [dir/name], where [name] is the name of a
    directory entry (no separator, not empty, not a lone dot), with at
    least two records is written, when its output can be opened, under
    the same name in the output directory: at the path
    [Path(output_dir) / name], which [pathlib] prints without a leading
    [./] and with single separators. *)
Theorem output_keeps_file_name (open_w : str -> option exn)
    (dir name text output_dir replacement_seq : str) :
  ~ In (ascii_of_nat 47) name ->
  name <> [] -> name <> lit "." ->
  2 <= length (ReplaceWCd.parse_lines (Py.readlines text)) ->
  open_w (path_div output_dir name) = None ->
  map fst (written (trace (ReplaceWCd.process_fasta_file open_w
                             (path_join dir name, inr text)
                             output_dir replacement_seq)))
  = [path_div output_dir name].
Proof.
  intros Hname _ _ Hlen Hw. rewrite written_process_fasta_file.
  unfold expected_outputs. cbn [fst snd].
  rewrite basename_path_join by exact Hname. rewrite Hw.
  destruct (ReplaceWCd.parse_lines (Py.readlines text))
    as [|r1 [|[h2 s2] rest]]; cbn in Hlen; try lia.
  reflexivity.
Qed.

Lemma output_keeps_file_name_witness :
  let text := lit ">TIMP3" ++ [Py.LF] ++ lit "CTCS" ++ [Py.LF]
              ++ lit ">MMP9" ++ [Py.LF] ++ lit "MSLW" ++ [Py.LF] in
  map fst (written (trace (ReplaceWCd.process_fasta_file (fun _ => None)
                             (path_join (lit "MMP2") (lit "t.fasta"), inr text)
                             (lit "./out") (lit "YNFFP"))))
  = [lit "out/t.fasta"].
Proof.
  intros text.
  apply (output_keeps_file_name (fun _ => None) (lit "MMP2") (lit "t.fasta")
           text (lit "./out") (lit "YNFFP"));
    [absent | discriminate | discriminate | vm_compute; lia | reflexivity].
Defined.

(** X12.  The file written for an input can be parsed back: when the
    sequences kept from the input and the replacement hold neither
    whitespace nor the marker, parsing the output gives the parsed input
    with the second sequence replaced.  The output is the one file
    written, unless it cannot be opened, in which case nothing is. *)
Theorem output_parses_back (open_w : str -> option exn)
    (path text output_dir replacement_seq : str)
    (r1 : str * str) (h2 s2 : str) (rest : OrderedDict.t) :
  ReplaceWCd.parse_lines (Py.readlines text) = r1 :: (h2, s2) :: rest ->
  forallb residue (snd r1) = true ->
  forallb residue replacement_seq = true ->
  Forall (fun rec => forallb residue (snd rec) = true) rest ->
  exists content,
    written (trace (ReplaceWCd.process_fasta_file open_w (path, inr text)
                      output_dir replacement_seq))
    = match open_w (path_div output_dir (basename path)) with
      | None => [(path_div output_dir (basename path), content)]
      | Some _ => []
      end
    /\ ReplaceWCd.parse_lines (Py.readlines content)
       = r1 :: (h2, replacement_seq) :: rest.
Proof.
  intros E H1 Hr Hrest.
  exists (ReplaceWCd.fasta_text 60 (r1 :: (h2, replacement_seq) :: rest)).
  split.
  - rewrite written_process_fasta_file. unfold expected_outputs.
    cbn [fst snd]. now rewrite E.
  - apply parse_fasta_text; [lia |].
    pose proof (NoDup_keys_parse_lines (Py.readlines text)) as Hnd.
    pose proof (parsed_records_stored text) as Hst.
    rewrite E in Hnd, Hst. split; [exact Hnd |].
    inversion Hst as [|x1 l1 [Hh1 _] Hst1]; subst.
    inversion Hst1 as [|x2 l2 [Hh2 _] Hst2]; subst. cbn [fst snd] in *.
    constructor; [now split |]. constructor; [now split |].
    rewrite Forall_forall in *. intros rec Hin.
    split; [now apply Hst2 | now apply Hrest].
Qed.

Lemma output_parses_back_witness :
  let text := lit ">TIMP3" ++ [Py.LF] ++ lit "CT" ++ [Py.LF] ++ lit "CS"
              ++ [Py.LF] ++ lit ">MMP9" ++ [Py.LF] ++ lit "MS LW" ++ [Py.LF] in
  exists content,
    written (trace (ReplaceWCd.process_fasta_file (fun _ => None)
                      (lit "MMP2/t.fasta", inr text)
                      (lit "out") (lit "YNFFP")))
    = [(lit "out/t.fasta", content)]
    /\ ReplaceWCd.parse_lines (Py.readlines content)
       = [(lit ">TIMP3", lit "CTCS"); (lit ">MMP9", lit "YNFFP")].
Proof.
  intros text.
  apply (output_parses_back (fun _ => None) (lit "MMP2/t.fasta") text
           (lit "out") (lit "YNFFP") (lit ">TIMP3", lit "CTCS") (lit ">MMP9")
           (lit "MS LW") []); try reflexivity.
  constructor.
Defined.

(** ** The splitter: every outcome *)

Lemma split_lines_header_only (filename output_folder l0 : str) :
  Py.startswith [Py.GT] l0 = true ->
  SeparateComplex.split_lines filename [l0] output_folder
  = ([], inl (IndexError (lit "list index out of range"))).
Proof.
  intros H0. unfold SeparateComplex.split_lines. rewrite H0. reflexivity.
Qed.

(** X13.  A file that holds nothing but a header line is not skipped with
    a warning: taking its second line raises [IndexError], which the loop
    body catches and reports; nothing is written. *)
Theorem header_only_file_reported
    (filename path text output_folder l0 : str) :
  Py.readlines text = [l0] ->
  Py.startswith [Py.GT] l0 = true ->
  SeparateComplex.process_entry filename (path, inr text) output_folder
  = ([Print (lit "Error processing file " ++ filename
             ++ lit ": list index out of range")],
     inr tt).
Proof.
  intros Hl H0. rewrite process_entry_unfold, Hl.
  now rewrite split_lines_header_only by exact H0.
Qed.

Lemma header_only_file_reported_witness :
  SeparateComplex.process_entry (lit "c.fasta")
    (lit "in/c.fasta", inr (lit ">cplx" ++ [Py.LF])) (lit "out")
  = ([Print (lit "Error processing file " ++ lit "c.fasta"
             ++ lit ": list index out of range")],
     inr tt).
Proof.
  exact (header_only_file_reported (lit "c.fasta") (lit "in/c.fasta")
           (lit ">cplx" ++ [Py.LF]) (lit "out") (lit ">cplx" ++ [Py.LF])
           eq_refl eq_refl).
Defined.

(** Each run of the loop body prints one line, after at most one write
    into the output folder. *)
Lemma process_entry_shape (filename : str) (f : file) (output_folder : str) :
  exists line,
    trace (SeparateComplex.process_entry filename f output_folder)
    = [Print line]
    \/ exists content,
         trace (SeparateComplex.process_entry filename f output_folder)
         = [WriteFile
              (path_join output_folder
                 (SeparateComplex.splitext_root filename
                  ++ lit "_separated.fasta")) content;
            Print line].
Proof.
  destruct f as [path [e|text]].
  - eexists. left. reflexivity.
  - rewrite process_entry_unfold.
    destruct (Py.readlines text) as [|l0 [|l1 rest]].
    + rewrite split_lines_not_fasta by exact I. eexists. left. reflexivity.
    + destruct (Py.startswith [Py.GT] l0) eqn:H0.
      * rewrite split_lines_header_only by exact H0.
        eexists. left. reflexivity.
      * rewrite split_lines_not_fasta by exact H0.
        eexists. left. reflexivity.
    + destruct (Py.startswith [Py.GT] l0) eqn:H0.
      * destruct (Py.split Py.COLON (Py.strip l1)) as [|a [|b [|c r]]] eqn:E.
        -- rewrite split_lines_rejects;
             [eexists; left; reflexivity | exact H0 | rewrite E; cbn; lia].
        -- rewrite split_lines_rejects;
             [eexists; left; reflexivity | exact H0 | rewrite E; cbn; lia].
        -- rewrite (split_lines_accepts filename output_folder l0 l1 rest
                      a b H0 E).
           eexists. right. eexists. reflexivity.
        -- rewrite split_lines_rejects;
             [eexists; left; reflexivity | exact H0 | rewrite E; cbn; lia].
      * rewrite split_lines_not_fasta by exact H0.
        eexists. left. reflexivity.
Qed.

Lemma printed_app (a b : list event) : printed (a ++ b) = printed a ++ printed b.
Proof. unfold printed. apply flat_map_app. Qed.

Lemma splitter_loop_trace (output_exists : bool)
    (listing : list SeparateComplex.dirent) (input_folder output_folder : str) :
  trace (SeparateComplex.process_fasta_files output_exists listing
           input_folder output_folder)
  = (if output_exists then []
     else [MakeDir output_folder;
           Print (lit "Created output directory: " ++ output_folder)])
    ++ flat_map
         (fun ent =>
            match snd ent with
            | Some content =>
                trace (SeparateComplex.process_entry (fst ent)
                         (path_join input_folder (fst ent), content)
                         output_folder)
            | None => []
            end) listing.
Proof.
  unfold SeparateComplex.process_fasta_files.
  rewrite for_each_total.
  - destruct output_exists; cbn [negb bind emit print ret trace fst app];
      [| do 2 f_equal]; apply flat_map_ext;
      intros [filename [content|]]; reflexivity.
  - intros [filename [content|]]; cbn [fst snd]; [| reflexivity].
    apply process_entry_total.
Qed.

(** X14.  The splitter's loop prints exactly one line for each regular
    file of the input folder (and one more when it had to create the
    output folder), is silent on subdirectories, writes at most one file
    per regular file, and returns normally. *)
Theorem splitter_one_line_per_file (output_exists : bool)
    (listing : list SeparateComplex.dirent) (input_folder output_folder : str) :
  let run := SeparateComplex.process_fasta_files output_exists listing
               input_folder output_folder in
  result run = inr tt
  /\ length (printed (trace run))
     = (if output_exists then 0 else 1) + length (filter is_regular listing)
  /\ length (written (trace run)) <= length (filter is_regular listing).
Proof.
  intros run. subst run. split; [apply process_fasta_files_total |].
  rewrite splitter_loop_trace, printed_app, written_app, !length_app.
  assert (Hhead : length (printed (if output_exists then []
                     else [MakeDir output_folder;
                           Print (lit "Created output directory: "
                                  ++ output_folder)]))
                  = (if output_exists then 0 else 1)
                  /\ length (written (if output_exists then []
                       else [MakeDir output_folder;
                             Print (lit "Created output directory: "
                                    ++ output_folder)])) = 0)
    by (destruct output_exists; split; reflexivity).
  destruct Hhead as [-> ->].
  generalize (if output_exists then 0 else 1). intros n.
  match goal with |- context [printed ?t] => set (tr := t) end.
  enough (H : length (printed tr) = length (filter is_regular listing)
              /\ length (written tr) <= length (filter is_regular listing))
    by (destruct H as [-> H]; split; lia).
  subst tr.
  induction listing as [|[filename [content|]] listing [IHp IHw]];
    cbn [flat_map filter is_regular fst snd length app].
  - split; [reflexivity | cbn; lia].
  - rewrite printed_app, written_app, !length_app.
    destruct (process_entry_shape filename
                (path_join input_folder filename, content) output_folder)
      as [line [->|[c ->]]]; cbn [printed written flat_map app length];
      split; lia.
  - split; [exact IHp | exact IHw].
Qed.

(** X15.  Whatever the extension of an accepted file, its last dot and
    what follows are replaced by [_separated.fasta] in the output name,
    which [os.path.join] puts after the output folder: with one separator
    in between, unless the folder is empty or ends with one.  The name is
    that of a directory entry: it holds no separator. *)
Theorem separated_file_name
    (root ext path text output_folder l0 l1 : str) (rest : list str) :
  existsb (fun c => negb (Ascii.eqb c SeparateComplex.DOT)) root = true ->
  ~ In SeparateComplex.DOT ext ->
  ~ In SLASH root -> ~ In SLASH ext ->
  Py.readlines text = l0 :: l1 :: rest ->
  Py.startswith [Py.GT] l0 = true ->
  count_occ ascii_dec (Py.strip l1) Py.COLON = 1 ->
  map fst (written (trace (SeparateComplex.process_entry
                             (root ++ SeparateComplex.DOT :: ext)
                             (path, inr text) output_folder)))
  = [if negb (Py.truthy output_folder) || endswith_slash output_folder
     then output_folder ++ root ++ lit "_separated.fasta"
     else output_folder ++ lit "/" ++ root ++ lit "_separated.fasta"].
Proof.
  intros Hroot Hext Hsr _ Hl H0 Hc.
  assert (Hname : SeparateComplex.splitext_root
                    (root ++ SeparateComplex.DOT :: ext) = root).
  { unfold SeparateComplex.splitext_root.
    rewrite rfind_dot_last by exact Hext. cbn [Nat.add].
    rewrite firstn_app_exact by reflexivity. now rewrite Hroot. }
  pose proof (length_split Py.COLON (Py.strip l1)) as Hlen.
  rewrite Hc in Hlen.
  destruct (Py.split Py.COLON (Py.strip l1)) as [|a [|b [|c r]]] eqn:E;
    try discriminate Hlen.
  rewrite written_process_entry, Hl.
  rewrite (split_lines_accepts _ output_folder l0 l1 rest a b H0 E).
  cbn [trace fst written flat_map app map]. rewrite Hname.
  unfold path_join. rewrite startswith_slash_absent; [reflexivity |].
  intros Hin. apply in_app_or in Hin as [Hin|Hin]; [now apply Hsr |].
  revert Hin. absent.
Qed.

Lemma separated_file_name_witness :
  map fst (written (trace (SeparateComplex.process_entry
                             (lit "complex_t.v2" ++ SeparateComplex.DOT
                              :: lit "fa")
                             (lit "in/x", inr (lit ">cplx" ++ [Py.LF]
                                               ++ lit "MKV:QRS" ++ [Py.LF]))
                             (lit "out/"))))
  = [lit "out/complex_t.v2_separated.fasta"].
Proof.
  apply (separated_file_name (lit "complex_t.v2") (lit "fa") (lit "in/x")
           (lit ">cplx" ++ [Py.LF] ++ lit "MKV:QRS" ++ [Py.LF]) (lit "out/")
           (lit ">cplx" ++ [Py.LF]) (lit "MKV:QRS" ++ [Py.LF]) []);
    try reflexivity; absent.
Defined.

(** ** Variants ([make_fasta.py]) *)

(** X16.  Putting back the segment that is already there returns the
    template, whatever the offset and the length. *)
Theorem splice_same_segment (start len : nat) (t : str) :
  MakeFasta.splice start len t (Py.slice start (start + len) t) = t.
Proof.
  unfold MakeFasta.splice, Py.slice_to, Py.slice_from.
  rewrite slice_window, app_assoc, firstn_plus.
  apply firstn_skipn.
Qed.

(** X17.  A template too short for the window raises nothing: when it
    ends inside or before the window, everything from the offset on is
    dropped and the replacement comes last; when it ends before the
    offset, the replacement is simply appended. *)
Theorem splice_short_template (start len : nat) (t r : str) :
  (length t <= start + len ->
   MakeFasta.splice start len t r = Py.slice_to start t ++ r)
  /\ (length t <= start -> MakeFasta.splice start len t r = t ++ r).
Proof.
  unfold MakeFasta.splice, Py.slice_to, Py.slice_from. split; intros H.
  - rewrite skipn_all2 by exact H. now rewrite app_nil_r.
  - rewrite skipn_all2 by lia. rewrite firstn_all2 by exact H.
    now rewrite app_nil_r.
Qed.

Lemma splice_short_template_witness :
  MakeFasta.splice 4 3 (lit "MKVQRS") (lit "WW") = lit "MKVQ" ++ lit "WW"
  /\ MakeFasta.splice 8 3 (lit "MKVQRS") (lit "WW") = lit "MKVQRS" ++ lit "WW".
Proof.
  split.
  - apply (proj1 (splice_short_template 4 3 (lit "MKVQRS") (lit "WW"))).
    vm_compute; lia.
  - apply (proj2 (splice_short_template 8 3 (lit "MKVQRS") (lit "WW"))).
    vm_compute; lia.
Defined.

Lemma variants_have_window_length :
  Forall (fun v => length v = MakeFasta.REPLACEMENT_LENGTH)
    MakeFastaFiles.VARIANT_SEQUENCES.
Proof. repeat constructor. Qed.

(** X18.  Every motif of [VARIANT_SEQUENCES] has the length of the window,
    so on a mature sequence of at least 68 residues each variant has the
    length of the template, carries the motif at positions 62 to 67 and
    agrees with the template at every other position. *)
Theorem variant_differs_in_window_only (wt variant : str) :
  In variant MakeFastaFiles.VARIANT_SEQUENCES ->
  68 <= length wt ->
  let v := MakeFasta.TIMP3_VARIANT_SEQ wt variant in
  length v = length wt
  /\ Py.slice 62 68 v = variant
  /\ forall i, i < 62 \/ 68 <= i -> nth_error v i = nth_error wt i.
Proof.
  intros Hin Hlen v. subst v.
  pose proof variants_have_window_length as Hall.
  rewrite Forall_forall in Hall. specialize (Hall _ Hin).
  unfold MakeFasta.REPLACEMENT_LENGTH in Hall.
  unfold MakeFasta.TIMP3_VARIANT_SEQ, MakeFasta.REPLACEMENT_START_INDEX,
    MakeFasta.REPLACEMENT_LENGTH.
  assert (Hl : length (firstn 62 wt) = 62) by (rewrite length_firstn; lia).
  split; [rewrite splice_length by exact Hlen; lia |].
  unfold MakeFasta.splice, Py.slice_to, Py.slice_from, Py.slice. split.
  - rewrite skipn_app_exact by exact Hl.
    apply firstn_app_exact. exact Hall.
  - intros i [Hi|Hi].
    + rewrite nth_error_app1 by lia. rewrite nth_error_firstn.
      now replace (i <? 62) with true by (symmetry; apply Nat.ltb_lt; lia).
    + rewrite nth_error_app2 by lia. rewrite nth_error_app2 by lia.
      rewrite nth_error_skipn. f_equal. lia.
Qed.

Lemma variant_differs_in_window_only_witness :
  let wt := repeat (ascii_of_nat 65) 100 in
  let v := MakeFasta.TIMP3_VARIANT_SEQ wt (lit "YKEDPD") in
  length v = length wt
  /\ Py.slice 62 68 v = lit "YKEDPD"
  /\ forall i, i < 62 \/ 68 <= i -> nth_error v i = nth_error wt i.
Proof.
  intros wt v.
  apply (variant_differs_in_window_only wt (lit "YKEDPD")).
  - vm_compute. do 19 right. now left.
  - vm_compute; lia.
Defined.

(** ** Fetching ([make_fasta.fetch_sequence]) *)

Lemma split_unlines (ls : list str) :
  Forall (fun l => ~ In Py.LF l) ls ->
  Py.split Py.LF (concat (map with_newline ls)) = ls ++ [[]].
Proof.
  induction 1 as [|l ls Hl Hls IH]; cbn [map concat app]; [reflexivity |].
  unfold with_newline at 1. rewrite <- app_assoc. cbn [app].
  rewrite split_at_first_sep by exact Hl. now rewrite IH.
Qed.

Lemma filter_all {A} (p : A -> bool) (l : list A) :
  Forall (fun x => p x = true) l -> filter p l = l.
Proof.
  induction 1 as [|x l Hx Hl IH]; cbn [filter]; [reflexivity |].
  now rewrite Hx, IH.
Qed.

Lemma strip_chunks (cs : list str) :
  Forall (fun c => c <> [] /\ forallb residue c = true) cs ->
  map Py.strip cs = cs.
Proof.
  induction 1 as [|c cs [_ Hr] Hcs IH]; cbn [map]; [reflexivity |].
  now rewrite strip_residue, IH.
Qed.

Lemma fetch_sequence_cases (uniprot_id : str) (response : str + str) :
  let r := MakeFastaFiles.fetch_sequence uniprot_id response in
  (fst r = [] /\ snd r <> []) \/ (exists line, fst r = [line] /\ snd r = []).
Proof.
  destruct response as [e|text]; cbn [MakeFastaFiles.fetch_sequence].
  - right. eexists. split; reflexivity.
  - destruct (Py.join [] _) as [|c t]; cbn [Py.truthy negb fst snd].
    + right. eexists. split; reflexivity.
    + left. split; [reflexivity | discriminate].
Qed.

(** X19.  [fetch_sequence] never returns an empty sequence silently and
    never reports on success: it gives either a non-empty sequence and no
    line on standard error, or the empty sequence and one line.  On the
    text of one FASTA record, wrapped at any width, it returns the
    sequence of the record. *)
Theorem fetch_sequence_outcomes (uniprot_id : str) :
  (forall response,
     let r := MakeFastaFiles.fetch_sequence uniprot_id response in
     (fst r = [] /\ snd r <> []) \/ (exists line, fst r = [line] /\ snd r = []))
  /\ (forall w h s,
        1 <= w -> Py.startswith [Py.GT] h = true -> ~ In Py.LF h ->
        forallb residue s = true -> s <> [] ->
        MakeFastaFiles.fetch_sequence uniprot_id
          (inr (ReplaceWCd.record_text w (h, s))) = ([], s)).
Proof.
  split.
  - intros response. apply fetch_sequence_cases.
  - intros w h s Hw Hh Hlf Hs Hne. unfold MakeFastaFiles.fetch_sequence.
    pose proof (chunks_shape w s Hw Hs) as Hcs.
    rewrite record_text_lines, split_unlines.
    + cbn [app filter]. rewrite Hh. cbn [negb].
      rewrite filter_app, filter_all.
      * cbn [filter Py.startswith negb]. rewrite map_app, join_nil, concat_app.
        rewrite (strip_chunks (chunks w s) Hcs).
        cbn [map concat]. rewrite concat_chunks by exact Hw.
        rewrite !app_nil_r.
        destruct s as [|c t]; [congruence | reflexivity].
      * eapply Forall_impl; [| exact Hcs]. intros c [_ Hc].
        now rewrite chunk_not_header.
    + constructor; [exact Hlf |].
      eapply Forall_impl; [| exact Hcs]. intros c [_ Hc].
      now apply residue_no_line_end.
Qed.

Lemma fetch_sequence_outcomes_witness :
  MakeFastaFiles.fetch_sequence (lit "P35625")
    (inr (ReplaceWCd.record_text 4 (lit ">sp|P35625|TIMP3_HUMAN",
                                    lit "MTPWLGLIVLLG")))
  = ([], lit "MTPWLGLIVLLG").
Proof.
  apply (proj2 (fetch_sequence_outcomes (lit "P35625")) 4
           (lit ">sp|P35625|TIMP3_HUMAN") (lit "MTPWLGLIVLLG"));
    [lia | reflexivity | absent | reflexivity | discriminate].
Defined.

(** ** Writing the pair of files ([make_fasta.write_fasta_file]) *)

(** The lines of the plain file. *)
Lemma plain_text_lines (d : OrderedDict.t) :
  MakeFastaFiles.plain_text d
  = concat (map with_newline
              (flat_map (fun rec => [Py.GT :: fst rec; snd rec]) d)).
Proof.
  unfold MakeFastaFiles.plain_text.
  induction d as [|[h s] d IH]; [reflexivity |].
  cbn [map concat flat_map fst snd]. rewrite IH.
  rewrite map_app, concat_app. cbn [map concat].
  unfold with_newline at 1 2. cbn [app]. now rewrite <- !app_assoc.
Qed.

(** X20.  With at least two sequences and no file system error,
    [write_fasta_file] makes the directory named by the second header up
    to its first underscore (a name that is not empty) and writes there
    the plain file and the
    [complex_] file; with fewer than two sequences it raises [IndexError],
    which its handler for [IOError] lets through, and writes nothing. *)
Theorem write_fasta_file_outputs (filename : str) :
  (forall r1 name tail s2 rest,
     name <> [] -> ~ In MakeFastaFiles.USCORE name ->
     let sequences := r1 :: (name ++ MakeFastaFiles.USCORE :: tail, s2) :: rest in
     MakeFastaFiles.write_fasta_file filename sequences None
     = ([MakeFastaFiles.Std (MakeDir name);
         MakeFastaFiles.Std
           (WriteFile (name ++ lit "/" ++ filename)
              (MakeFastaFiles.plain_text sequences));
         MakeFastaFiles.Std
           (WriteFile (name ++ lit "/" ++ (lit "complex_" ++ filename))
              (MakeFastaFiles.complex_text sequences));
         MakeFastaFiles.Std
           (Print (lit "Successfully created file: " ++ filename))],
        inr tt))
  /\ (forall sequences io_error,
        length sequences < 2 ->
        MakeFastaFiles.write_fasta_file filename sequences io_error
        = ([], inl (IndexError (lit "list index out of range")))).
Proof.
  split.
  - intros r1 name tail s2 rest _ Hn sequences. subst sequences.
    unfold MakeFastaFiles.write_fasta_file.
    cbn [OrderedDict.keys map fst nth_error].
    rewrite split_at_first_sep by exact Hn. reflexivity.
  - intros sequences io_error Hlen. unfold MakeFastaFiles.write_fasta_file.
    destruct sequences as [|r1 [|r2 rest]]; cbn in Hlen; try lia; reflexivity.
Qed.

Lemma write_fasta_file_outputs_witness :
  let sequences := [(lit "TIMP3_VARIANT_WT_HUMAN|P35625", lit "CTCS");
                    (lit "MMP9" ++ MakeFastaFiles.USCORE :: lit "HUMAN|P14780",
                     lit "MSLW")] in
  MakeFastaFiles.files_written
    (fst (MakeFastaFiles.write_fasta_file (lit "t.fasta") sequences None))
  = [(lit "MMP9/t.fasta", MakeFastaFiles.plain_text sequences);
     (lit "MMP9/complex_t.fasta", MakeFastaFiles.complex_text sequences)]
  /\ MakeFastaFiles.write_fasta_file (lit "t.fasta")
       [(lit "TIMP3", lit "CTCS")] None
     = ([], inl (IndexError (lit "list index out of range"))).
Proof.
  intros sequences. subst sequences.
  destruct (write_fasta_file_outputs (lit "t.fasta")) as [H1 H2].
  split.
  - assert (Hu : ~ In MakeFastaFiles.USCORE (lit "MMP9")) by absent.
    pose proof (H1 (lit "TIMP3_VARIANT_WT_HUMAN|P35625", lit "CTCS")
                  (lit "MMP9") (lit "HUMAN|P14780") (lit "MSLW") []
                  ltac:(discriminate) Hu) as E.
    cbv zeta in E.
    exact (f_equal (fun r => MakeFastaFiles.files_written (fst r)) E).
  - apply H2. vm_compute; lia.
Defined.

(** What makes a header and a sequence of [make_fasta.py] survive a
    parse: the header, once marked, is stripped and lies on one line; the
    sequence holds neither whitespace nor the marker. *)
Lemma parse_plain_lines (d : OrderedDict.t) (st : ReplaceWCd.pstate) :
  Forall (fun rec => Py.strip (Py.GT :: fst rec) = Py.GT :: fst rec
                     /\ forallb residue (snd rec) = true) d ->
  NoDup (OrderedDict.keys (ReplaceWCd.flush st)
         ++ map (fun rec => Py.GT :: fst rec) d) ->
  ReplaceWCd.flush
    (fold_left ReplaceWCd.step
       (map with_newline
          (flat_map (fun rec => [Py.GT :: fst rec; snd rec]) d)) st)
  = ReplaceWCd.flush st ++ map (fun rec => (Py.GT :: fst rec, snd rec)) d.
Proof.
  intros Hall. revert st.
  induction Hall as [|[h s] d [Hh Hs] Hd IH]; intros st Hnd.
  - cbn. now rewrite app_nil_r.
  - cbn [fst snd] in Hh, Hs. cbn [flat_map map app fst snd] in *.
    change (with_newline (Py.GT :: h) :: with_newline s :: ?l)
      with ([with_newline (Py.GT :: h); with_newline s] ++ l).
    rewrite fold_left_app.
    set (st2 := fold_left ReplaceWCd.step
                  [with_newline (Py.GT :: h); with_newline s] st).
    assert (Hfl : ReplaceWCd.flush st2
                  = ReplaceWCd.flush st ++ [(Py.GT :: h, s)]).
    { subst st2. rewrite flush_record.
      - rewrite strip_with_newline, Hh. cbn [map concat].
        rewrite strip_with_newline, strip_residue, app_nil_r by exact Hs.
        apply set_fresh. apply NoDup_remove_2 in Hnd.
        intros Hin. apply Hnd. apply in_or_app. now left.
      - now rewrite strip_with_newline, Hh.
      - unfold header_lines. cbn [map filter].
        rewrite strip_with_newline, strip_residue by exact Hs.
        now rewrite chunk_not_header. }
    rewrite IH; rewrite Hfl.
    + now rewrite <- app_assoc.
    + unfold OrderedDict.keys in *. rewrite map_app, <- app_assoc. exact Hnd.
Qed.

Lemma NoDup_map_cons (c : ascii) (l : list str) :
  NoDup l -> NoDup (map (cons c) l).
Proof.
  induction 1 as [|x l Hx Hl IH]; cbn [map]; constructor; [| exact IH].
  intros Hin. apply in_map_iff in Hin as (y & [= ->] & Hy). contradiction.
Qed.

Lemma parse_plain_text (d : OrderedDict.t) :
  NoDup (OrderedDict.keys d) ->
  Forall (fun rec => Py.strip (Py.GT :: fst rec) = Py.GT :: fst rec
                     /\ ~ In Py.LF (fst rec) /\ ~ In Py.CR (fst rec)
                     /\ forallb residue (snd rec) = true) d ->
  ReplaceWCd.parse_lines (Py.readlines (MakeFastaFiles.plain_text d))
  = map (fun rec => (Py.GT :: fst rec, snd rec)) d.
Proof.
  intros Hnd Hall.
  rewrite plain_text_lines, readlines_unlines.
  - unfold ReplaceWCd.parse_lines.
    rewrite (parse_plain_lines d ReplaceWCd.init); [reflexivity | |].
    + eapply Forall_impl; [| exact Hall]. now intros rec (H1 & _ & _ & H4).
    + cbn [ReplaceWCd.flush ReplaceWCd.init ReplaceWCd.current_header
           ReplaceWCd.sequences OrderedDict.keys map app].
      unfold OrderedDict.keys in Hnd.
      rewrite <- (map_map fst (cons Py.GT)). now apply NoDup_map_cons.
  - rewrite Forall_forall in *. intros l Hl.
    apply in_flat_map in Hl as (rec & Hrec & Hl).
    destruct (Hall _ Hrec) as (_ & Hlf & Hcr & Hs).
    destruct Hl as [<-|[<-|[]]].
    + split; intros [E|Hin]; try discriminate E; contradiction.
    + now apply residue_no_line_end.
Qed.

(** X21.  The replacement script takes the plain file of [make_fasta.py]
    as it is: for two distinct headers that are stripped and on one line
    and two sequences without whitespace or marker, the file parses to the
    two records, headers marked, and the run writes them back with the
    second sequence replaced (nothing, when the output cannot be
    opened). *)
Theorem plain_file_is_replaced (open_w : str -> option exn)
    (h1 s1 h2 s2 path output_dir replacement_seq : str) :
  h1 <> h2 ->
  Forall (fun rec => Py.strip (Py.GT :: fst rec) = Py.GT :: fst rec
                     /\ ~ In Py.LF (fst rec) /\ ~ In Py.CR (fst rec)
                     /\ forallb residue (snd rec) = true)
    [(h1, s1); (h2, s2)] ->
  let text := MakeFastaFiles.plain_text [(h1, s1); (h2, s2)] in
  ReplaceWCd.parse_lines (Py.readlines text)
  = [(Py.GT :: h1, s1); (Py.GT :: h2, s2)]
  /\ written (trace (ReplaceWCd.process_fasta_file open_w (path, inr text)
                       output_dir replacement_seq))
     = match open_w (path_div output_dir (basename path)) with
       | None =>
           [(path_div output_dir (basename path),
             ReplaceWCd.fasta_text 60
               [(Py.GT :: h1, s1); (Py.GT :: h2, replacement_seq)])]
       | Some _ => []
       end.
Proof.
  intros Hne Hall text. subst text.
  assert (E : ReplaceWCd.parse_lines
                (Py.readlines (MakeFastaFiles.plain_text [(h1, s1); (h2, s2)]))
              = [(Py.GT :: h1, s1); (Py.GT :: h2, s2)]).
  { rewrite parse_plain_text; [reflexivity | | exact Hall].
    cbn. constructor; [intros [H|[]]; congruence |].
    constructor; [intros [] | constructor]. }
  split; [exact E |].
  rewrite written_process_fasta_file. unfold expected_outputs.
  cbn [fst snd]. now rewrite E.
Qed.

Lemma plain_file_is_replaced_witness :
  let text := MakeFastaFiles.plain_text
                [(lit "TIMP3_VARIANT_WT_HUMAN|P35625", lit "CTCS");
                 (lit "MMP9_HUMAN|P14780", lit "MSLW")] in
  ReplaceWCd.parse_lines (Py.readlines text)
  = [(Py.GT :: lit "TIMP3_VARIANT_WT_HUMAN|P35625", lit "CTCS");
     (Py.GT :: lit "MMP9_HUMAN|P14780", lit "MSLW")]
  /\ written (trace (ReplaceWCd.process_fasta_file (fun _ => None)
                       (lit "MMP9/t.fasta", inr text) (lit "out") (lit "YNFFP")))
     = [(lit "out/t.fasta",
         ReplaceWCd.fasta_text 60
           [(Py.GT :: lit "TIMP3_VARIANT_WT_HUMAN|P35625", lit "CTCS");
            (Py.GT :: lit "MMP9_HUMAN|P14780", lit "YNFFP")])].
Proof.
  intros text.
  apply (plain_file_is_replaced (fun _ => None)
           (lit "TIMP3_VARIANT_WT_HUMAN|P35625")
           (lit "CTCS") (lit "MMP9_HUMAN|P14780") (lit "MSLW")
           (lit "MMP9/t.fasta") (lit "out") (lit "YNFFP")).
  - discriminate.
  - repeat (constructor;
            [repeat split; [absent | absent] |]).
    constructor.
Defined.

(** X22.  The splitter undoes the [complex_] file of [make_fasta.py]: for
    two headers whose join by [+] is stripped, on one line and does not
    begin with the marker, and two sequences without whitespace, marker
    or colon, the run on the complex file writes the two sequences back as
    the records [h1+h2_seq1] and [h1+h2_seq2]. *)
Theorem complex_file_is_split
    (h1 s1 h2 s2 filename path output_folder : str) :
  let header := h1 ++ lit "+" ++ h2 in
  Py.strip (Py.GT :: header) = Py.GT :: header ->
  Py.startswith [Py.GT] header = false ->
  ~ In Py.LF header -> ~ In Py.CR header ->
  forallb residue s1 = true -> forallb residue s2 = true ->
  ~ In Py.COLON s1 -> ~ In Py.COLON s2 ->
  written (trace (SeparateComplex.process_entry filename
                    (path, inr (MakeFastaFiles.complex_text
                                  [(h1, s1); (h2, s2)]))
                    output_folder))
  = [(path_join output_folder
        (SeparateComplex.splitext_root filename ++ lit "_separated.fasta"),
      [Py.GT] ++ header ++ lit "_seq1" ++ [Py.LF] ++ s1 ++ [Py.LF]
      ++ [Py.GT] ++ header ++ lit "_seq2" ++ [Py.LF] ++ s2 ++ [Py.LF])].
Proof.
  intros header Hstrip Hgt Hlf Hcr Hs1 Hs2 Hc1 Hc2.
  assert (Hjoin : forallb residue (s1 ++ [Py.COLON] ++ s2) = true).
  { rewrite !forallb_app, Hs1, Hs2. reflexivity. }
  assert (Htext : MakeFastaFiles.complex_text [(h1, s1); (h2, s2)]
                  = concat (map with_newline
                              [Py.GT :: header; s1 ++ [Py.COLON] ++ s2])).
  { unfold MakeFastaFiles.complex_text, with_newline, header.
    cbn [OrderedDict.keys map fst snd Py.join concat app].
    now rewrite <- !app_assoc, app_nil_r. }
  rewrite written_process_entry, Htext, readlines_unlines.
  - cbn [map].
    rewrite (split_lines_accepts filename output_folder
               (with_newline (Py.GT :: header))
               (with_newline (s1 ++ [Py.COLON] ++ s2)) [] s1 s2).
    + cbn [trace fst written flat_map app].
      rewrite strip_with_newline, Hstrip. unfold Py.lstrip_chars.
      cbn [Py.dropwhile]. rewrite Ascii.eqb_refl.
      replace (Py.dropwhile (Ascii.eqb Py.GT) header) with header;
        [reflexivity |].
      destruct header as [|c t]; [reflexivity |].
      cbn [Py.startswith] in Hgt. rewrite andb_true_r in Hgt.
      cbn [Py.dropwhile]. now rewrite Hgt.
    + reflexivity.
    + rewrite strip_with_newline, strip_residue by exact Hjoin.
      now apply split_colon_join.
  - constructor.
    + split; intros [E|Hin]; try discriminate E; contradiction.
    + constructor; [now apply residue_no_line_end | constructor].
Qed.

Lemma complex_file_is_split_witness :
  written (trace (SeparateComplex.process_entry (lit "complex_t.fasta")
                    (lit "MMP9/complex_t.fasta",
                     inr (MakeFastaFiles.complex_text
                            [(lit "TIMP3_WT", lit "CTCS");
                             (lit "MMP9_HUMAN", lit "MSLW")]))
                    (lit "out")))
  = [(path_join (lit "out")
        (SeparateComplex.splitext_root (lit "complex_t.fasta")
         ++ lit "_separated.fasta"),
      [Py.GT] ++ (lit "TIMP3_WT" ++ lit "+" ++ lit "MMP9_HUMAN")
      ++ lit "_seq1" ++ [Py.LF] ++ lit "CTCS" ++ [Py.LF]
      ++ [Py.GT] ++ (lit "TIMP3_WT" ++ lit "+" ++ lit "MMP9_HUMAN")
      ++ lit "_seq2" ++ [Py.LF] ++ lit "MSLW" ++ [Py.LF])].
Proof.
  apply (complex_file_is_split (lit "TIMP3_WT") (lit "CTCS")
           (lit "MMP9_HUMAN") (lit "MSLW") (lit "complex_t.fasta")
           (lit "MMP9/complex_t.fasta") (lit "out"));
    try reflexivity; absent.
Defined.

(** ** The whole run ([make_fasta.generate_fasta_files]) *)

Lemma files_written_app (a b : list MakeFastaFiles.out) :
  MakeFastaFiles.files_written (a ++ b)
  = MakeFastaFiles.files_written a ++ MakeFastaFiles.files_written b.
Proof. unfold MakeFastaFiles.files_written. apply flat_map_app. Qed.

Lemma files_written_stderr (ls : list str) :
  MakeFastaFiles.files_written (map MakeFastaFiles.Stderr ls) = [].
Proof. induction ls as [|l ls IH]; [reflexivity | exact IH]. Qed.

Lemma fetch_all_fails (responses : str -> str + str)
    (ids : list (str * str)) (acc : OrderedDict.t) (name uid : str) :
  In (name, uid) ids ->
  snd (MakeFastaFiles.fetch_sequence uid (responses uid)) = [] ->
  exists tr,
    MakeFastaRun.fetch_all responses ids acc
    = (tr ++ [MakeFastaFiles.Stderr
                (lit "Aborting file generation due to sequence fetch failure.")],
       None)
    /\ MakeFastaFiles.files_written tr = [].
Proof.
  intros Hin Hfail. revert acc.
  induction ids as [|[n u] ids IH]; intros acc; [destruct Hin |].
  cbn [MakeFastaRun.fetch_all].
  destruct (MakeFastaFiles.fetch_sequence u (responses u)) as [errs seq] eqn:E.
  destruct seq as [|c seq]; cbn [Py.truthy negb].
  - exists (map MakeFastaFiles.Stderr errs).
    split; [reflexivity | apply files_written_stderr].
  - destruct Hin as [[= -> ->]|Hin].
    + rewrite E in Hfail. discriminate Hfail.
    + destruct (IH Hin (OrderedDict.set n (c :: seq) acc)) as (tr & -> & Htr).
      exists (map MakeFastaFiles.Stderr errs ++ tr).
      split; [now rewrite <- app_assoc |].
      now rewrite files_written_app, files_written_stderr, Htr.
Qed.

(** X23.  When the fetch of any of the six sequences fails, the run stops
    in the first loop: it returns normally, its last output is the abort
    line on standard error, and no file has been written. *)
Theorem generate_aborts_on_fetch_failure
    (responses : str -> str + str) (io : str -> option (nat * str))
    (name uid : str) :
  In (name, uid) MakeFastaRun.UNIPROT_IDS ->
  snd (MakeFastaFiles.fetch_sequence uid (responses uid)) = [] ->
  let run := MakeFastaRun.generate_fasta_files responses io in
  snd run = inr tt
  /\ MakeFastaFiles.files_written (fst run) = []
  /\ last (fst run) (MakeFastaFiles.Stderr [])
     = MakeFastaFiles.Stderr
         (lit "Aborting file generation due to sequence fetch failure.").
Proof.
  intros Hin Hfail run. subst run. unfold MakeFastaRun.generate_fasta_files.
  destruct (fetch_all_fails responses MakeFastaRun.UNIPROT_IDS [] name uid
              Hin Hfail) as (tr & -> & Htr).
  split; [reflexivity |]. cbn [fst]. split.
  - change (?x :: ?l) with ([x] ++ l).
    now rewrite !files_written_app, Htr.
  - change (?x :: tr ++ ?l) with ((x :: tr) ++ l). apply last_last.
Qed.

Lemma generate_aborts_on_fetch_failure_witness :
  let responses := fun uid : str =>
    if Py.str_eqb uid (lit "P08253") then inl (lit "404") : str + str
    else inr (lit ">sp" ++ [Py.LF] ++ lit "MKV" ++ [Py.LF]) in
  let run := MakeFastaRun.generate_fasta_files responses (fun _ => None) in
  snd run = inr tt
  /\ MakeFastaFiles.files_written (fst run) = []
  /\ last (fst run) (MakeFastaFiles.Stderr [])
     = MakeFastaFiles.Stderr
         (lit "Aborting file generation due to sequence fetch failure.").
Proof.
  intros responses.
  apply (generate_aborts_on_fetch_failure responses (fun _ => None)
           (lit "MMP2") (lit "P08253")).
  - right. right. now left.
  - reflexivity.
Defined.

Lemma fetch_all_succeeds (responses : str -> str + str)
    (ids : list (str * str)) (acc : OrderedDict.t) :
  (forall name uid, In (name, uid) ids ->
     snd (MakeFastaFiles.fetch_sequence uid (responses uid)) <> []) ->
  MakeFastaRun.fetch_all responses ids acc
  = ([], Some (fold_left
                 (fun d nu =>
                    OrderedDict.set (fst nu)
                      (snd (MakeFastaFiles.fetch_sequence (snd nu)
                              (responses (snd nu)))) d)
                 ids acc)).
Proof.
  revert acc. induction ids as [|[n u] ids IH]; intros acc Hall;
    cbn [MakeFastaRun.fetch_all fold_left fst snd]; [reflexivity |].
  pose proof (Hall n u (or_introl eq_refl)) as Hne.
  destruct (fetch_sequence_cases u (responses u)) as [[He _]|(l & _ & Hs)];
    [| contradiction].
  destruct (MakeFastaFiles.fetch_sequence u (responses u)) as [errs seq].
  cbn [fst snd] in *. subst errs.
  destruct seq as [|c seq]; [congruence |]. cbn [Py.truthy negb map app].
  rewrite IH; [reflexivity |].
  intros name uid Hin. apply (Hall name uid). now right.
Qed.

Lemma generate_variants_files (io : str -> option (nat * str))
    (full_sequences : OrderedDict.t) (timp3_full_seq : str) :
  MakeFastaRun.get (lit "TIMP3") full_sequences = Some timp3_full_seq ->
  let loop := MakeFastaRun.write_variants io full_sequences
                (Py.slice_from 23 timp3_full_seq) 0
                MakeFastaFiles.VARIANT_SEQUENCES in
  MakeFastaFiles.files_written
    (fst (MakeFastaRun.generate_variants io full_sequences))
  = MakeFastaFiles.files_written (fst loop)
  /\ snd (MakeFastaRun.generate_variants io full_sequences) = snd loop.
Proof.
  intros Hget loop. subst loop. unfold MakeFastaRun.generate_variants.
  rewrite Hget.
  destruct (MakeFastaRun.write_variants io full_sequences
              (Py.slice_from 23 timp3_full_seq) 0
              MakeFastaFiles.VARIANT_SEQUENCES) as [tr [e|[]]];
    destruct (length timp3_full_seq =? 211); cbn [negb fst snd];
    rewrite ?files_written_app; cbn [MakeFastaFiles.files_written flat_map app];
    rewrite ?app_nil_r; split; reflexivity.
Qed.

(** X24.  When the six fetches succeed and no file system error is met,
    the run returns normally and writes, variant by variant in the order
    of [VARIANT_SEQUENCES] and target by target in the order of
    [UNIPROT_IDS], a plain file and a [complex_] file into the directory
    named after the target: 210 files in all, twice the count its last
    line announces.  Both hold the TIMP3 variant, that is the mature
    sequence (the fetched one without its first 23 residues) with the
    motif spliced in at offset 62, under the header
    [TIMP3_VARIANT_<label>_HUMAN|P35625], and the target's fetched
    sequence; the wild-type motif goes by the label [WT]. *)
Theorem generate_writes_every_pair (responses : str -> str + str) :
  (forall name uid, In (name, uid) MakeFastaRun.UNIPROT_IDS ->
     snd (MakeFastaFiles.fetch_sequence uid (responses uid)) <> []) ->
  let full := fun uid => snd (MakeFastaFiles.fetch_sequence uid (responses uid)) in
  let run := MakeFastaRun.generate_fasta_files responses (fun _ => None) in
  snd run = inr tt
  /\ MakeFastaFiles.files_written (fst run)
     = flat_map
         (fun variant_sequence =>
            flat_map
              (fun target =>
                 MakeFastaRun.pair_of_files (full (lit "P35625"))
                   variant_sequence target (full (snd target)))
              (tl MakeFastaRun.UNIPROT_IDS))
         MakeFastaFiles.VARIANT_SEQUENCES
  /\ length (MakeFastaFiles.files_written (fst run)) = 210.
Proof.
  intros Hall full run. subst run.
  unfold MakeFastaRun.generate_fasta_files.
  rewrite fetch_all_succeeds by exact Hall.
  change (fun (d : OrderedDict.t) (nu : str * str) =>
            OrderedDict.set (fst nu)
              (snd (MakeFastaFiles.fetch_sequence (snd nu)
                      (responses (snd nu)))) d)
    with (fun (d : OrderedDict.t) (nu : str * str) =>
            OrderedDict.set (fst nu) (full (snd nu)) d).
  clearbody full. clear Hall.
  match goal with
  | |- context [fold_left ?f ?l ?a] => set (fs := fold_left f l a)
  end.
  assert (Hget : MakeFastaRun.get (lit "TIMP3") fs = Some (full (lit "P35625")))
    by (vm_compute; reflexivity).
  destruct (generate_variants_files (fun _ => None) fs (full (lit "P35625")) Hget)
    as [Hfiles Hres].
  destruct (MakeFastaRun.generate_variants (fun _ => None) fs) as [tr r].
  cbn [fst snd app] in *.
  change (MakeFastaFiles.files_written (?x :: tr))
    with (MakeFastaFiles.files_written tr).
  rewrite Hfiles, Hres. subst fs. clear.
  split; [vm_compute; reflexivity |].
  split; vm_compute; reflexivity.
Qed.

Lemma generate_writes_every_pair_witness :
  let responses := fun uid : str =>
    inr (lit ">sp|" ++ uid ++ [Py.LF] ++ repeat (ascii_of_nat 65) 100
         ++ [Py.LF]) : str + str in
  let full := fun uid => snd (MakeFastaFiles.fetch_sequence uid (responses uid)) in
  let run := MakeFastaRun.generate_fasta_files responses (fun _ => None) in
  snd run = inr tt
  /\ MakeFastaFiles.files_written (fst run)
     = flat_map
         (fun variant_sequence =>
            flat_map
              (fun target =>
                 MakeFastaRun.pair_of_files (full (lit "P35625"))
                   variant_sequence target (full (snd target)))
              (tl MakeFastaRun.UNIPROT_IDS))
         MakeFastaFiles.VARIANT_SEQUENCES
  /\ length (MakeFastaFiles.files_written (fst run)) = 210.
Proof.
  intros responses.
  apply (generate_writes_every_pair responses).
  intros name uid Hin.
  repeat (destruct Hin as [[= <- <-]|Hin]; [vm_compute; discriminate |]).
  destruct Hin.
Defined.
